(** * VendasFacil: installments, sale totals and account status

    A shallow embedding of the sale-creation view [venda_create], of the
    model methods [Sale.calcular_valor_total], [SaleItem.save] and
    [atualizar_status], and of the views that mark an account as paid or
    as not paid (vendas/models.py and vendas/views.py).

    Conventions.
    - Python [int] is [Z].  A [datetime.date] is a record of three [Z].
    - A [DecimalField(decimal_places=2)] column holds a whole number of
      cents, a [Z].  A Python [float] or an unrounded [Decimal] is a
      rational [Q]; the non-finite floats and the binary rounding of
      floats are outside the model, and so is the overflow of
      [max_digits].
    - The database is a record of tables, each a list of rows in the order
      of insertion, with one auto-increment counter per table.
    - A Python statement that can raise is a function from the database
      to an outcome and a database: nothing is rolled back when an
      exception is raised. *)

From Stdlib Require Import ZArith QArith Qround List String Ascii Bool Lia.
From Stdlib Require Import DecimalString Lqa Permutation.
Import ListNotations.

Local Open Scope Z_scope.

(** ** datetime.date and calendar.monthrange *)

Module PyDate.

Record date : Type := mkdate { year : Z; month : Z; day : Z }.

Definition MINYEAR : Z := 1.
Definition MAXYEAR : Z := 9999.

(** calendar.isleap *)
Definition isleap (y : Z) : bool :=
  (y mod 4 =? 0) && (negb (y mod 100 =? 0) || (y mod 400 =? 0)).

(** calendar.mdays, indexed by the month; 0 outside 1..12 *)
Definition mdays (m : Z) : Z :=
  match m with
  | 1 => 31 | 2 => 28 | 3 => 31 | 4 => 30 | 5 => 31 | 6 => 30
  | 7 => 31 | 8 => 31 | 9 => 30 | 10 => 31 | 11 => 30 | 12 => 31
  | _ => 0
  end.

(** Number of days of month [m] of year [y], for [m] in 1..12. *)
Definition days_in_month (y m : Z) : Z :=
  mdays m + (if (m =? 2) && isleap y then 1 else 0).

(** calendar.monthrange(y, m)[1]; [None] is IllegalMonthError.  The
    function itself accepts any year. *)
Definition monthrange_ndays (y m : Z) : option Z :=
  if (1 <=? m) && (m <=? 12) then Some (days_in_month y m) else None.

(** The check of the [date] constructor. *)
Definition check_date_fields (y m d : Z) : bool :=
  (MINYEAR <=? y) && (y <=? MAXYEAR) &&
  (1 <=? m) && (m <=? 12) &&
  (1 <=? d) && (d <=? days_in_month y m).

Definition valid (d : date) : bool :=
  check_date_fields (year d) (month d) (day d).

(** date(y, m, d); [None] is ValueError. *)
Definition new (y m d : Z) : option date :=
  if check_date_fields y m d then Some (mkdate y m d) else None.

(** d.replace(month=m, year=y): the day is kept. *)
Definition replace_month_year (d : date) (m y : Z) : option date :=
  new y m (day d).

(** d.replace(month=m, year=y, day=dd) *)
Definition replace_all (d : date) (m y dd : Z) : option date :=
  new y m dd.

(** d1 < d2 *)
Definition ltb (d1 d2 : date) : bool :=
  (year d1 <? year d2)
  || ((year d1 =? year d2)
      && ((month d1 <? month d2)
          || ((month d1 =? month d2) && (day d1 <? day d2)))).

Definition lt (d1 d2 : date) : Prop := ltb d1 d2 = true.

(** d - timedelta(days=1); [None] is OverflowError, below date.min. *)
Definition minus_one_day (d : date) : option date :=
  if 1 <? day d then new (year d) (month d) (day d - 1)
  else if 1 <? month d
       then new (year d) (month d - 1) (days_in_month (year d) (month d - 1))
       else new (year d - 1) 12 31.

End PyDate.

Import PyDate.

(** ** The due date of an installment (views.py, venda_create, the body of
       [for i in range(parcelas)]) *)

(** [while mes_vencimento > 12: mes_vencimento -= 12; ano_vencimento += 1].
    [None] when the fuel runs out before the loop ends. *)
Fixpoint ajusta_ano (fuel : nat) (mes ano : Z) : option (Z * Z) :=
  if mes >? 12 then
    match fuel with
    | O => None
    | S fuel' => ajusta_ano fuel' (mes - 12) (ano + 1)
    end
  else Some (mes, ano).

(** The month and the year of installment [i]: lines 1066 to 1072.  The
    loop is given [Z.to_nat mes] steps, more than it ever takes. *)
Definition mes_ano_vencimento (d : date) (i : Z) : option (Z * Z) :=
  let mes_vencimento := month d + i in
  let ano_vencimento := year d in
  ajusta_ano (Z.to_nat mes_vencimento) mes_vencimento ano_vencimento.

(** The due date of installment [i]: lines 1066 to 1089.  [None] is an
    exception that leaves the [try] of line 1075. *)
Definition data_parcela (d : date) (i : Z) : option date :=
  match mes_ano_vencimento d i with
  | None => None
  | Some (mes_vencimento, ano_vencimento) =>
      match replace_month_year d mes_vencimento ano_vencimento with
      | Some data => Some data
      | None =>
          (* except ValueError *)
          match monthrange_ndays ano_vencimento mes_vencimento with
          | None => None
          | Some ultimo_dia =>
              replace_all d mes_vencimento ano_vencimento ultimo_dia
          end
      end
  end.

(** range(n) *)
Definition range (n : Z) : list Z := map Z.of_nat (seq 0 (Z.to_nat n)).

(** The due dates the loop computes, in order; [None] as soon as one
    installment raises. *)
Fixpoint all_dates (d : date) (idx : list Z) : option (list date) :=
  match idx with
  | [] => Some []
  | i :: rest =>
      match data_parcela d i with
      | None => None
      | Some x =>
          match all_dates d rest with
          | None => None
          | Some xs => Some (x :: xs)
          end
      end
  end.

Definition compute_installment_dates (d : date) (count : Z)
  : option (list date) :=
  all_dates d (range count).

(** The target month of the specification: month [anchor.month + i], the
    year rolled forward once for every twelve months crossed. *)
Definition target_month (d : date) (i : Z) : Z := (month d - 1 + i) mod 12 + 1.
Definition target_year (d : date) (i : Z) : Z := year d + (month d - 1 + i) / 12.

(** ** Money: DecimalField(decimal_places=2) *)

(** Rounding to the nearest integer, ties to the even one: the rounding of
    [Decimal.quantize] under the default context. *)
Definition round_half_even (q : Q) : Z :=
  let f := Qfloor q in
  match Qcompare (q - inject_Z f) (1 # 2) with
  | Lt => f
  | Gt => f + 1
  | Eq => if Z.even f then f else f + 1
  end.

(** The cents a two-place decimal column keeps of the amount [x]. *)
Definition to_cents (x : Q) : Z := round_half_even (x * inject_Z 100).

(** The amount read back from a two-place decimal column. *)
Definition of_cents (c : Z) : Q := inject_Z c / inject_Z 100.

(** x < y on numbers *)
Definition Qltb (x y : Q) : bool :=
  match (x ?= y)%Q with Lt => true | _ => false end.

(** ** Strings and the built-in conversions *)

(** [not s] for a string *)
Definition is_empty (s : string) : bool :=
  match s with EmptyString => true | String _ _ => false end.

(** s.replace(',', '.') *)
Fixpoint replace_comma (s : string) : string :=
  match s with
  | EmptyString => EmptyString
  | String c rest =>
      String (if Ascii.eqb c "," then "."%char else c) (replace_comma rest)
  end.

(** zip(a, b, c) *)
Fixpoint zip3 {A B C : Type} (a : list A) (b : list B) (c : list C)
  : list (A * B * C) :=
  match a, b, c with
  | x :: a', y :: b', z :: c' => (x, y, z) :: zip3 a' b' c'
  | _, _, _ => []
  end.

(** The conversions of the Python runtime the views call on form input.
    [None] is ValueError.  The views are modelled over any functions with
    the three facts below, which hold of Python's. *)
Class Builtins : Type := {
  py_int : string -> option Z;                 (* int(s) *)
  py_float : string -> option Q;               (* float(s) *)
  py_strptime_date : string -> option date;    (* strptime(s, '%Y-%m-%d').date() *)
  py_strip : string -> string;                 (* s.strip() *)
  py_int_empty : py_int EmptyString = None;
  py_float_empty : py_float EmptyString = None;
  py_strptime_valid :
    forall s d, py_strptime_date s = Some d -> valid d = true
}.

(** ** The tables *)

Record Client : Type := mkClient {
  client_id : Z;
  client_usuario : Z;
  client_nome : string
}.

Record Product : Type := mkProduct {
  product_id : Z;
  product_usuario : Z;
  product_nome : string
}.

Record Sale : Type := mkSale {
  sale_id : Z;
  sale_usuario : Z;
  sale_cliente : Z;
  valor_total : Z;                      (* cents *)
  forma_pagamento : string;
  sale_data_vencimento : date;
  sale_observacoes : option string
}.

Record SaleItem : Type := mkSaleItem {
  item_id : Z;
  item_venda : Z;
  item_produto : option Z;
  quantidade : Z;
  preco_unitario : Z;                   (* cents *)
  subtotal : Z                          (* cents *)
}.

Record AccountsReceivable : Type := mkReceivable {
  ar_id : Z;
  ar_usuario : Z;
  ar_venda : Z;
  ar_cliente : Z;
  ar_valor : Z;                         (* cents *)
  ar_data_vencimento : date;
  ar_data_pagamento : option date;
  ar_status : string;
  ar_observacoes : option string
}.

Record AccountsPayable : Type := mkPayable {
  ap_id : Z;
  ap_usuario : Z;
  ap_descricao : string;
  ap_valor : Z;                         (* cents *)
  ap_data_vencimento : date;
  ap_data_pagamento : option date;
  ap_status : string;
  ap_observacoes : option string
}.

Record DB : Type := mkDB {
  clients : list Client;
  products : list Product;
  sales : list Sale;
  sale_items : list SaleItem;
  contas_receber : list AccountsReceivable;
  contas_pagar : list AccountsPayable;
  seq_sale : Z;                         (* next primary keys *)
  seq_item : Z;
  seq_receber : Z
}.

Definition set_sales (db : DB) (l : list Sale) : DB :=
  mkDB (clients db) (products db) l (sale_items db) (contas_receber db)
       (contas_pagar db) (seq_sale db) (seq_item db) (seq_receber db).

Definition set_sale_items (db : DB) (l : list SaleItem) : DB :=
  mkDB (clients db) (products db) (sales db) l (contas_receber db)
       (contas_pagar db) (seq_sale db) (seq_item db) (seq_receber db).

Definition set_contas_receber (db : DB) (l : list AccountsReceivable) : DB :=
  mkDB (clients db) (products db) (sales db) (sale_items db) l
       (contas_pagar db) (seq_sale db) (seq_item db) (seq_receber db).

Definition set_contas_pagar (db : DB) (l : list AccountsPayable) : DB :=
  mkDB (clients db) (products db) (sales db) (sale_items db)
       (contas_receber db) l (seq_sale db) (seq_item db) (seq_receber db).

(** ** Statements that raise *)

Inductive model : Type := MClient | MProduct | MSale | MReceber | MPagar.

Inductive exn : Type :=
| ValueError
| DoesNotExist (m : model).

Inductive result (A : Type) : Type :=
| Ok (a : A)
| Raise (e : exn).
Arguments Ok {A} a.
Arguments Raise {A} e.

(** A statement run against the database: the database it leaves is kept
    also when it raises. *)
Definition M (A : Type) : Type := DB -> result A * DB.

Definition ret {A : Type} (a : A) : M A := fun db => (Ok a, db).

Definition raise {A : Type} (e : exn) : M A := fun db => (Raise e, db).

Definition bind {A B : Type} (m : M A) (k : A -> M B) : M B :=
  fun db =>
    match m db with
    | (Ok a, db') => k a db'
    | (Raise e, db') => (Raise e, db')
    end.

(** try: m / except: h *)
Definition try_except {A : Type} (m : M A) (h : exn -> M A) : M A :=
  fun db =>
    match m db with
    | (Ok a, db') => (Ok a, db')
    | (Raise e, db') => h e db'
    end.

(** A conversion that raises ValueError *)
Definition value_of {A : Type} (o : option A) : M A :=
  match o with Some a => ret a | None => raise ValueError end.

Declare Scope py_scope.
Delimit Scope py_scope with py.
Notation "x <- m ;; k" := (bind m (fun x => k))
  (at level 61, m at next level, right associativity) : py_scope.
Notation "m ;;; k" := (bind m (fun _ => k))
  (at level 61, right associativity) : py_scope.

(** for x in l: body(x) *)
Fixpoint for_each {A : Type} (l : list A) (body : A -> M unit) : M unit :=
  match l with
  | [] => ret tt
  | x :: rest => bind (body x) (fun _ => for_each rest body)
  end.

Local Open Scope py_scope.

(** ** models.py *)

(** sum(xs) *)
Definition sum_Z (xs : list Z) : Z := fold_left Z.add xs 0.

(** sale.itens.all(): the rows of SaleItem whose foreign key is the sale *)
Definition itens_all (db : DB) (venda : Z) : list SaleItem :=
  filter (fun it => item_venda it =? venda) (sale_items db).

Definition with_valor_total (s : Sale) (total : Z) : Sale :=
  mkSale (sale_id s) (sale_usuario s) (sale_cliente s) total
         (forma_pagamento s) (sale_data_vencimento s) (sale_observacoes s).

(** Sale.calcular_valor_total, on the sale of primary key [venda].  The
    object in memory and its row agree on every other column, so saving
    the object writes [valor_total] into the row. *)
Definition calcular_valor_total (venda : Z) : M Z :=
  fun db =>
    let total := sum_Z (map subtotal (itens_all db venda)) in
    (Ok total,
     set_sales db
       (map (fun s => if sale_id s =? venda then with_valor_total s total else s)
            (sales db))).

(** A SaleItem in memory, before it is saved: the price is still the
    number the caller gave, and the primary key is [None] until the first
    save. *)
Record SaleItemObj : Type := mkSaleItemObj {
  obj_pk : option Z;
  obj_venda : Z;
  obj_produto : option Z;
  obj_quantidade : Z;
  obj_preco_unitario : Q
}.

(** models.Model.save for a SaleItem: UPDATE of the row of that primary
    key, INSERT when there is none. *)
Definition SaleItem_super_save (obj : SaleItemObj) (sub : Q) : M unit :=
  fun db =>
    let row k :=
      mkSaleItem k (obj_venda obj) (obj_produto obj) (obj_quantidade obj)
                 (to_cents (obj_preco_unitario obj)) (to_cents sub) in
    match obj_pk obj with
    | Some k =>
        if existsb (fun it => item_id it =? k) (sale_items db)
        then (Ok tt,
              set_sale_items db
                (map (fun it => if item_id it =? k then row k else it)
                     (sale_items db)))
        else (Ok tt,
              mkDB (clients db) (products db) (sales db)
                   (sale_items db ++ [row k]) (contas_receber db)
                   (contas_pagar db) (seq_sale db)
                   (Z.max (seq_item db) (k + 1)) (seq_receber db))
    | None =>
        (Ok tt,
         mkDB (clients db) (products db) (sales db)
              (sale_items db ++ [row (seq_item db)]) (contas_receber db)
              (contas_pagar db) (seq_sale db) (seq_item db + 1)
              (seq_receber db))
    end.

(** SaleItem.save *)
Definition SaleItem_save (obj : SaleItemObj) : M unit :=
  let sub := (inject_Z (obj_quantidade obj) * obj_preco_unitario obj)%Q in
  SaleItem_super_save obj sub ;;;
  (* Recalcula o valor total da venda *)
  _ <- calcular_valor_total (obj_venda obj) ;;
  ret tt.

(** SaleItem.objects.create(venda=, produto=, quantidade=, preco_unitario=) *)
Definition SaleItem_objects_create (venda produto quantidade : Z) (preco : Q)
  : M unit :=
  SaleItem_save (mkSaleItemObj None venda (Some produto) quantidade preco).


(** Sale.objects.create(...): [valor_total] takes its default, 0. *)
Definition Sale_objects_create (usuario cliente : Z) (forma : string)
           (vencimento : date) (obs : option string) : M Sale :=
  fun db =>
    let venda := mkSale (seq_sale db) usuario cliente 0 forma vencimento obs in
    (Ok venda,
     mkDB (clients db) (products db) (sales db ++ [venda]) (sale_items db)
          (contas_receber db) (contas_pagar db) (seq_sale db + 1)
          (seq_item db) (seq_receber db)).

(** sale.delete(): the items and the receivables of the sale go with it
    (on_delete=CASCADE). *)
Definition Sale_delete (venda : Z) : M unit :=
  fun db =>
    (Ok tt,
     mkDB (clients db) (products db)
          (filter (fun s => negb (sale_id s =? venda)) (sales db))
          (filter (fun it => negb (item_venda it =? venda)) (sale_items db))
          (filter (fun c => negb (ar_venda c =? venda)) (contas_receber db))
          (contas_pagar db) (seq_sale db) (seq_item db) (seq_receber db)).

(** AccountsReceivable.objects.create(...): [status] takes its default,
    'pendente', and [data_pagamento] is empty. *)
Definition AccountsReceivable_objects_create
           (usuario venda cliente : Z) (valor : Q) (vencimento : date)
           (obs : option string) : M unit :=
  fun db =>
    let conta :=
      mkReceivable (seq_receber db) usuario venda cliente (to_cents valor)
                   vencimento None "pendente" obs in
    (Ok tt,
     mkDB (clients db) (products db) (sales db) (sale_items db)
          (contas_receber db ++ [conta]) (contas_pagar db) (seq_sale db)
          (seq_item db) (seq_receber db + 1)).

(** models.Model.save for the row of a table keyed by [key]. *)
Definition save_row {A : Type} (key : A -> Z) (row : A) (l : list A) : list A :=
  if existsb (fun r => key r =? key row) l
  then map (fun r => if key r =? key row then row else r) l
  else l ++ [row].

Definition AccountsReceivable_save (conta : AccountsReceivable) : M unit :=
  fun db =>
    (Ok tt, set_contas_receber db (save_row ar_id conta (contas_receber db))).

Definition AccountsPayable_save (conta : AccountsPayable) : M unit :=
  fun db =>
    (Ok tt, set_contas_pagar db (save_row ap_id conta (contas_pagar db))).

Definition ar_with_status (c : AccountsReceivable) (st : string)
  : AccountsReceivable :=
  mkReceivable (ar_id c) (ar_usuario c) (ar_venda c) (ar_cliente c)
               (ar_valor c) (ar_data_vencimento c) (ar_data_pagamento c) st
               (ar_observacoes c).

Definition ar_with_pagamento (c : AccountsReceivable) (d : option date)
  : AccountsReceivable :=
  mkReceivable (ar_id c) (ar_usuario c) (ar_venda c) (ar_cliente c)
               (ar_valor c) (ar_data_vencimento c) d (ar_status c)
               (ar_observacoes c).

Definition ap_with_status (c : AccountsPayable) (st : string)
  : AccountsPayable :=
  mkPayable (ap_id c) (ap_usuario c) (ap_descricao c) (ap_valor c)
            (ap_data_vencimento c) (ap_data_pagamento c) st
            (ap_observacoes c).

Definition ap_with_pagamento (c : AccountsPayable) (d : option date)
  : AccountsPayable :=
  mkPayable (ap_id c) (ap_usuario c) (ap_descricao c) (ap_valor c)
            (ap_data_vencimento c) d (ap_status c) (ap_observacoes c).

(** AccountsReceivable.atualizar_status, with [hoje] for
    [timezone.now().date()].  The result is the object after the call. *)
Definition AccountsReceivable_atualizar_status
           (hoje : date) (conta : AccountsReceivable) : M AccountsReceivable :=
  if String.eqb (ar_status conta) "pago" then ret conta
  else
    let conta' :=
      if ltb (ar_data_vencimento conta) hoje
      then ar_with_status conta "vencido"
      else ar_with_status conta "pendente" in
    AccountsReceivable_save conta' ;;;
    ret conta'.

(** AccountsPayable.atualizar_status *)
Definition AccountsPayable_atualizar_status
           (hoje : date) (conta : AccountsPayable) : M AccountsPayable :=
  if String.eqb (ap_status conta) "pago" then ret conta
  else
    let conta' :=
      if ltb (ap_data_vencimento conta) hoje
      then ap_with_status conta "vencido"
      else ap_with_status conta "pendente" in
    AccountsPayable_save conta' ;;;
    ret conta'.

(** ** views.py *)

(** request.method, request.user and request.POST, a multi-valued
    dictionary: the pairs of the form in the order they were sent. *)
Record request : Type := mkRequest {
  method : string;
  user : Z;
  POST : list (string * string)
}.

(** request.POST.getlist(key) *)
Definition POST_getlist (r : request) (key : string) : list string :=
  map snd (filter (fun kv => String.eqb (fst kv) key) (POST r)).

(** request.POST.get(key, default): the last value sent for the key *)
Definition POST_get (r : request) (key default : string) : string :=
  last (POST_getlist r key) default.

(** The texts handed to [messages.error] and [messages.success]. *)
Inductive message : Type :=
| ClienteObrigatorio
| DataVencimentoObrigatoria
| ClienteNaoEncontrado
| AdicioneProduto
| ErroAoCriarVenda (e : exn)
| VendaCriada (id parcelas : Z)
| ContaNaoEncontrada
| DataPagamentoObrigatoria
| ErroAoMarcarPago (e : exn)
| ContaMarcadaPaga (id : Z)
| ContaMarcadaNaoPaga (id : Z).

Inductive response : Type :=
| Render (template : string) (msg : option message)
| Redirect (to : string) (pk : option Z) (msg : option message)
| Uncaught (e : exn).

(** str(n) *)
Definition str (n : Z) : string := NilZero.string_of_int (Z.to_int n).

Section Views.

Context {B : Builtins}.

(** Client.objects.get(id=cliente_id, usuario=usuario) *)
Definition Client_objects_get (cliente_id : string) (usuario : Z) : M Client :=
  k <- value_of (py_int cliente_id) ;;
  fun db =>
    match find (fun c => (client_id c =? k) && (client_usuario c =? usuario))
               (clients db) with
    | Some c => (Ok c, db)
    | None => (Raise (DoesNotExist MClient), db)
    end.

(** Product.objects.get(id=produto_id, usuario=usuario) *)
Definition Product_objects_get (produto_id : string) (usuario : Z)
  : M Product :=
  k <- value_of (py_int produto_id) ;;
  fun db =>
    match find (fun p => (product_id p =? k) && (product_usuario p =? usuario))
               (products db) with
    | Some p => (Ok p, db)
    | None => (Raise (DoesNotExist MProduct), db)
    end.

(** venda_create, lines 1032 to 1055: the body of the loop over the
    submitted tuples.  [continue] is [ret tt]. *)
Definition processa_item (usuario venda : Z)
           (t : string * string * string) : M unit :=
  let '(produto_id, quantidade, preco) := t in
  if is_empty produto_id || is_empty quantidade || is_empty preco
  then ret tt
  else
    try_except
      (produto <- Product_objects_get produto_id usuario ;;
       quantidade <- value_of (py_int quantidade) ;;
       preco <- value_of (py_float (replace_comma preco)) ;;
       if quantidade <=? 0 then ret tt
       else if Qltb preco 0 then ret tt
       else SaleItem_objects_create venda (product_id produto) quantidade preco)
      (fun e =>
         match e with
         | DoesNotExist MProduct | ValueError => ret tt
         | _ => raise e
         end).

(** venda_create, lines 1063 to 1099: the body of the loop over the
    installments. *)
Definition cria_parcela (usuario venda cliente : Z) (vencimento : date)
           (valor_parcela : Q) (parcelas i : Z) : M unit :=
  data <- value_of (data_parcela vencimento i) ;;
  AccountsReceivable_objects_create usuario venda cliente valor_parcela data
    (if parcelas >? 1
     then Some ("Parcela " ++ str (i + 1) ++ " de " ++ str parcelas)%string
     else None).

(** venda_create, lines 1006 to 1008 *)
Definition converte_parcelas (parcelas : string) : M Z :=
  parcelas <- (if is_empty parcelas then ret 1 else value_of (py_int parcelas)) ;;
  ret (if parcelas <? 1 then 1 else parcelas).

(** venda_create, lines 1002 to 1102: the body of the [try]. *)
Definition venda_create_try (r : request) (cliente : Client)
           (forma_pagamento data_vencimento parcelas observacoes : string)
  : M response :=
  let usuario := user r in
  data_vencimento_obj <- value_of (py_strptime_date data_vencimento) ;;
  parcelas <- converte_parcelas parcelas ;;
  venda <- Sale_objects_create usuario (client_id cliente) forma_pagamento
             data_vencimento_obj
             (if is_empty observacoes then None else Some observacoes) ;;
  let produtos_ids := POST_getlist r "produto_id[]" in
  let quantidades := POST_getlist r "quantidade[]" in
  let precos := POST_getlist r "preco[]" in
  match produtos_ids with
  | [] =>
      Sale_delete (sale_id venda) ;;;
      ret (Render "vendas/vendas/form.html" (Some AdicioneProduto))
  | _ :: _ =>
      for_each (zip3 produtos_ids quantidades precos)
               (processa_item usuario (sale_id venda)) ;;;
      total <- calcular_valor_total (sale_id venda) ;;
      let valor_parcela := (of_cents total / inject_Z parcelas)%Q in
      for_each (range parcelas)
               (cria_parcela usuario (sale_id venda) (client_id cliente)
                             data_vencimento_obj valor_parcela parcelas) ;;;
      ret (Redirect "vendas:venda_detail" (Some (sale_id venda))
                    (Some (VendaCriada (sale_id venda) parcelas)))
  end.

(** venda_create *)
Definition venda_create (r : request) (db : DB) : response * DB :=
  let usuario := user r in
  if String.eqb (method r) "POST" then
    let cliente_id := POST_get r "cliente" "" in
    let forma_pagamento := POST_get r "forma_pagamento" "dinheiro" in
    let data_vencimento := POST_get r "data_vencimento" "" in
    let parcelas := POST_get r "parcelas" "1" in
    let observacoes := py_strip (POST_get r "observacoes" "") in
    if is_empty cliente_id
    then (Render "vendas/vendas/form.html" (Some ClienteObrigatorio), db)
    else if is_empty data_vencimento
    then (Render "vendas/vendas/form.html" (Some DataVencimentoObrigatoria), db)
    else
      match Client_objects_get cliente_id usuario db with
      | (Raise (DoesNotExist MClient), db1) =>
          (Render "vendas/vendas/form.html" (Some ClienteNaoEncontrado), db1)
      | (Raise e, db1) => (Uncaught e, db1)
      | (Ok cliente, db1) =>
          match venda_create_try r cliente forma_pagamento data_vencimento
                                 parcelas observacoes db1 with
          | (Ok resp, db2) => (resp, db2)
          | (Raise e, db2) =>
              (Render "vendas/vendas/form.html" (Some (ErroAoCriarVenda e)), db2)
          end
      end
  else (Render "vendas/vendas/form.html" None, db).

(** AccountsReceivable.objects.get(pk=pk, usuario=usuario) *)
Definition AccountsReceivable_objects_get (pk usuario : Z)
  : M AccountsReceivable :=
  fun db =>
    match find (fun c => (ar_id c =? pk) && (ar_usuario c =? usuario))
               (contas_receber db) with
    | Some c => (Ok c, db)
    | None => (Raise (DoesNotExist MReceber), db)
    end.

(** AccountsPayable.objects.get(pk=pk, usuario=usuario) *)
Definition AccountsPayable_objects_get (pk usuario : Z) : M AccountsPayable :=
  fun db =>
    match find (fun c => (ap_id c =? pk) && (ap_usuario c =? usuario))
               (contas_pagar db) with
    | Some c => (Ok c, db)
    | None => (Raise (DoesNotExist MPagar), db)
    end.

(** conta_receber_marcar_pago *)
Definition conta_receber_marcar_pago (r : request) (pk : Z) (db : DB)
  : response * DB :=
  match AccountsReceivable_objects_get pk (user r) db with
  | (Raise (DoesNotExist MReceber), db1) =>
      (Redirect "vendas:contas_receber_list" None (Some ContaNaoEncontrada), db1)
  | (Raise e, db1) => (Uncaught e, db1)
  | (Ok conta, db1) =>
      if String.eqb (method r) "POST" then
        let data_pagamento := POST_get r "data_pagamento" "" in
        if is_empty data_pagamento
        then (Render "vendas/contas_receber/marcar_pago.html"
                     (Some DataPagamentoObrigatoria), db1)
        else
          match (data_pagamento_obj <- value_of (py_strptime_date data_pagamento) ;;
                 let conta1 := ar_with_pagamento conta (Some data_pagamento_obj) in
                 let conta2 := ar_with_status conta1 "pago" in
                 AccountsReceivable_save conta2 ;;;
                 ret (Redirect "vendas:conta_receber_detail" (Some pk)
                               (Some (ContaMarcadaPaga (ar_id conta2))))) db1 with
          | (Ok resp, db2) => (resp, db2)
          | (Raise e, db2) =>
              (Render "vendas/contas_receber/marcar_pago.html"
                      (Some (ErroAoMarcarPago e)), db2)
          end
      else (Render "vendas/contas_receber/marcar_pago.html" None, db1)
  end.

(** conta_receber_marcar_nao_pago *)
Definition conta_receber_marcar_nao_pago (r : request) (pk : Z) (db : DB)
  : response * DB :=
  match AccountsReceivable_objects_get pk (user r) db with
  | (Raise (DoesNotExist MReceber), db1) =>
      (Redirect "vendas:contas_receber_list" None (Some ContaNaoEncontrada), db1)
  | (Raise e, db1) => (Uncaught e, db1)
  | (Ok conta, db1) =>
      let conta1 := ar_with_pagamento conta None in
      let conta2 := ar_with_status conta1 "pendente" in
      match AccountsReceivable_save conta2 db1 with
      | (Ok _, db2) =>
          (Redirect "vendas:conta_receber_detail" (Some pk)
                    (Some (ContaMarcadaNaoPaga (ar_id conta2))), db2)
      | (Raise e, db2) => (Uncaught e, db2)
      end
  end.

(** conta_pagar_marcar_pago *)
Definition conta_pagar_marcar_pago (r : request) (pk : Z) (db : DB)
  : response * DB :=
  match AccountsPayable_objects_get pk (user r) db with
  | (Raise (DoesNotExist MPagar), db1) =>
      (Redirect "vendas:contas_pagar_list" None (Some ContaNaoEncontrada), db1)
  | (Raise e, db1) => (Uncaught e, db1)
  | (Ok conta, db1) =>
      if String.eqb (method r) "POST" then
        let data_pagamento := POST_get r "data_pagamento" "" in
        if is_empty data_pagamento
        then (Render "vendas/contas_pagar/marcar_pago.html"
                     (Some DataPagamentoObrigatoria), db1)
        else
          match (data_pagamento_obj <- value_of (py_strptime_date data_pagamento) ;;
                 let conta1 := ap_with_pagamento conta (Some data_pagamento_obj) in
                 let conta2 := ap_with_status conta1 "pago" in
                 AccountsPayable_save conta2 ;;;
                 ret (Redirect "vendas:conta_pagar_detail" (Some pk)
                               (Some (ContaMarcadaPaga (ap_id conta2))))) db1 with
          | (Ok resp, db2) => (resp, db2)
          | (Raise e, db2) =>
              (Render "vendas/contas_pagar/marcar_pago.html"
                      (Some (ErroAoMarcarPago e)), db2)
          end
      else (Render "vendas/contas_pagar/marcar_pago.html" None, db1)
  end.

(** conta_pagar_marcar_nao_pago *)
Definition conta_pagar_marcar_nao_pago (r : request) (pk : Z) (db : DB)
  : response * DB :=
  match AccountsPayable_objects_get pk (user r) db with
  | (Raise (DoesNotExist MPagar), db1) =>
      (Redirect "vendas:contas_pagar_list" None (Some ContaNaoEncontrada), db1)
  | (Raise e, db1) => (Uncaught e, db1)
  | (Ok conta, db1) =>
      let conta1 := ap_with_pagamento conta None in
      let conta2 := ap_with_status conta1 "pendente" in
      match AccountsPayable_save conta2 db1 with
      | (Ok _, db2) =>
          (Redirect "vendas:conta_pagar_detail" (Some pk)
                    (Some (ContaMarcadaNaoPaga (ap_id conta2))), db2)
      | (Raise e, db2) => (Uncaught e, db2)
      end
  end.

End Views.

(** ** Plain decimal conversions

    Conversions that agree with Python's on the literals they accept: an
    optional sign and ASCII digits, a single decimal point for a float,
    year-month-day for a date.  They stand for the runtime in the worked
    examples. *)

Module Plain.

Definition digit (c : ascii) : option Z :=
  let n := Z.of_N (N_of_ascii c) in
  if (48 <=? n) && (n <=? 57) then Some (n - 48) else None.

Fixpoint digits_from (acc : Z) (s : string) : option Z :=
  match s with
  | EmptyString => Some acc
  | String c rest =>
      match digit c with
      | Some d => digits_from (10 * acc + d) rest
      | None => None
      end
  end.

(** One digit or more *)
Definition digits (s : string) : option Z :=
  if is_empty s then None else digits_from 0 s.

Definition int (s : string) : option Z :=
  match s with
  | String "-" rest => option_map Z.opp (digits rest)
  | String "+" rest => digits rest
  | _ => digits s
  end.

(** The text before the first [sep] and, when there is one, the text
    after it. *)
Fixpoint split_at (sep : ascii) (s : string) : string * option string :=
  match s with
  | EmptyString => (EmptyString, None)
  | String c rest =>
      if Ascii.eqb c sep then (EmptyString, Some rest)
      else let '(a, b) := split_at sep rest in (String c a, b)
  end.

Definition unsigned_float (s : string) : option Q :=
  match split_at "." s with
  | (whole, None) => option_map inject_Z (digits whole)
  | (whole, Some frac) =>
      match (if is_empty whole then Some 0 else digits whole),
            (if is_empty frac
             then (if is_empty whole then None else Some 0)
             else digits frac) with
      | Some w, Some f =>
          Some (inject_Z w
                + inject_Z f / inject_Z (10 ^ Z.of_nat (String.length frac)))%Q
      | _, _ => None
      end
  end.

Definition float (s : string) : option Q :=
  match s with
  | String "-" rest => option_map Qopp (unsigned_float rest)
  | String "+" rest => unsigned_float rest
  | _ => unsigned_float s
  end.

Definition strptime_date (s : string) : option date :=
  match split_at "-" s with
  | (y, Some rest) =>
      match split_at "-" rest with
      | (m, Some d) =>
          match digits y, digits m, digits d with
          | Some y', Some m', Some d' => new y' m' d'
          | _, _, _ => None
          end
      | (_, None) => None
      end
  | (_, None) => None
  end.

Fixpoint lstrip (s : string) : string :=
  match s with
  | String " " rest => lstrip rest
  | _ => s
  end.

Fixpoint rstrip (s : string) : string :=
  match s with
  | EmptyString => EmptyString
  | String c rest =>
      match c, rstrip rest with
      | " "%char, EmptyString => EmptyString
      | _, rest' => String c rest'
      end
  end.

Definition strip (s : string) : string := rstrip (lstrip s).

Lemma strptime_date_valid s d :
  strptime_date s = Some d -> valid d = true.
Proof.
  unfold strptime_date.
  destruct (split_at "-" s) as [y [rest|]]; [|discriminate].
  destruct (split_at "-" rest) as [m [dd|]]; [|discriminate].
  destruct (digits y); [|discriminate].
  destruct (digits m); [|discriminate].
  destruct (digits dd); [|discriminate].
  unfold new, valid.
  destruct (check_date_fields _ _ _) eqn:E; [|discriminate].
  intros H; injection H as <-. exact E.
Qed.

End Plain.

(** The plain conversions as the runtime. *)
Definition plain : Builtins :=
  {| py_int := Plain.int;
     py_float := Plain.float;
     py_strptime_date := Plain.strptime_date;
     py_strip := Plain.strip;
     py_int_empty := eq_refl;
     py_float_empty := eq_refl;
     py_strptime_valid := Plain.strptime_date_valid |}.

(** ** A small database and the requests of the worked examples *)

(** One user, 7, with client 1 and products 1 and 2; user 8 owns
    product 3. *)
Definition db0 : DB :=
  mkDB [mkClient 1 7 "Ana"]
       [mkProduct 1 7 "Caneta"; mkProduct 2 7 "Caderno"; mkProduct 3 8 "Lapis"]
       [] [] [] [] 1 1 1.

Definition post_venda (vencimento parcelas : string)
           (itens : list (string * string * string)) : request :=
  mkRequest "POST" 7
    (app [("cliente", "1"); ("forma_pagamento", "pix");
          ("data_vencimento", vencimento); ("parcelas", parcelas)]%string
         (flat_map
            (fun '(p, q, v) =>
               [("produto_id[]", p); ("quantidade[]", q); ("preco[]", v)]%string)
            itens)).

(** Two items, 2 at 10.00 and 1 at 5.00, in two installments. *)
Definition req_two_items : request :=
  post_venda "2024-01-15" "2" [("1", "2", "10.00"); ("2", "1", "5.00")]%string.

(** Every tuple invalid: a quantity 0, a negative price, a product of
    another user and a product that does not exist. *)
Definition req_all_invalid : request :=
  post_venda "2024-01-15" "1"
    [("1", "0", "10.00"); ("2", "1", "-5.00"); ("3", "1", "2.00");
     ("99", "1", "2.00")]%string.

(** The day of an installment: the anchor's day, or the last day of the
    target month when the month is shorter. *)
Definition dia_parcela (d : date) (i : Z) : Z :=
  Z.min (day d) (days_in_month (target_year d i) (target_month d i)).

Definition parcela_esperada (d : date) (i : Z) : date :=
  mkdate (target_year d i) (target_month d i) (dia_parcela d i).

(** Accounts of user 7: a receivable and a payable that are pending and
    were due in January 2024, and a receivable and a payable already
    paid. *)
Definition conta_pendente : AccountsReceivable :=
  mkReceivable 1 7 1 1 1250 (mkdate 2024 1 15) None "pendente" None.

Definition conta_paga : AccountsReceivable :=
  mkReceivable 2 7 1 1 1250 (mkdate 2024 2 15) (Some (mkdate 2024 2 10))
               "pago" None.

Definition boleto_pendente : AccountsPayable :=
  mkPayable 1 7 "Aluguel" 90000 (mkdate 2024 1 10) None "pendente" None.

Definition boleto_pago : AccountsPayable :=
  mkPayable 2 7 "Luz" 15000 (mkdate 2024 1 20) (Some (mkdate 2024 1 18))
            "pago" None.

Definition db_contas : DB :=
  mkDB [mkClient 1 7 "Ana"] []
       [mkSale 1 7 1 2500 "pix" (mkdate 2024 1 15) None] []
       [conta_pendente; conta_paga] [boleto_pendente; boleto_pago] 2 1 3.

Definition post_pagamento (data : string) : request :=
  mkRequest "POST" 7 [("data_pagamento", data)]%string.

(** The total of sale [k] is the sum of the subtotals of its items. *)
Definition total_ok (db : DB) (k : Z) : Prop :=
  forall s, In s (sales db) -> sale_id s = k ->
            valor_total s = sum_Z (map subtotal (itens_all db k)).

(** The database [db0] after the sale of [req_two_items]. *)
Definition db_vendido : DB :=
  mkDB [mkClient 1 7 "Ana"]
       [mkProduct 1 7 "Caneta"; mkProduct 2 7 "Caderno"; mkProduct 3 8 "Lapis"]
       [mkSale 1 7 1 2500 "pix" (mkdate 2024 1 15) None]
       [mkSaleItem 1 1 (Some 1) 2 1000 2000; mkSaleItem 2 1 (Some 2) 1 500 500]
       [mkReceivable 1 7 1 1 1250 (mkdate 2024 1 15) None "pendente"
                     (Some "Parcela 1 de 2"%string);
        mkReceivable 2 7 1 1 1250 (mkdate 2024 2 15) None "pendente"
                     (Some "Parcela 2 de 2"%string)]
       [] 2 3 3.

(** The validity of a submitted tuple, in the words of the specification:
    the product exists and belongs to the user, the quantity parses to an
    integer greater than 0, and the unit price parses to a number greater
    than or equal to 0. *)
Definition produto_do_usuario (db : DB) (usuario k : Z) : bool :=
  existsb (fun p => (product_id p =? k) && (product_usuario p =? usuario))
          (products db).

Definition tupla_valida {B : Builtins} (db : DB) (usuario : Z)
           (t : string * string * string) : bool :=
  let '(produto_id, quantidade, preco) := t in
  match py_int produto_id with
  | Some k => produto_do_usuario db usuario k
  | None => false
  end
  && match py_int quantidade with
     | Some n => 0 <? n
     | None => false
     end
  && match py_float (replace_comma preco) with
     | Some x => Qle_bool 0 x
     | None => false
     end.

(** What the creation of line items leaves alone: every table but the
    items, every counter but theirs, and the primary keys of the sales. *)
Definition so_itens (db db' : DB) : Prop :=
  clients db' = clients db
  /\ products db' = products db
  /\ contas_receber db' = contas_receber db
  /\ contas_pagar db' = contas_pagar db
  /\ seq_sale db' = seq_sale db
  /\ seq_receber db' = seq_receber db
  /\ map sale_id (sales db') = map sale_id (sales db).

(** The label of installment [i] of [parcelas]: line 1098. *)
Definition rotulo_parcela (parcelas i : Z) : option string :=
  if parcelas >? 1
  then Some ("Parcela " ++ str (i + 1) ++ " de " ++ str parcelas)%string
  else None.

(** The receivable rows the installments of [idx] are expected to add:
    consecutive primary keys from [id0], the same amount on every row, the
    expected due date and the label of each installment. *)
Fixpoint linhas_parcelas (id0 usuario venda cliente : Z) (valor : Q)
         (vencimento : date) (parcelas : Z) (idx : list Z)
  : list AccountsReceivable :=
  match idx with
  | [] => []
  | i :: rest =>
      mkReceivable id0 usuario venda cliente (to_cents valor)
                   (parcela_esperada vencimento i) None "pendente"
                   (rotulo_parcela parcelas i)
      :: linhas_parcelas (id0 + 1) usuario venda cliente valor vencimento
                         parcelas rest
  end.


(** No product row at all. *)
Definition req_sem_produtos : request := post_venda "2024-01-15" "1" [].

(** The database [db0] after [req_all_invalid]: the sale is there, with no
    item and one receivable of amount zero. *)
Definition db_sem_itens : DB :=
  mkDB [mkClient 1 7 "Ana"]
       [mkProduct 1 7 "Caneta"; mkProduct 2 7 "Caderno"; mkProduct 3 8 "Lapis"]
       [mkSale 1 7 1 0 "pix" (mkdate 2024 1 15) None]
       []
       [mkReceivable 1 7 1 1 0 (mkdate 2024 1 15) None "pendente" None]
       [] 2 1 2.

(** The database [db0] after [req_sem_produtos]: the sale was deleted,
    only its primary key is used up. *)
Definition db_sem_venda : DB :=
  mkDB [mkClient 1 7 "Ana"]
       [mkProduct 1 7 "Caneta"; mkProduct 2 7 "Caderno"; mkProduct 3 8 "Lapis"]
       [] [] [] [] 2 1 1.



(** ** More of views.py: the other views on sales and accounts *)

(** The texts the other views hand to [messages]. *)
Inductive aviso : Type :=
| VendaNaoEncontrada
| VendaDeletada (id : Z)
| ContaReceberNaoEncontrada
| ContaPagarNaoEncontrada
| DescricaoObrigatoria
| ValorObrigatorio
| VencimentoObrigatorio
| ValorMaiorQueZero
| ValorNumeroValido
| ErroNaConta (e : exn)
| ContaPagarCriada (descricao : string)
| ContaPagarAtualizada (descricao : string)
| ContaPagarDeletada (descricao : string).

Inductive resposta : Type :=
| Pagina (template : string) (msg : option aviso)
| Redireciona (to : string) (pk : option Z) (msg : option aviso)
| Erro500 (e : exn).

(** Sale.objects.get(pk=pk, usuario=usuario) *)
Definition Sale_objects_get (pk usuario : Z) : M Sale :=
  fun db =>
    match find (fun s => (sale_id s =? pk) && (sale_usuario s =? usuario))
               (sales db) with
    | Some s => (Ok s, db)
    | None => (Raise (DoesNotExist MSale), db)
    end.

(** venda_delete *)
Definition venda_delete (r : request) (pk : Z) (db : DB) : resposta * DB :=
  match Sale_objects_get pk (user r) db with
  | (Raise (DoesNotExist MSale), db1) =>
      (Redireciona "vendas:vendas_list" None (Some VendaNaoEncontrada), db1)
  | (Raise e, db1) => (Erro500 e, db1)
  | (Ok venda, db1) =>
      if String.eqb (method r) "POST" then
        let venda_id := sale_id venda in
        match Sale_delete (sale_id venda) db1 with
        | (Ok _, db2) =>
            (Redireciona "vendas:vendas_list" None (Some (VendaDeletada venda_id)),
             db2)
        | (Raise e, db2) => (Erro500 e, db2)
        end
      else (Pagina "vendas/vendas/confirm_delete.html" None, db1)
  end.

(** conta_receber_detail, with [hoje] for [timezone.now().date()]: the
    status of the account is brought up to date before it is shown. *)
Definition conta_receber_detail (hoje : date) (r : request) (pk : Z) (db : DB)
  : resposta * DB :=
  match AccountsReceivable_objects_get pk (user r) db with
  | (Raise (DoesNotExist MReceber), db0) =>
      (Redireciona "vendas:contas_receber_list" None
                   (Some ContaReceberNaoEncontrada), db0)
  | (Raise e, db0) => (Erro500 e, db0)
  | (Ok conta, db0) =>
      match AccountsReceivable_atualizar_status hoje conta db0 with
      | (Ok _, db1) => (Pagina "vendas/contas_receber/detail.html" None, db1)
      | (Raise e, db1) => (Erro500 e, db1)
      end
  end.

(** conta_pagar_detail *)
Definition conta_pagar_detail (hoje : date) (r : request) (pk : Z) (db : DB)
  : resposta * DB :=
  match AccountsPayable_objects_get pk (user r) db with
  | (Raise (DoesNotExist MPagar), db0) =>
      (Redireciona "vendas:contas_pagar_list" None
                   (Some ContaPagarNaoEncontrada), db0)
  | (Raise e, db0) => (Erro500 e, db0)
  | (Ok conta, db0) =>
      match AccountsPayable_atualizar_status hoje conta db0 with
      | (Ok _, db1) => (Pagina "vendas/contas_pagar/detail.html" None, db1)
      | (Raise e, db1) => (Erro500 e, db1)
      end
  end.

(** Referential integrity: every line item and every receivable belongs
    to a sale that exists. *)
Definition fk_ok (db : DB) : Prop :=
  (forall it, In it (sale_items db) ->
              In (item_venda it) (map sale_id (sales db)))
  /\ (forall c, In c (contas_receber db) ->
                In (ar_venda c) (map sale_id (sales db))).

(** The primary key a new sale gets is not in use. *)
Definition chave_livre (db : DB) : Prop :=
  (forall s, In s (sales db) -> sale_id s <> seq_sale db)
  /\ (forall it, In it (sale_items db) -> item_venda it <> seq_sale db)
  /\ (forall c, In c (contas_receber db) -> ar_venda c <> seq_sale db).

(** The tables of two databases hold the same rows. *)
Definition mesmas_tabelas (db db' : DB) : Prop :=
  clients db' = clients db
  /\ products db' = products db
  /\ sales db' = sales db
  /\ sale_items db' = sale_items db
  /\ contas_receber db' = contas_receber db
  /\ contas_pagar db' = contas_pagar db.

(** A statement run from a database where [P] holds ends, normally with
    result [a], in a database where [Q a] holds, or raises in a database
    where [R] holds. *)
Definition hoare {A : Type} (P : DB -> Prop) (m : M A)
           (Q : A -> DB -> Prop) (R : DB -> Prop) : Prop :=
  forall db, P db ->
    match m db with
    | (Ok a, db') => Q a db'
    | (Raise _, db') => R db'
    end.

(** Integrity, with sale [k] in the table. *)
Definition fk_com (k : Z) (db : DB) : Prop :=
  fk_ok db /\ In k (map sale_id (sales db)).





(** User 8 asks for a sale to client 1, who belongs to user 7. *)
Definition req_cliente_alheio : request :=
  mkRequest "POST" 8
    [("cliente", "1"); ("data_vencimento", "2024-01-15");
     ("produto_id[]", "3"); ("quantidade[]", "1"); ("preco[]", "2.00")]%string.

(** ** More of views.py: payable accounts *)

(** d1 <= d2 on dates *)
Definition leb_date (d1 d2 : date) : bool := negb (ltb d2 d1).

Definition ap_with_dados (c : AccountsPayable) (descricao : string) (valor : Z)
           (vencimento : date) (obs : option string) : AccountsPayable :=
  mkPayable (ap_id c) (ap_usuario c) descricao valor vencimento
            (ap_data_pagamento c) (ap_status c) obs.


(** models.Model.delete for a payable account *)
Definition AccountsPayable_delete (pk : Z) : M unit :=
  fun db =>
    (Ok tt,
     set_contas_pagar db
       (filter (fun c => negb (ap_id c =? pk)) (contas_pagar db))).

Section ContasPagar.

Context {B : Builtins}.


(** conta_pagar_edit *)
Definition conta_pagar_edit (r : request) (pk : Z) (db : DB) : resposta * DB :=
  match AccountsPayable_objects_get pk (user r) db with
  | (Raise (DoesNotExist MPagar), db0) =>
      (Redireciona "vendas:contas_pagar_list" None
                   (Some ContaPagarNaoEncontrada), db0)
  | (Raise e, db0) => (Erro500 e, db0)
  | (Ok conta, db0) =>
      if String.eqb (method r) "POST" then
        let descricao := py_strip (POST_get r "descricao" "") in
        let valor := py_strip (POST_get r "valor" "") in
        let data_vencimento := POST_get r "data_vencimento" "" in
        let observacoes := py_strip (POST_get r "observacoes" "") in
        if is_empty descricao
        then (Pagina "vendas/contas_pagar/form.html" (Some DescricaoObrigatoria),
              db0)
        else if is_empty valor
        then (Pagina "vendas/contas_pagar/form.html" (Some ValorObrigatorio), db0)
        else if is_empty data_vencimento
        then (Pagina "vendas/contas_pagar/form.html"
                     (Some VencimentoObrigatorio), db0)
        else
          match (valor <- value_of (py_float (replace_comma valor)) ;;
                 data_vencimento_obj <-
                   value_of (py_strptime_date data_vencimento) ;;
                 if Qle_bool valor 0
                 then ret (Pagina "vendas/contas_pagar/form.html"
                                  (Some ValorMaiorQueZero))
                 else
                   AccountsPayable_save
                     (ap_with_dados conta descricao (to_cents valor)
                        data_vencimento_obj
                        (if is_empty observacoes then None
                         else Some observacoes)) ;;;
                   ret (Redireciona "vendas:contas_pagar_list" None
                                    (Some (ContaPagarAtualizada descricao))))
                  db0 with
          | (Ok resp, db1) => (resp, db1)
          | (Raise ValueError, db1) =>
              (Pagina "vendas/contas_pagar/form.html" (Some ValorNumeroValido),
               db1)
          | (Raise e, db1) =>
              (Pagina "vendas/contas_pagar/form.html" (Some (ErroNaConta e)), db1)
          end
      else (Pagina "vendas/contas_pagar/form.html" None, db0)
  end.

(** conta_pagar_delete *)
Definition conta_pagar_delete (r : request) (pk : Z) (db : DB)
  : resposta * DB :=
  match AccountsPayable_objects_get pk (user r) db with
  | (Raise (DoesNotExist MPagar), db0) =>
      (Redireciona "vendas:contas_pagar_list" None
                   (Some ContaPagarNaoEncontrada), db0)
  | (Raise e, db0) => (Erro500 e, db0)
  | (Ok conta, db0) =>
      if String.eqb (method r) "POST" then
        let descricao := ap_descricao conta in
        match AccountsPayable_delete (ap_id conta) db0 with
        | (Ok _, db1) =>
            (Redireciona "vendas:contas_pagar_list" None
                         (Some (ContaPagarDeletada descricao)), db1)
        | (Raise e, db1) => (Erro500 e, db1)
        end
      else (Pagina "vendas/contas_pagar/confirm_delete.html" None, db0)
  end.


(** The row the accepted form describes, on top of the row [base]. *)
Definition conta_pagar_do_form (r : request) (base : AccountsPayable)
  : AccountsPayable :=
  match py_float (replace_comma (py_strip (POST_get r "valor" ""))),
        py_strptime_date (POST_get r "data_vencimento" "") with
  | Some x, Some d =>
      ap_with_dados base (py_strip (POST_get r "descricao" "")) (to_cents x) d
        (if is_empty (py_strip (POST_get r "observacoes" "")) then None
         else Some (py_strip (POST_get r "observacoes" "")))
  | _, _ => base
  end.

End ContasPagar.


(** Two items worth 25.00 in three installments: 25.00 / 3 is not a
    whole number of cents. *)
Definition req_tres_parcelas : request :=
  post_venda "2024-01-15" "3" [("1", "2", "10.00"); ("2", "1", "5.00")]%string.

(** ** The list of receivable accounts and the dashboard *)

(** request.GET.get(key, default), for the pairs [q] of the query string *)
Definition GET_get (q : list (string * string)) (key default : string)
  : string :=
  last (map snd (filter (fun kv => String.eqb (fst kv) key) q)) default.

Definition date_eqb (d1 d2 : date) : bool :=
  (year d1 =? year d2) && (month d1 =? month d2) && (day d1 =? day d2).

(** One way to run [order_by('-data_vencimento')]: latest due date
    first, rows with the same due date in the order of the table. *)
Fixpoint insere_vencimento (c : AccountsReceivable)
         (l : list AccountsReceivable) : list AccountsReceivable :=
  match l with
  | [] => [c]
  | x :: rest =>
      if ltb (ar_data_vencimento c) (ar_data_vencimento x)
      then x :: insere_vencimento c rest
      else c :: l
  end.

Definition ordena_vencimento (l : list AccountsReceivable)
  : list AccountsReceivable :=
  fold_right insere_vencimento [] l.

(** The keys of the template context that are computed from the
    accounts; the keys that give the form its values back, and
    [clientes], are left out. *)
Record contexto_receber : Type := mkContextoReceber {
  cr_contas_receber : list AccountsReceivable;
  cr_total_contas : Z;
  cr_valor_total : Z;
  cr_status_filtro : string;
  cr_contas_pendentes : Z;
  cr_contas_vencidas : Z;
  cr_contas_pagas : Z
}.

(** AccountsReceivable.objects.filter(usuario=usuario, status=st)
      .aggregate(Sum('valor'))['valor__sum'] or 0 *)
Definition soma_receber (usuario : Z) (st : string) (db : DB) : Z :=
  sum_Z (map ar_valor
             (filter (fun c => (ar_usuario c =? usuario)
                               && String.eqb (ar_status c) st)
                     (contas_receber db))).

Section ListaReceber.

Context {B : Builtins}.

(** The order the database gives the rows of
    [order_by('-data_vencimento')]; rows with the same due date come in
    an order the database chooses. *)
Variable ordena : list AccountsReceivable -> list AccountsReceivable.

(** AccountsReceivable.objects.filter(usuario=usuario)
      .order_by('-data_vencimento'), when it is evaluated *)
Definition contas_do_usuario (usuario : Z) (db : DB)
  : list AccountsReceivable :=
  ordena (filter (fun c => ar_usuario c =? usuario) (contas_receber db)).

(** contas_receber_list, with [q] for request.GET.  The loop evaluates the
    query set; the filters added after it are evaluated when the rows are
    counted, against the rows the loop has saved.  An exception leaves
    the view. *)
Definition contas_receber_list (hoje : date) (r : request)
           (q : list (string * string)) : M contexto_receber :=
  let usuario := user r in
  contas <- (fun db => (Ok (contas_do_usuario usuario db), db)) ;;
  for_each contas
    (fun conta => AccountsReceivable_atualizar_status hoje conta ;;; ret tt) ;;;
  let status := GET_get q "status" "pendente" in
  let '(por_status, status) :=
    if existsb (String.eqb status) ["pendente"; "vencido"; "pago"]%string
    then (fun c => String.eqb (ar_status c) status, status)
    else if String.eqb status "todos"
         then (fun _ : AccountsReceivable => true, status)
         else (fun c => String.eqb (ar_status c) "pendente",
               "pendente"%string) in
  let cliente_id := GET_get q "cliente" "" in
  por_cliente <-
    (if is_empty cliente_id
     then ret (fun _ : AccountsReceivable => true)
     else k <- value_of (py_int cliente_id) ;;
          ret (fun c => ar_cliente c =? k)) ;;
  let data_inicio := GET_get q "data_inicio" "" in
  let data_fim := GET_get q "data_fim" "" in
  let desde :=
    if is_empty data_inicio then fun _ : AccountsReceivable => true
    else match py_strptime_date data_inicio with
         | Some d => fun c => leb_date d (ar_data_vencimento c)
         | None => fun _ => true
         end in
  let ate :=
    if is_empty data_fim then fun _ : AccountsReceivable => true
    else match py_strptime_date data_fim with
         | Some d => fun c => leb_date (ar_data_vencimento c) d
         | None => fun _ => true
         end in
  fun db =>
    let contas :=
      filter ate (filter desde (filter por_cliente (filter por_status
        (contas_do_usuario usuario db)))) in
    (Ok (mkContextoReceber contas (Z.of_nat (List.length contas))
                           (sum_Z (map ar_valor contas)) status
                           (soma_receber usuario "pendente" db)
                           (soma_receber usuario "vencido" db)
                           (soma_receber usuario "pago" db)),
     db).

End ListaReceber.

(** The keys of the context of home_view that are computed from the
    accounts; the counters of clients, products and sales of the month
    are left out. *)
Record contexto_home : Type := mkContextoHome {
  contas_receber_vencidas : Z;
  contas_receber_hoje : Z;
  contas_receber_pendentes : Z;
  contas_pagar_vencidas : Z;
  contas_pagar_hoje : Z;
  contas_pagar_pendentes : Z
}.

(** home_view *)
Definition home_view (hoje : date) (r : request) (db : DB) : contexto_home :=
  let usuario := user r in
  let contas_receber :=
    filter (fun c => ar_usuario c =? usuario) (contas_receber db) in
  let contas_pagar :=
    filter (fun c => ap_usuario c =? usuario) (contas_pagar db) in
  mkContextoHome
    (sum_Z (map ar_valor
                (filter (fun c => String.eqb (ar_status c) "vencido")
                        contas_receber)))
    (sum_Z (map ar_valor
                (filter (fun c =>
                           date_eqb (ar_data_vencimento c) hoje
                           && existsb (String.eqb (ar_status c))
                                      ["pendente"; "vencido"]%string)
                        contas_receber)))
    (Z.of_nat (List.length
                 (filter (fun c => String.eqb (ar_status c) "pendente")
                         contas_receber)))
    (sum_Z (map ap_valor
                (filter (fun c => String.eqb (ap_status c) "vencido")
                        contas_pagar)))
    (sum_Z (map ap_valor
                (filter (fun c =>
                           date_eqb (ap_data_vencimento c) hoje
                           && existsb (String.eqb (ap_status c))
                                      ["pendente"; "vencido"]%string)
                        contas_pagar)))
    (Z.of_nat (List.length
                 (filter (fun c => String.eqb (ap_status c) "pendente")
                         contas_pagar))).

(** Receivable accounts of users 7 and 8, all stored as 'pendente' but
    one that is paid; keys 1 and 3 are overdue on 2024-03-10. *)
Definition db_lista : DB :=
  mkDB [mkClient 1 7 "Ana"] [] [] []
       [mkReceivable 1 7 1 1 1000 (mkdate 2024 2 10) None "pendente" None;
        mkReceivable 2 7 1 1 2000 (mkdate 2024 4 10) None "pendente" None;
        mkReceivable 3 8 2 2 4000 (mkdate 2024 1 5) None "pendente" None;
        mkReceivable 4 7 1 1 8000 (mkdate 2024 1 20)
                     (Some (mkdate 2024 1 19)) "pago" None;
        mkReceivable 5 7 1 1 500 (mkdate 2024 3 10) None "vencido" None]
       [] 3 1 6.

(** The object a call of [atualizar_status] leaves. *)
Definition ar_atualizada (hoje : date) (c : AccountsReceivable)
  : AccountsReceivable :=
  if String.eqb (ar_status c) "pago" then c
  else if ltb (ar_data_vencimento c) hoje
       then ar_with_status c "vencido"
       else ar_with_status c "pendente".

(** A request for the list of user 7, on 2024-03-10. *)
Definition req_lista : request := mkRequest "GET" 7 [].

Definition hoje_lista : date := mkdate 2024 3 10.

(** The list of all the accounts of user 7 on that day: the context and
    the database it leaves. *)
Definition ctx_lista : contexto_receber :=
  match fst (contas_receber_list (B:=plain) ordena_vencimento hoje_lista
               req_lista [("status", "todos")]%string db_lista) with
  | Ok ctx => ctx
  | Raise _ => mkContextoReceber [] 0 0 "" 0 0 0
  end.

Definition db_lista_vista : DB :=
  snd (contas_receber_list (B:=plain) ordena_vencimento hoje_lista
         req_lista [("status", "todos")]%string db_lista).

(** The same with a status that does not exist. *)
Definition ctx_lista_outro : contexto_receber :=
  match fst (contas_receber_list (B:=plain) ordena_vencimento hoje_lista
               req_lista [("status", "atrasado")]%string db_lista) with
  | Ok ctx => ctx
  | Raise _ => mkContextoReceber [] 0 0 "" 0 0 0
  end.

(** ** The stock of a product *)

(** The columns of Product that produto_ajustar_estoque reads and
    writes; [Product] above has the columns the sale views read. *)
Record Produto : Type := mkProduto {
  p_id : Z;
  p_usuario : Z;
  p_estoque : Z
}.

Definition com_estoque (p : Produto) (e : Z) : Produto :=
  mkProduto (p_id p) (p_usuario p) e.

(** The texts handed to [messages]: the success messages carry the
    quantity and the reason that is appended when it is not empty. *)
Inductive aviso_estoque : Type :=
| ProdutoNaoEncontrado
| QuantidadeMaiorQueZero
| EstoqueInsuficiente (disponivel : Z)
| Adicionado (quantidade : Z) (motivo : option string)
| Removido (quantidade : Z) (motivo : option string)
| QuantidadeNumeroValido
| ErroAoAjustarEstoque.

(** What the view answers: the form again, with the product object of
    the context, or a redirection to the page of the product or to the
    list of products. *)
Inductive resposta_estoque : Type :=
| Formulario (produto : Produto) (msg : option aviso_estoque)
| ParaDetalhe (pk : Z) (msg : aviso_estoque)
| ParaLista (msg : aviso_estoque).

Section AjusteDeEstoque.

Context {B : Builtins}.

(** Whether the integer column of the database can hold a number:
    [produto.save()] raises when it cannot. *)
Variable cabe : Z -> bool.

(** produto_ajustar_estoque, lines 853 to 874: the product object has its
    new stock, and is saved. *)
Definition salva_estoque (pk : Z) (produto : Produto)
           (mensagem : option string -> aviso_estoque) (motivo : string)
           (t : list Produto) : resposta_estoque * list Produto :=
  if cabe (p_estoque produto)
  then (ParaDetalhe pk
          (mensagem (if is_empty motivo then None else Some motivo)),
        save_row p_id produto t)
  else (Formulario produto (Some ErroAoAjustarEstoque), t).

(** produto_ajustar_estoque *)
Definition produto_ajustar_estoque (r : request) (pk : Z) (t : list Produto)
  : resposta_estoque * list Produto :=
  match find (fun p => (p_id p =? pk) && (p_usuario p =? user r)) t with
  | None => (ParaLista ProdutoNaoEncontrado, t)
  | Some produto =>
      if String.eqb (method r) "POST" then
        let operacao := POST_get r "operacao" "adicionar" in
        let quantidade := py_strip (POST_get r "quantidade" "0") in
        let motivo := py_strip (POST_get r "motivo" "") in
        match py_int quantidade with
        | None => (Formulario produto (Some QuantidadeNumeroValido), t)
        | Some quantidade =>
            if quantidade <=? 0
            then (Formulario produto (Some QuantidadeMaiorQueZero), t)
            else if String.eqb operacao "adicionar"
            then salva_estoque pk
                   (com_estoque produto (p_estoque produto + quantidade))
                   (Adicionado quantidade) motivo t
            else if p_estoque produto <? quantidade
            then (Formulario produto
                    (Some (EstoqueInsuficiente (p_estoque produto))), t)
            else salva_estoque pk
                   (com_estoque produto (p_estoque produto - quantidade))
                   (Removido quantidade) motivo t
        end
      else (Formulario produto None, t)
  end.

End AjusteDeEstoque.

(** Products of users 7 and 8, and requests that add and remove three
    units. *)
Definition tabela_estoque : list Produto :=
  [mkProduto 1 7 10; mkProduto 2 7 0; mkProduto 3 8 5].

Definition req_estoque (operacao quantidade : string) : request :=
  mkRequest "POST" 7
            [("operacao", operacao); ("quantidade", quantidade)]%string.

(** A column of 32 bits. *)
Definition cabe32 (n : Z) : bool := (- 2 ^ 31 <=? n) && (n <? 2 ^ 31).

(** ** management/commands/criar_marcas.py *)

(** A row of Marca: the primary key and the name, which is unique. *)
Record Marca : Type := mkMarca {
  marca_id : Z;
  marca_nome : string
}.

(** The table of Marca and the primary key of its next row. *)
Record TabelaMarcas : Type := mkTabelaMarcas {
  marcas : list Marca;
  seq_marca : Z
}.

(** The lines the command writes. *)
Inductive saida : Type :=
| MarcaCriada (nome : string)
| MarcaJaExiste (nome : string)
| MarcasPadraoCriadas.

(** Marca.objects.get_or_create(nome=nome): the row and whether it was
    created; [None] is MultipleObjectsReturned.  Names are compared as
    they are written. *)
Definition Marca_get_or_create (nome : string) (t : TabelaMarcas)
  : option (Marca * bool) * TabelaMarcas :=
  match filter (fun m => String.eqb (marca_nome m) nome) (marcas t) with
  | [] =>
      let marca := mkMarca (seq_marca t) nome in
      (Some (marca, true),
       mkTabelaMarcas (marcas t ++ [marca]) (seq_marca t + 1))
  | [marca] => (Some (marca, false), t)
  | _ :: _ :: _ => (None, t)
  end.

(** The loop of [handle] over the names; a name that raises ends it. *)
Fixpoint cria_marcas (nomes : list string) (t : TabelaMarcas)
  : option (list saida) * TabelaMarcas :=
  match nomes with
  | [] => (Some [], t)
  | nome_marca :: resto =>
      match Marca_get_or_create nome_marca t with
      | (None, t1) => (None, t1)
      | (Some (_, criada), t1) =>
          match cria_marcas resto t1 with
          | (None, t2) => (None, t2)
          | (Some linhas, t2) =>
              (Some ((if criada then MarcaCriada nome_marca
                      else MarcaJaExiste nome_marca) :: linhas), t2)
          end
      end
  end.

Definition marcas_padrao : list string :=
  ["Natura"; "Boticário"; "Racco"; "Avon"]%string.

(** Command.handle *)
Definition handle (t : TabelaMarcas) : option (list saida) * TabelaMarcas :=
  match cria_marcas marcas_padrao t with
  | (None, t1) => (None, t1)
  | (Some linhas, t1) => (Some (linhas ++ [MarcasPadraoCriadas]), t1)
  end.

(** A table where one of the names is taken. *)
Definition tabela_marcas : TabelaMarcas :=
  mkTabelaMarcas [mkMarca 1 "Avon"; mkMarca 2 "Eudora"] 3.

(** * Proofs *)

(** ** Dates *)

Lemma days_in_month_bounds y m :
  1 <= m <= 12 -> 28 <= days_in_month y m <= 31.
Proof.
  intros Hm. unfold days_in_month.
  assert (m = 1 \/ m = 2 \/ m = 3 \/ m = 4 \/ m = 5 \/ m = 6 \/ m = 7
          \/ m = 8 \/ m = 9 \/ m = 10 \/ m = 11 \/ m = 12) as Hc by lia.
  repeat destruct Hc as [-> | Hc]; try subst m; simpl;
    try lia; destruct (isleap y); simpl; lia.
Qed.

Lemma check_date_fields_true y m d :
  check_date_fields y m d = true <->
  MINYEAR <= y <= MAXYEAR /\ 1 <= m <= 12 /\ 1 <= d <= days_in_month y m.
Proof.
  unfold check_date_fields.
  rewrite !andb_true_iff, !Z.leb_le. lia.
Qed.

Lemma new_valid y m d x : new y m d = Some x -> valid x = true.
Proof.
  unfold new, valid.
  destruct (check_date_fields y m d) eqn:E; [|discriminate].
  intros H; injection H as <-. exact E.
Qed.

Lemma ajusta_ano_closed fuel : forall mes ano,
  1 <= mes -> mes <= 12 + 12 * Z.of_nat fuel ->
  ajusta_ano fuel mes ano = Some ((mes - 1) mod 12 + 1, ano + (mes - 1) / 12).
Proof.
  induction fuel as [|fuel IH]; intros mes ano Hlo Hhi.
  - simpl. destruct (mes >? 12) eqn:E; [lia|].
    rewrite Z.mod_small, Z.div_small by lia. do 2 f_equal; lia.
  - simpl. destruct (mes >? 12) eqn:E.
    + rewrite IH by lia.
      replace (mes - 1) with (mes - 12 - 1 + 1 * 12) by lia.
      rewrite Z_mod_plus_full, Z_div_plus_full by lia.
      do 2 f_equal; lia.
    + rewrite Z.mod_small, Z.div_small by lia. do 2 f_equal; lia.
Qed.

(** The loop over the months always ends, on the target month and year. *)
Lemma mes_ano_vencimento_closed d i :
  1 <= month d -> 0 <= i ->
  mes_ano_vencimento d i = Some (target_month d i, target_year d i).
Proof.
  intros Hm Hi. unfold mes_ano_vencimento, target_month, target_year.
  rewrite ajusta_ano_closed by lia.
  replace (month d + i - 1) with (month d - 1 + i) by lia. reflexivity.
Qed.

Lemma target_month_range d i : 1 <= target_month d i <= 12.
Proof.
  unfold target_month.
  pose proof (Z.mod_pos_bound (month d - 1 + i) 12). lia.
Qed.

Lemma target_year_mono d i j :
  i <= j -> target_year d i <= target_year d j.
Proof.
  intros H. unfold target_year.
  pose proof (Z.div_le_mono (month d - 1 + i) (month d - 1 + j) 12). lia.
Qed.

Lemma target_year_lower d i :
  1 <= month d -> 0 <= i -> year d <= target_year d i.
Proof.
  intros Hm Hi. unfold target_year.
  pose proof (Z.div_pos (month d - 1 + i) 12). lia.
Qed.

Lemma data_parcela_in_range d i :
  valid d = true -> 0 <= i -> target_year d i <= MAXYEAR ->
  data_parcela d i = Some (parcela_esperada d i).
Proof.
  intros Hv Hi Hy.
  apply check_date_fields_true in Hv. destruct Hv as (Hyr & Hmo & Hda).
  unfold data_parcela. rewrite mes_ano_vencimento_closed by lia.
  pose proof (target_month_range d i) as Hm.
  pose proof (target_year_lower d i) as Hl.
  pose proof (days_in_month_bounds (target_year d i) (target_month d i) Hm) as Hb.
  unfold replace_month_year, replace_all, monthrange_ndays, new,
    parcela_esperada, dia_parcela.
  destruct (check_date_fields (target_year d i) (target_month d i) (day d)) eqn:E.
  - apply check_date_fields_true in E. rewrite Z.min_l by lia. reflexivity.
  - assert (days_in_month (target_year d i) (target_month d i) < day d) as Hlt.
    { destruct (Z_lt_dec (days_in_month (target_year d i) (target_month d i)) (day d));
        [assumption|].
      assert (check_date_fields (target_year d i) (target_month d i) (day d) = true)
        as E' by (apply check_date_fields_true; lia).
      congruence. }
    replace ((1 <=? target_month d i) && (target_month d i <=? 12)) with true
      by (symmetry; apply andb_true_iff; rewrite !Z.leb_le; lia).
    replace (check_date_fields (target_year d i) (target_month d i)
               (days_in_month (target_year d i) (target_month d i))) with true
      by (symmetry; apply check_date_fields_true; lia).
    rewrite Z.min_r by lia. reflexivity.
Qed.

Lemma data_parcela_out_of_range d i :
  valid d = true -> 0 <= i -> MAXYEAR < target_year d i ->
  data_parcela d i = None.
Proof.
  intros Hv Hi Hy.
  apply check_date_fields_true in Hv. destruct Hv as (Hyr & Hmo & Hda).
  unfold data_parcela. rewrite mes_ano_vencimento_closed by lia.
  unfold replace_month_year, replace_all, new.
  assert (forall x, check_date_fields (target_year d i) (target_month d i) x = false)
    as Hf.
  { intros x. destruct (check_date_fields _ _ x) eqn:E; [|reflexivity].
    apply check_date_fields_true in E. lia. }
  rewrite Hf. destruct (monthrange_ndays _ _); [rewrite Hf|]; reflexivity.
Qed.

Lemma all_dates_in_range d idx :
  valid d = true ->
  (forall i, In i idx -> 0 <= i /\ target_year d i <= MAXYEAR) ->
  all_dates d idx = Some (map (parcela_esperada d) idx).
Proof.
  intros Hv. induction idx as [|i rest IH]; intros H; [reflexivity|].
  simpl. destruct (H i (or_introl eq_refl)) as [Hi Hy].
  rewrite data_parcela_in_range by assumption.
  rewrite IH by (intros j Hj; apply H; right; exact Hj). reflexivity.
Qed.

Lemma In_range i n : In i (range n) <-> 0 <= i < n.
Proof.
  unfold range. rewrite in_map_iff. split.
  - intros (k & <- & Hk). apply in_seq in Hk. lia.
  - intros H. exists (Z.to_nat i). split; [lia|]. apply in_seq. lia.
Qed.

Lemma length_range n : 0 <= n -> Z.of_nat (List.length (range n)) = n.
Proof. intros H. unfold range. rewrite length_map, length_seq. lia. Qed.

Lemma nth_error_range n i :
  0 <= i < n -> nth_error (range n) (Z.to_nat i) = Some i.
Proof.
  intros H. unfold range.
  rewrite nth_error_map, nth_error_seq.
  destruct (Nat.ltb_spec (Z.to_nat i) (Z.to_nat n)); [|lia].
  simpl. f_equal. lia.
Qed.

(** Every installment is computed when the last one stays within
    [MAXYEAR]. *)
Lemma compute_installment_dates_in_range d count :
  valid d = true -> target_year d (count - 1) <= MAXYEAR ->
  compute_installment_dates d count
  = Some (map (parcela_esperada d) (range count)).
Proof.
  intros Hv Hy. apply all_dates_in_range; [assumption|].
  intros i Hi. apply In_range in Hi. split; [lia|].
  etransitivity; [apply (target_year_mono d i (count - 1)); lia | exact Hy].
Qed.

Lemma nth_error_map_range {A : Type} (f : Z -> A) n i x :
  nth_error (map f (range n)) i = Some x ->
  x = f (Z.of_nat i) /\ (i < Z.to_nat n)%nat.
Proof.
  unfold range. rewrite !nth_error_map, nth_error_seq.
  destruct (Nat.ltb_spec i (Z.to_nat n)) as [Hlt|Hge]; simpl; [|discriminate].
  intros E; injection E as <-. split; [reflexivity | assumption].
Qed.

Lemma target_month_year_index d i :
  12 * target_year d i + (target_month d i - 1) = 12 * year d + (month d - 1) + i.
Proof.
  unfold target_year, target_month.
  pose proof (Z.div_mod (month d - 1 + i) 12). lia.
Qed.

Lemma ltb_true_iff d1 d2 :
  ltb d1 d2 = true <->
  year d1 < year d2
  \/ (year d1 = year d2
      /\ (month d1 < month d2 \/ (month d1 = month d2 /\ day d1 < day d2))).
Proof.
  unfold ltb.
  rewrite !orb_true_iff, !andb_true_iff, !orb_true_iff, !andb_true_iff,
    !Z.ltb_lt, !Z.eqb_eq.
  tauto.
Qed.

Lemma parcela_esperada_increasing d i j :
  i < j -> lt (parcela_esperada d i) (parcela_esperada d j).
Proof.
  intros Hij. unfold lt. apply ltb_true_iff. simpl.
  pose proof (target_month_year_index d i).
  pose proof (target_month_year_index d j).
  pose proof (target_month_range d i).
  pose proof (target_month_range d j).
  lia.
Qed.

(** ** C3: an installment whose month is too short *)

(** C3, amended.  For a valid anchor date [d], a count and an index
    [i < count] whose target month has fewer days than the anchor's day,
    and when the last installment does not go beyond year 9999, the
    computation returns [count] dates, none skipped, and installment [i]
    is the last day of its target month.  The dates computed from
    2024-01-31 for three installments are 2024-01-31, 2024-02-29 and
    2024-03-31. *)
Theorem installment_clamped_to_month_end (d : date) (count i : Z) :
  valid d = true ->
  0 <= i < count ->
  target_year d (count - 1) <= MAXYEAR ->
  days_in_month (target_year d i) (target_month d i) < day d ->
  (exists l,
      compute_installment_dates d count = Some l
      /\ Z.of_nat (List.length l) = count
      /\ nth_error l (Z.to_nat i)
         = Some (mkdate (target_year d i) (target_month d i)
                        (days_in_month (target_year d i) (target_month d i))))
  /\ compute_installment_dates (mkdate 2024 1 31) 3
     = Some [mkdate 2024 1 31; mkdate 2024 2 29; mkdate 2024 3 31].
Proof.
  intros Hv Hi Hy Hshort. split; [|reflexivity].
  exists (map (parcela_esperada d) (range count)). split; [|split].
  - apply compute_installment_dates_in_range; assumption.
  - rewrite length_map. apply length_range. lia.
  - rewrite nth_error_map, nth_error_range by assumption. simpl.
    unfold parcela_esperada, dia_parcela. rewrite Z.min_r by lia. reflexivity.
Qed.

Lemma installment_clamped_to_month_end_witness :
  (exists l,
      compute_installment_dates (mkdate 2023 1 31) 2 = Some l
      /\ Z.of_nat (List.length l) = 2
      /\ nth_error l 1 = Some (mkdate 2023 2 28))
  /\ compute_installment_dates (mkdate 2024 1 31) 3
     = Some [mkdate 2024 1 31; mkdate 2024 2 29; mkdate 2024 3 31].
Proof.
  apply (installment_clamped_to_month_end (mkdate 2023 1 31) 2 1).
  - reflexivity.
  - lia.
  - vm_compute. discriminate.
  - vm_compute. reflexivity.
Defined.

(** C3 as stated fails at the end of the calendar: from 9999-12-31 the
    third installment falls in February of year 10000, a month shorter
    than 31 days, and the computation raises instead of clamping. *)
Lemma installment_beyond_maxyear_raises :
  valid (mkdate 9999 12 31) = true
  /\ days_in_month (target_year (mkdate 9999 12 31) 2)
                   (target_month (mkdate 9999 12 31) 2)
     < day (mkdate 9999 12 31)
  /\ data_parcela (mkdate 9999 12 31) 2 = None
  /\ compute_installment_dates (mkdate 9999 12 31) 3 = None.
Proof. repeat split; vm_compute; reflexivity. Qed.

(** ** C4: one installment a month *)

(** C4, amended.  For a valid anchor date [d] and a count of at least 1
    whose last installment does not go beyond year 9999, the computation
    returns exactly [count] dates in increasing order; installment [i] is
    in month [d.month + i], the year rolled forward every twelve months,
    on the anchor's day when the month has that day and on the last day of
    the month otherwise.  The dates computed from 2024-11-30 for three
    installments are 2024-11-30, 2024-12-30 and 2025-01-30. *)
Theorem installments_one_per_month (d : date) (count : Z) :
  valid d = true ->
  1 <= count ->
  target_year d (count - 1) <= MAXYEAR ->
  (exists l,
      compute_installment_dates d count = Some l
      /\ Z.of_nat (List.length l) = count
      /\ (forall i, 0 <= i < count ->
            exists x, nth_error l (Z.to_nat i) = Some x
              /\ year x = target_year d i
              /\ month x = target_month d i
              /\ day x = Z.min (day d) (days_in_month (year x) (month x))
              /\ (day d <= days_in_month (year x) (month x) -> day x = day d))
      /\ (forall i j x y, (i < j)%nat ->
            nth_error l i = Some x -> nth_error l j = Some y -> lt x y))
  /\ compute_installment_dates (mkdate 2024 11 30) 3
     = Some [mkdate 2024 11 30; mkdate 2024 12 30; mkdate 2025 1 30].
Proof.
  intros Hv Hc Hy. split; [|reflexivity].
  exists (map (parcela_esperada d) (range count)). repeat split.
  - apply compute_installment_dates_in_range; assumption.
  - rewrite length_map. apply length_range. lia.
  - intros i Hi. exists (parcela_esperada d i).
    rewrite nth_error_map, nth_error_range by assumption. simpl.
    repeat split. unfold dia_parcela. intros H. apply Z.min_l. exact H.
  - intros i j x y Hij Hx Hy'.
    apply nth_error_map_range in Hx. apply nth_error_map_range in Hy'.
    destruct Hx as [-> _]. destruct Hy' as [-> _].
    apply parcela_esperada_increasing. lia.
Qed.

Lemma installments_one_per_month_witness :
  (exists l,
      compute_installment_dates (mkdate 2024 11 30) 3 = Some l
      /\ Z.of_nat (List.length l) = 3
      /\ (forall i, 0 <= i < 3 ->
            exists x, nth_error l (Z.to_nat i) = Some x
              /\ year x = target_year (mkdate 2024 11 30) i
              /\ month x = target_month (mkdate 2024 11 30) i
              /\ day x = Z.min 30 (days_in_month (year x) (month x))
              /\ (30 <= days_in_month (year x) (month x) -> day x = 30))
      /\ (forall i j x y, (i < j)%nat ->
            nth_error l i = Some x -> nth_error l j = Some y -> lt x y))
  /\ compute_installment_dates (mkdate 2024 11 30) 3
     = Some [mkdate 2024 11 30; mkdate 2024 12 30; mkdate 2025 1 30].
Proof.
  apply (installments_one_per_month (mkdate 2024 11 30) 3).
  - reflexivity.
  - lia.
  - vm_compute. discriminate.
Defined.

(** C4 as stated fails when the target month is too short: from 2024-01-31
    the second installment falls on 2024-02-29, not on day 31.  It also
    fails at the end of the calendar: from 9999-12-15 the second
    installment would fall in year 10000, and no date is returned. *)
Lemma installment_not_on_anchor_day :
  compute_installment_dates (mkdate 2024 1 31) 2
  = Some [mkdate 2024 1 31; mkdate 2024 2 29]
  /\ day (mkdate 2024 2 29) <> day (mkdate 2024 1 31)
  /\ valid (mkdate 9999 12 15) = true
  /\ compute_installment_dates (mkdate 9999 12 15) 2 = None.
Proof. repeat split; try reflexivity. discriminate. Qed.

(** ** Account status *)

Lemma ltb_irrefl d : ltb d d = false.
Proof.
  destruct (ltb d d) eqn:E; [|reflexivity].
  apply ltb_true_iff in E. lia.
Qed.

Lemma minus_one_day_before hoje d :
  minus_one_day hoje = Some d -> ltb d hoje = true.
Proof.
  unfold minus_one_day, new. intros H. apply ltb_true_iff.
  destruct (1 <? day hoje) eqn:E1.
  - destruct (check_date_fields _ _ _); [|discriminate].
    injection H as <-. simpl. lia.
  - destruct (1 <? month hoje) eqn:E2.
    + destruct (check_date_fields _ _ _); [|discriminate].
      injection H as <-. simpl. lia.
    + destruct (check_date_fields _ _ _); [|discriminate].
      injection H as <-. simpl. lia.
Qed.

Lemma In_save_row {A : Type} (key : A -> Z) (row : A) (l : list A) :
  In row (save_row key row l).
Proof.
  unfold save_row. destruct (existsb _ l) eqn:E.
  - apply existsb_exists in E. destruct E as (x & Hx & Hk).
    apply in_map_iff. exists x. rewrite Hk. split; [reflexivity | assumption].
  - apply in_or_app. right. left. reflexivity.
Qed.

(** After the row found for a primary key and an owner is saved with new
    contents, the same lookup finds the new contents. *)
Lemma find_save_row {A : Type} (key owner : A -> Z) (pk u : Z) (old row : A)
      (l : list A) :
  find (fun c => (key c =? pk) && (owner c =? u)) l = Some old ->
  key row = pk -> owner row = u ->
  find (fun c => (key c =? pk) && (owner c =? u)) (save_row key row l) = Some row.
Proof.
  intros Hf Hk Ho. unfold save_row.
  assert (existsb (fun r => key r =? key row) l = true) as ->.
  { apply find_some in Hf. destruct Hf as [Hin Hp].
    apply existsb_exists. exists old. split; [assumption|].
    apply andb_true_iff in Hp. rewrite Hk. tauto. }
  rewrite Hk. revert Hf. induction l as [|x l IH]; [discriminate|].
  simpl. destruct (key x =? pk) eqn:E; simpl.
  - intros _. rewrite Hk, Ho, !Z.eqb_refl. reflexivity.
  - rewrite E. simpl. exact IH.
Qed.

(** C5.  On a record whose status is 'pago', [atualizar_status] returns
    without changing the record or the database, whatever the date of
    today and the due date: for receivable and for payable accounts. *)
Theorem atualizar_status_keeps_pago (hoje : date) (db : DB) :
  (forall c : AccountsReceivable,
      ar_status c = "pago"%string ->
      AccountsReceivable_atualizar_status hoje c db = (Ok c, db))
  /\ (forall c : AccountsPayable,
         ap_status c = "pago"%string ->
         AccountsPayable_atualizar_status hoje c db = (Ok c, db)).
Proof.
  split; intros c Hc.
  - unfold AccountsReceivable_atualizar_status. rewrite Hc. reflexivity.
  - unfold AccountsPayable_atualizar_status. rewrite Hc. reflexivity.
Qed.

(** C6.  On a record whose status is not 'pago', [atualizar_status] saves
    the record with status 'vencido' exactly when its due date is before
    today, and 'pendente' otherwise: a record due today becomes
    'pendente' and a record due the day before today becomes 'vencido'.
    For receivable and for payable accounts. *)
Theorem atualizar_status_derives (hoje : date) (db : DB) :
  (forall c : AccountsReceivable,
      ar_status c <> "pago"%string ->
      exists c' db',
        AccountsReceivable_atualizar_status hoje c db = (Ok c', db')
        /\ In c' (contas_receber db')
        /\ (ar_status c' = "vencido"%string <-> lt (ar_data_vencimento c) hoje)
        /\ (ar_status c' = "pendente"%string
            <-> ~ lt (ar_data_vencimento c) hoje)
        /\ (ar_data_vencimento c = hoje -> ar_status c' = "pendente"%string)
        /\ (minus_one_day hoje = Some (ar_data_vencimento c) ->
            ar_status c' = "vencido"%string))
  /\ (forall c : AccountsPayable,
         ap_status c <> "pago"%string ->
         exists c' db',
           AccountsPayable_atualizar_status hoje c db = (Ok c', db')
           /\ In c' (contas_pagar db')
           /\ (ap_status c' = "vencido"%string
               <-> lt (ap_data_vencimento c) hoje)
           /\ (ap_status c' = "pendente"%string
               <-> ~ lt (ap_data_vencimento c) hoje)
           /\ (ap_data_vencimento c = hoje -> ap_status c' = "pendente"%string)
           /\ (minus_one_day hoje = Some (ap_data_vencimento c) ->
               ap_status c' = "vencido"%string)).
Proof.
  split; intros c Hc; apply String.eqb_neq in Hc.
  - unfold AccountsReceivable_atualizar_status. rewrite Hc.
    unfold bind, AccountsReceivable_save, ret, lt.
    eexists. eexists. split; [reflexivity|]. split; [apply In_save_row|].
    destruct (ltb (ar_data_vencimento c) hoje) eqn:E; simpl.
    + split; [tauto|]. split; [split; [discriminate | congruence]|].
      split; [|reflexivity].
      intros H. rewrite H, ltb_irrefl in E. discriminate.
    + split; [split; discriminate|]. split; [split; [discriminate | reflexivity]|].
      split; [reflexivity|].
      intros H. apply minus_one_day_before in H. congruence.
  - unfold AccountsPayable_atualizar_status. rewrite Hc.
    unfold bind, AccountsPayable_save, ret, lt.
    eexists. eexists. split; [reflexivity|]. split; [apply In_save_row|].
    destruct (ltb (ap_data_vencimento c) hoje) eqn:E; simpl.
    + split; [tauto|]. split; [split; [discriminate | congruence]|].
      split; [|reflexivity].
      intros H. rewrite H, ltb_irrefl in E. discriminate.
    + split; [split; discriminate|]. split; [split; [discriminate | reflexivity]|].
      split; [reflexivity|].
      intros H. apply minus_one_day_before in H. congruence.
Qed.

Lemma atualizar_status_keeps_pago_witness :
  AccountsReceivable_atualizar_status (mkdate 2030 1 1) conta_paga db_contas
  = (Ok conta_paga, db_contas)
  /\ AccountsPayable_atualizar_status (mkdate 2030 1 1) boleto_pago db_contas
     = (Ok boleto_pago, db_contas).
Proof.
  split.
  - apply (proj1 (atualizar_status_keeps_pago (mkdate 2030 1 1) db_contas)).
    reflexivity.
  - apply (proj2 (atualizar_status_keeps_pago (mkdate 2030 1 1) db_contas)).
    reflexivity.
Defined.

Lemma atualizar_status_derives_witness :
  exists c' db',
    AccountsReceivable_atualizar_status (mkdate 2024 1 16) conta_pendente
                                        db_contas = (Ok c', db')
    /\ In c' (contas_receber db')
    /\ (ar_status c' = "vencido"%string
        <-> lt (ar_data_vencimento conta_pendente) (mkdate 2024 1 16))
    /\ (ar_status c' = "pendente"%string
        <-> ~ lt (ar_data_vencimento conta_pendente) (mkdate 2024 1 16))
    /\ (ar_data_vencimento conta_pendente = mkdate 2024 1 16 ->
        ar_status c' = "pendente"%string)
    /\ (minus_one_day (mkdate 2024 1 16)
        = Some (ar_data_vencimento conta_pendente) ->
        ar_status c' = "vencido"%string).
Proof.
  apply (proj1 (atualizar_status_derives (mkdate 2024 1 16) db_contas)).
  vm_compute. discriminate.
Defined.

(** ** Marking an account as paid and as not paid *)

Section Marcar.

Context {B : Builtins}.

Lemma receber_get_find pk u db conta db1 :
  AccountsReceivable_objects_get pk u db = (Ok conta, db1) ->
  find (fun c => (ar_id c =? pk) && (ar_usuario c =? u)) (contas_receber db)
  = Some conta
  /\ ar_id conta = pk /\ ar_usuario conta = u /\ db1 = db.
Proof.
  unfold AccountsReceivable_objects_get.
  destruct (find _ (contas_receber db)) as [c|] eqn:E; [|discriminate].
  intros H. injection H as -> ->.
  apply find_some in E. destruct E as [_ E].
  apply andb_true_iff in E. rewrite !Z.eqb_eq in E. tauto.
Qed.

Lemma pagar_get_find pk u db conta db1 :
  AccountsPayable_objects_get pk u db = (Ok conta, db1) ->
  find (fun c => (ap_id c =? pk) && (ap_usuario c =? u)) (contas_pagar db)
  = Some conta
  /\ ap_id conta = pk /\ ap_usuario conta = u /\ db1 = db.
Proof.
  unfold AccountsPayable_objects_get.
  destruct (find _ (contas_pagar db)) as [c|] eqn:E; [|discriminate].
  intros H. injection H as -> ->.
  apply find_some in E. destruct E as [_ E].
  apply andb_true_iff in E. rewrite !Z.eqb_eq in E. tauto.
Qed.

(** C9.  On an account the user owns, the view that marks it as paid
    stores status 'pago' and the submitted payment date; the view that
    marks it as not paid stores an empty payment date and status
    'pendente', whatever the due date of the account, also when it is in
    the past.  The other columns are kept.  For receivable and for
    payable accounts. *)
Theorem marcar_pago_and_nao_pago (r : request) (pk : Z) (db : DB) :
  (forall conta d,
      AccountsReceivable_objects_get pk (user r) db = (Ok conta, db) ->
      method r = "POST"%string ->
      is_empty (POST_get r "data_pagamento" "") = false ->
      py_strptime_date (POST_get r "data_pagamento" "") = Some d ->
      exists db',
        conta_receber_marcar_pago r pk db
        = (Redirect "vendas:conta_receber_detail" (Some pk)
                    (Some (ContaMarcadaPaga pk)), db')
        /\ AccountsReceivable_objects_get pk (user r) db'
           = (Ok (mkReceivable pk (user r) (ar_venda conta) (ar_cliente conta)
                               (ar_valor conta) (ar_data_vencimento conta)
                               (Some d) "pago" (ar_observacoes conta)), db'))
  /\ (forall conta,
         AccountsReceivable_objects_get pk (user r) db = (Ok conta, db) ->
         exists db',
           conta_receber_marcar_nao_pago r pk db
           = (Redirect "vendas:conta_receber_detail" (Some pk)
                       (Some (ContaMarcadaNaoPaga pk)), db')
           /\ AccountsReceivable_objects_get pk (user r) db'
              = (Ok (mkReceivable pk (user r) (ar_venda conta)
                                  (ar_cliente conta) (ar_valor conta)
                                  (ar_data_vencimento conta) None "pendente"
                                  (ar_observacoes conta)), db'))
  /\ (forall conta d,
         AccountsPayable_objects_get pk (user r) db = (Ok conta, db) ->
         method r = "POST"%string ->
         is_empty (POST_get r "data_pagamento" "") = false ->
         py_strptime_date (POST_get r "data_pagamento" "") = Some d ->
         exists db',
           conta_pagar_marcar_pago r pk db
           = (Redirect "vendas:conta_pagar_detail" (Some pk)
                       (Some (ContaMarcadaPaga pk)), db')
           /\ AccountsPayable_objects_get pk (user r) db'
              = (Ok (mkPayable pk (user r) (ap_descricao conta)
                               (ap_valor conta) (ap_data_vencimento conta)
                               (Some d) "pago" (ap_observacoes conta)), db'))
  /\ (forall conta,
         AccountsPayable_objects_get pk (user r) db = (Ok conta, db) ->
         exists db',
           conta_pagar_marcar_nao_pago r pk db
           = (Redirect "vendas:conta_pagar_detail" (Some pk)
                       (Some (ContaMarcadaNaoPaga pk)), db')
           /\ AccountsPayable_objects_get pk (user r) db'
              = (Ok (mkPayable pk (user r) (ap_descricao conta)
                               (ap_valor conta) (ap_data_vencimento conta)
                               None "pendente" (ap_observacoes conta)), db')).
Proof.
  repeat split.
  - intros conta d Hget Hm He Hd.
    unfold conta_receber_marcar_pago. rewrite Hget, Hm, He. simpl.
    unfold bind, value_of. rewrite Hd. simpl.
    apply receber_get_find in Hget. destruct Hget as (Hf & Hk & Hu & _).
    rewrite Hk. eexists. split; [reflexivity|].
    unfold AccountsReceivable_objects_get. simpl.
    erewrite find_save_row; [| exact Hf | exact Hk | exact Hu].
    unfold ar_with_status, ar_with_pagamento. simpl.
    rewrite Hk, Hu. reflexivity.
  - intros conta Hget.
    unfold conta_receber_marcar_nao_pago. rewrite Hget. simpl.
    apply receber_get_find in Hget. destruct Hget as (Hf & Hk & Hu & _).
    rewrite Hk. eexists. split; [reflexivity|].
    unfold AccountsReceivable_objects_get. simpl.
    erewrite find_save_row; [| exact Hf | exact Hk | exact Hu].
    unfold ar_with_status, ar_with_pagamento. simpl.
    rewrite Hk, Hu. reflexivity.
  - intros conta d Hget Hm He Hd.
    unfold conta_pagar_marcar_pago. rewrite Hget, Hm, He. simpl.
    unfold bind, value_of. rewrite Hd. simpl.
    apply pagar_get_find in Hget. destruct Hget as (Hf & Hk & Hu & _).
    rewrite Hk. eexists. split; [reflexivity|].
    unfold AccountsPayable_objects_get. simpl.
    erewrite find_save_row; [| exact Hf | exact Hk | exact Hu].
    unfold ap_with_status, ap_with_pagamento. simpl.
    rewrite Hk, Hu. reflexivity.
  - intros conta Hget.
    unfold conta_pagar_marcar_nao_pago. rewrite Hget. simpl.
    apply pagar_get_find in Hget. destruct Hget as (Hf & Hk & Hu & _).
    rewrite Hk. eexists. split; [reflexivity|].
    unfold AccountsPayable_objects_get. simpl.
    erewrite find_save_row; [| exact Hf | exact Hk | exact Hu].
    unfold ap_with_status, ap_with_pagamento. simpl.
    rewrite Hk, Hu. reflexivity.
Qed.

End Marcar.

Lemma marcar_pago_and_nao_pago_witness :
  (exists db',
      conta_receber_marcar_pago (B:=plain) (post_pagamento "2024-03-01") 1
                                db_contas
      = (Redirect "vendas:conta_receber_detail" (Some 1)
                  (Some (ContaMarcadaPaga 1)), db')
      /\ AccountsReceivable_objects_get 1 7 db'
         = (Ok (mkReceivable 1 7 1 1 1250 (mkdate 2024 1 15)
                             (Some (mkdate 2024 3 1)) "pago" None), db'))
  /\ (exists db',
         conta_receber_marcar_nao_pago (post_pagamento "") 2 db_contas
         = (Redirect "vendas:conta_receber_detail" (Some 2)
                     (Some (ContaMarcadaNaoPaga 2)), db')
         /\ AccountsReceivable_objects_get 2 7 db'
            = (Ok (mkReceivable 2 7 1 1 1250 (mkdate 2024 2 15) None
                                "pendente" None), db')).
Proof.
  pose proof (marcar_pago_and_nao_pago (B:=plain) (post_pagamento "2024-03-01")
                                       1 db_contas) as (H1 & _).
  pose proof (marcar_pago_and_nao_pago (B:=plain) (post_pagamento "")
                                       2 db_contas) as (_ & H2 & _).
  split.
  - apply (H1 conta_pendente (mkdate 2024 3 1)); reflexivity.
  - apply (H2 conta_paga); reflexivity.
Defined.

(** ** The total of a sale *)

Lemma fold_left_add_acc l : forall a, fold_left Z.add l a = a + sum_Z l.
Proof.
  unfold sum_Z. induction l as [|x l IH]; intros a; simpl; [lia|].
  rewrite IH, (IH x). lia.
Qed.

Lemma sum_Z_app l1 l2 : sum_Z (l1 ++ l2) = sum_Z l1 + sum_Z l2.
Proof.
  unfold sum_Z at 1. rewrite fold_left_app. fold (sum_Z l1).
  apply fold_left_add_acc.
Qed.

Lemma calcular_valor_total_result k db :
  calcular_valor_total k db
  = (Ok (sum_Z (map subtotal (itens_all db k))),
     set_sales db
       (map (fun s => if sale_id s =? k
                      then with_valor_total s (sum_Z (map subtotal (itens_all db k)))
                      else s)
            (sales db))).
Proof. reflexivity. Qed.

(** After [calcular_valor_total] the total of the sale is right. *)
Lemma calcular_valor_total_ok k db :
  total_ok (snd (calcular_valor_total k db)) k.
Proof.
  rewrite calcular_valor_total_result. simpl.
  intros s Hin Hk. simpl in Hin. apply in_map_iff in Hin.
  destruct Hin as (s0 & Hs & _).
  destruct (sale_id s0 =? k) eqn:E.
  - subst s. reflexivity.
  - subst s. apply Z.eqb_neq in E. contradiction.
Qed.


Lemma SaleItem_super_save_sales obj sub db :
  fst (SaleItem_super_save obj sub db) = Ok tt
  /\ sales (snd (SaleItem_super_save obj sub db)) = sales db.
Proof.
  unfold SaleItem_super_save.
  destruct (obj_pk obj) as [k|]; [destruct (existsb _ _)|]; split; reflexivity.
Qed.



Lemma SaleItem_save_result obj db :
  SaleItem_save obj db
  = (Ok tt,
     snd (calcular_valor_total (obj_venda obj)
            (snd (SaleItem_super_save obj
                    (inject_Z (obj_quantidade obj) * obj_preco_unitario obj)%Q
                    db)))).
Proof.
  unfold SaleItem_save, bind.
  destruct (SaleItem_super_save_sales obj
              (inject_Z (obj_quantidade obj) * obj_preco_unitario obj)%Q db)
    as [Hok _].
  destruct (SaleItem_super_save obj _ db) as [res db1]. simpl in *.
  subst res. reflexivity.
Qed.




(** ** The loop over the submitted tuples *)

Lemma so_itens_refl db : so_itens db db.
Proof. repeat split. Qed.

Lemma so_itens_trans db1 db2 db3 :
  so_itens db1 db2 -> so_itens db2 db3 -> so_itens db1 db3.
Proof.
  unfold so_itens. intros (A1 & A2 & A3 & A4 & A5 & A6 & A7)
                          (B1 & B2 & B3 & B4 & B5 & B6 & B7).
  repeat split; congruence.
Qed.

Lemma map_sale_id_update k total l :
  map sale_id
      (map (fun s => if sale_id s =? k then with_valor_total s total else s) l)
  = map sale_id l.
Proof.
  rewrite map_map. apply map_ext. intros s.
  destruct (sale_id s =? k); reflexivity.
Qed.

(** The creation of a line item appends one row and recomputes the
    total. *)
Lemma SaleItem_objects_create_result venda produto n x db :
  exists db',
    SaleItem_objects_create venda produto n x db = (Ok tt, db')
    /\ sale_items db'
       = sale_items db
         ++ [mkSaleItem (seq_item db) venda (Some produto) n (to_cents x)
                        (to_cents (inject_Z n * x))]
    /\ so_itens db db'.
Proof.
  unfold SaleItem_objects_create. rewrite SaleItem_save_result.
  eexists. split; [reflexivity|].
  rewrite calcular_valor_total_result. unfold SaleItem_super_save. simpl.
  split; [reflexivity|].
  unfold so_itens. simpl. repeat split. apply map_sale_id_update.
Qed.

Lemma find_existsb {A : Type} (p : A -> bool) (l : list A) :
  existsb p l = match find p l with Some _ => true | None => false end.
Proof.
  induction l as [|x l IH]; [reflexivity|].
  simpl. destruct (p x); [reflexivity | exact IH].
Qed.

Lemma Qltb_zero x : Qltb x 0 = negb (Qle_bool 0 x).
Proof.
  unfold Qltb. destruct (Qle_bool 0 x) eqn:E.
  - apply Qle_bool_iff in E. apply Qle_not_lt in E.
    destruct (x ?= 0)%Q eqn:C; try reflexivity.
    apply Qlt_alt in C. contradiction.
  - destruct (x ?= 0)%Q eqn:C; try reflexivity; exfalso.
    + apply Qeq_alt in C. assert (Qle_bool 0 x = true) as E'.
      { apply Qle_bool_iff. rewrite C. apply Qle_refl. }
      congruence.
    + apply Qgt_alt in C. assert (Qle_bool 0 x = true) as E'.
      { apply Qle_bool_iff. apply Qlt_le_weak. exact C. }
      congruence.
Qed.

Lemma is_empty_true s : is_empty s = true -> s = EmptyString.
Proof. destruct s; [reflexivity | discriminate]. Qed.

Section Itens.

Context {B : Builtins}.

(** The body of the loop never raises: it either skips the tuple, when
    the tuple is not valid, or creates its line item. *)
Lemma processa_item_cases usuario venda pid q p db :
  (tupla_valida db usuario (pid, q, p) = false
   /\ processa_item usuario venda (pid, q, p) db = (Ok tt, db))
  \/ (tupla_valida db usuario (pid, q, p) = true
      /\ exists k n x db',
          py_int pid = Some k
          /\ py_int q = Some n
          /\ py_float (replace_comma p) = Some x
          /\ processa_item usuario venda (pid, q, p) db = (Ok tt, db')
          /\ sale_items db'
             = sale_items db
               ++ [mkSaleItem (seq_item db) venda (Some k) n (to_cents x)
                              (to_cents (inject_Z n * x))]
          /\ so_itens db db').
Proof.
  unfold processa_item, tupla_valida, produto_do_usuario.
  destruct (is_empty pid) eqn:Epid.
  { left. apply is_empty_true in Epid. subst pid. rewrite py_int_empty.
    split; reflexivity. }
  destruct (is_empty q) eqn:Eq.
  { left. apply is_empty_true in Eq. subst q. rewrite py_int_empty.
    split; [apply andb_false_intro1, andb_false_r | reflexivity]. }
  destruct (is_empty p) eqn:Ep.
  { left. apply is_empty_true in Ep. subst p. simpl replace_comma.
    rewrite py_float_empty. split; [apply andb_false_r | reflexivity]. }
  simpl orb. cbv iota.
  unfold try_except, bind, Product_objects_get, value_of, bind.
  destruct (py_int pid) as [k|] eqn:Ek; [|left; split; reflexivity].
  simpl. rewrite find_existsb.
  destruct (find _ (products db)) as [prod|] eqn:Ef; [|left; split; reflexivity].
  destruct (py_int q) as [n|] eqn:En; [|left; split; reflexivity].
  destruct (py_float (replace_comma p)) as [x|] eqn:Ex;
    [|left; split; [apply andb_false_r | reflexivity]].
  simpl. destruct (Z.leb_spec n 0) as [Hn|Hn].
  { left. split; [|reflexivity].
    replace (0 <? n) with false by (symmetry; apply Z.ltb_ge; lia).
    reflexivity. }
  replace (0 <? n) with true by (symmetry; apply Z.ltb_lt; lia).
  rewrite Qltb_zero. destruct (Qle_bool 0 x) eqn:Eqx; simpl;
    [|left; split; reflexivity].
  right. split; [reflexivity|].
  apply find_some in Ef. destruct Ef as [_ Ef].
  apply andb_true_iff in Ef. destruct Ef as [Ef _]. apply Z.eqb_eq in Ef.
  destruct (SaleItem_objects_create_result venda (product_id prod) n x db)
    as (db' & Hc & Hitems & Hframe).
  subst k. exists (product_id prod), n, x, db'.
  split; [reflexivity|]. split; [reflexivity|]. split; [reflexivity|].
  split; [rewrite <- Hc; reflexivity|]. split; assumption.
Qed.

Lemma tupla_valida_products db db' usuario t :
  products db' = products db ->
  tupla_valida db' usuario t = tupla_valida db usuario t.
Proof.
  intros H. destruct t as [[pid q] p].
  unfold tupla_valida, produto_do_usuario. rewrite H. reflexivity.
Qed.

(** The loop over the tuples ends normally and adds one row for each
    valid tuple. *)
Lemma for_each_processa_item usuario venda l : forall db,
  exists db',
    for_each l (processa_item usuario venda) db = (Ok tt, db')
    /\ so_itens db db'
    /\ List.length (sale_items db')
       = (List.length (sale_items db)
          + List.length (filter (tupla_valida db usuario) l))%nat.
Proof.
  induction l as [|[[pid q] p] l IH]; intros db.
  - exists db. simpl. repeat split. lia.
  - cbn [for_each filter]. unfold bind.
    destruct (processa_item_cases usuario venda pid q p db)
      as [[Hv Hr] | [Hv (k & n & x & db1 & _ & _ & _ & Hr & Hitems & Hframe)]].
    + rewrite Hr, Hv. apply IH.
    + rewrite Hr, Hv. destruct (IH db1) as (db' & Hl & Hf & Hlen).
      exists db'. split; [exact Hl|]. split; [eapply so_itens_trans; eassumption|].
      rewrite Hlen, Hitems, length_app. simpl.
      rewrite (filter_ext (tupla_valida db1 usuario) (tupla_valida db usuario))
        by (intros t; apply tupla_valida_products; apply Hframe).
      lia.
Qed.


End Itens.

(** ** The loop over the installments *)


Lemma length_linhas_parcelas id0 usuario venda cliente valor dv parcelas idx :
  List.length (linhas_parcelas id0 usuario venda cliente valor dv parcelas idx)
  = List.length idx.
Proof.
  revert id0. induction idx as [|i rest IH]; intros id0; [reflexivity|].
  simpl. rewrite IH. reflexivity.
Qed.

Section Parcelas.

Context {B : Builtins}.

(** When every due date can be computed, the loop over the installments
    ends normally and appends the expected rows, and nothing else
    changes but the counter of the table. *)
Lemma for_each_cria_parcela usuario venda cliente dv valor parcelas idx :
  (forall i, In i idx -> data_parcela dv i = Some (parcela_esperada dv i)) ->
  forall db,
    for_each idx (cria_parcela usuario venda cliente dv valor parcelas) db
    = (Ok tt,
       mkDB (clients db) (products db) (sales db) (sale_items db)
            (contas_receber db
             ++ linhas_parcelas (seq_receber db) usuario venda cliente valor
                                dv parcelas idx)
            (contas_pagar db) (seq_sale db) (seq_item db)
            (seq_receber db + Z.of_nat (List.length idx))).
Proof.
  induction idx as [|i rest IH]; intros Hd db.
  - simpl. unfold ret. rewrite app_nil_r, Z.add_0_r. destruct db; reflexivity.
  - cbn [for_each]. unfold bind at 1. unfold cria_parcela at 1.
    unfold bind, value_of. rewrite (Hd i (or_introl eq_refl)).
    unfold ret, AccountsReceivable_objects_create.
    rewrite IH by (intros j Hj; apply Hd; right; exact Hj).
    cbn [clients products sales sale_items contas_receber contas_pagar
         seq_sale seq_item seq_receber linhas_parcelas List.length].
    rewrite <- app_assoc. cbn [app]. unfold rotulo_parcela.
    do 2 f_equal. lia.
Qed.

(** The conversion of the number of installments does not depend on the
    database and never gives less than 1. *)
Lemma converte_parcelas_cases s :
  (exists p, 1 <= p /\ forall db, converte_parcelas s db = (Ok p, db))
  \/ (forall db, converte_parcelas s db = (Raise ValueError, db)).
Proof.
  unfold converte_parcelas, bind, value_of, ret, raise.
  destruct (is_empty s).
  - left. exists 1. split; [lia | reflexivity].
  - destruct (py_int s) as [n|].
    + left. exists (if n <? 1 then 1 else n). split; [|reflexivity].
      destruct (Z.ltb_spec n 1); lia.
    + right. reflexivity.
Qed.

Lemma converte_parcelas_ok s db p db1 :
  converte_parcelas s db = (Ok p, db1) ->
  1 <= p /\ forall db', converte_parcelas s db' = (Ok p, db').
Proof.
  intros H. destruct (converte_parcelas_cases s) as [(p' & Hp & Hall) | Hall].
  - rewrite Hall in H. injection H as -> _. split; assumption.
  - rewrite Hall in H. discriminate.
Qed.

End Parcelas.

(** ** The sale-creation view *)

Lemma bind_ok {A C : Type} (m : M A) (k : A -> M C) db a db1 :
  m db = (Ok a, db1) -> bind m k db = k a db1.
Proof. intros H. unfold bind. rewrite H. reflexivity. Qed.


Lemma total_ok_ext db db' k :
  sales db' = sales db -> sale_items db' = sale_items db ->
  total_ok db k -> total_ok db' k.
Proof.
  intros Hs Hi H s Hin Hk. unfold itens_all. rewrite Hi.
  rewrite Hs in Hin. apply (H s Hin Hk).
Qed.

Section VendaCreate.

Context {B : Builtins}.

(** The body of the [try], when the due date and the number of
    installments parse, a product was submitted and the last installment
    stays within [MAXYEAR]: the sale is kept, its total is the sum of its
    items, and one receivable is added for each installment. *)
Lemma venda_create_try_ok r cliente forma dvs ps obs dv p db :
  py_strptime_date dvs = Some dv ->
  converte_parcelas ps db = (Ok p, db) ->
  POST_getlist r "produto_id[]" <> [] ->
  target_year dv (p - 1) <= MAXYEAR ->
  exists db',
    venda_create_try r cliente forma dvs ps obs db
    = (Ok (Redirect "vendas:venda_detail" (Some (seq_sale db))
                    (Some (VendaCriada (seq_sale db) p))), db')
    /\ In (seq_sale db) (map sale_id (sales db'))
    /\ total_ok db' (seq_sale db)
    /\ contas_receber db'
       = contas_receber db
         ++ linhas_parcelas
              (seq_receber db) (user r) (seq_sale db) (client_id cliente)
              (of_cents (sum_Z (map subtotal (itens_all db' (seq_sale db))))
               / inject_Z p)
              dv p (range p)
    /\ List.length (sale_items db')
       = (List.length (sale_items db)
          + List.length
              (filter (tupla_valida db (user r))
                      (zip3 (POST_getlist r "produto_id[]")
                            (POST_getlist r "quantidade[]")
                            (POST_getlist r "preco[]"))))%nat.
Proof.
  intros Hdv Hp Hids Hy.
  pose proof (py_strptime_valid _ _ Hdv) as Hvalid.
  destruct (converte_parcelas_ok _ _ _ _ Hp) as [Hp1 _].
  unfold venda_create_try.
  rewrite (bind_ok _ _ db dv db) by (unfold value_of; rewrite Hdv; reflexivity).
  rewrite (bind_ok _ _ db p db) by exact Hp.
  erewrite bind_ok by (unfold Sale_objects_create; reflexivity).
  cbn [sale_id].
  set (db1 := mkDB (clients db) (products db) _ (sale_items db)
                   (contas_receber db) (contas_pagar db) (seq_sale db + 1)
                   (seq_item db) (seq_receber db)).
  destruct (POST_getlist r "produto_id[]") as [|pid0 pids] eqn:Eids;
    [contradiction|].
  destruct (for_each_processa_item (user r) (seq_sale db)
              (zip3 (pid0 :: pids) (POST_getlist r "quantidade[]")
                    (POST_getlist r "preco[]")) db1)
    as (db2 & Hl & Hf & Hlen).
  destruct Hf as (F1 & F2 & F3 & F4 & F5 & F6 & F7).
  erewrite bind_ok by exact Hl.
  erewrite bind_ok by apply calcular_valor_total_result.
  erewrite bind_ok.
  2:{ apply for_each_cria_parcela. intros i Hi. apply In_range in Hi.
      apply data_parcela_in_range; [exact Hvalid | lia |].
      etransitivity; [apply (target_year_mono dv i (p - 1)); lia | exact Hy]. }
  unfold ret. eexists. split; [reflexivity|].
  cbn [clients products sales sale_items contas_receber contas_pagar
       seq_sale seq_item seq_receber set_sales].
  split; [|split; [|split]].
  - rewrite map_sale_id_update, F7. subst db1. cbn [sales].
    rewrite map_app. apply in_or_app. right. left. reflexivity.
  - apply (total_ok_ext (snd (calcular_valor_total (seq_sale db) db2)));
      try reflexivity.
    apply calcular_valor_total_ok.
  - rewrite F3, F6. subst db1. reflexivity.
  - rewrite Hlen. subst db1. reflexivity.
Qed.

(** The view, on a request that passes its checks: see
    [venda_create_try_ok]. *)
Lemma venda_create_ok r cliente dv p db :
  method r = "POST"%string ->
  is_empty (POST_get r "cliente" "") = false ->
  is_empty (POST_get r "data_vencimento" "") = false ->
  Client_objects_get (POST_get r "cliente" "") (user r) db = (Ok cliente, db) ->
  py_strptime_date (POST_get r "data_vencimento" "") = Some dv ->
  converte_parcelas (POST_get r "parcelas" "1") db = (Ok p, db) ->
  POST_getlist r "produto_id[]" <> [] ->
  target_year dv (p - 1) <= MAXYEAR ->
  exists db',
    venda_create r db
    = (Redirect "vendas:venda_detail" (Some (seq_sale db))
                (Some (VendaCriada (seq_sale db) p)), db')
    /\ In (seq_sale db) (map sale_id (sales db'))
    /\ total_ok db' (seq_sale db)
    /\ contas_receber db'
       = contas_receber db
         ++ linhas_parcelas
              (seq_receber db) (user r) (seq_sale db) (client_id cliente)
              (of_cents (sum_Z (map subtotal (itens_all db' (seq_sale db))))
               / inject_Z p)
              dv p (range p)
    /\ List.length (sale_items db')
       = (List.length (sale_items db)
          + List.length
              (filter (tupla_valida db (user r))
                      (zip3 (POST_getlist r "produto_id[]")
                            (POST_getlist r "quantidade[]")
                            (POST_getlist r "preco[]"))))%nat.
Proof.
  intros Hm Hc Hd Hcli Hdv Hp Hids Hy.
  destruct (venda_create_try_ok r cliente
              (POST_get r "forma_pagamento" "dinheiro")
              (POST_get r "data_vencimento" "") (POST_get r "parcelas" "1")
              (py_strip (POST_get r "observacoes" "")) dv p db Hdv Hp Hids Hy)
    as (db' & Htry & Hrest).
  exists db'. split; [|exact Hrest].
  unfold venda_create. rewrite Hm. cbn [String.eqb Ascii.eqb Bool.eqb andb].
  rewrite Hc, Hd, Hcli, Htry. reflexivity.
Qed.

End VendaCreate.

(** ** Amounts *)





Lemma filter_nil_iff {A : Type} (f : A -> bool) (l : list A) :
  filter f l = [] <-> forall x, In x l -> f x = false.
Proof.
  induction l as [|a l IH]; simpl.
  - split; [intros _ x [] | reflexivity].
  - destruct (f a) eqn:E.
    + split; [discriminate|]. intros H. specialize (H a (or_introl eq_refl)).
      congruence.
    + rewrite IH. split.
      * intros H x [<-|Hx]; [exact E | apply H; exact Hx].
      * intros H x Hx. apply H. right. exact Hx.
Qed.

Lemma parcela_esperada_0 d : valid d = true -> parcela_esperada d 0 = d.
Proof.
  intros Hv. apply check_date_fields_true in Hv. destruct Hv as (Hy & Hm & Hd).
  unfold parcela_esperada, dia_parcela, target_year, target_month.
  rewrite Z.add_0_r, Z.mod_small, Z.div_small by lia.
  replace (month d - 1 + 1) with (month d) by lia.
  rewrite Z.add_0_r, Z.min_l by lia.
  destruct d; reflexivity.
Qed.

Section Claims.

Context {B : Builtins}.

(** On a request that passes the checks of the view and whose tuples are
    all invalid, the sale is still created, and it has no item. *)
Lemma venda_create_without_valid_tuple r cliente dv p db :
  method r = "POST"%string ->
  is_empty (POST_get r "cliente" "") = false ->
  is_empty (POST_get r "data_vencimento" "") = false ->
  Client_objects_get (POST_get r "cliente" "") (user r) db = (Ok cliente, db) ->
  py_strptime_date (POST_get r "data_vencimento" "") = Some dv ->
  converte_parcelas (POST_get r "parcelas" "1") db = (Ok p, db) ->
  POST_getlist r "produto_id[]" <> [] ->
  target_year dv (p - 1) <= MAXYEAR ->
  (forall t, In t (zip3 (POST_getlist r "produto_id[]")
                        (POST_getlist r "quantidade[]")
                        (POST_getlist r "preco[]")) ->
             tupla_valida db (user r) t = false) ->
  exists db',
    venda_create r db
    = (Redirect "vendas:venda_detail" (Some (seq_sale db))
                (Some (VendaCriada (seq_sale db) p)), db')
    /\ In (seq_sale db) (map sale_id (sales db'))
    /\ List.length (sale_items db') = List.length (sale_items db)
    /\ Z.of_nat (List.length (contas_receber db'))
       = Z.of_nat (List.length (contas_receber db)) + p.
Proof.
  intros Hm Hc Hd Hcli Hdv Hp Hids Hy Hinv.
  destruct (converte_parcelas_ok _ _ _ _ Hp) as [Hp1 _].
  destruct (venda_create_ok r cliente dv p db Hm Hc Hd Hcli Hdv Hp Hids Hy)
    as (db' & Hres & Hin & _ & Hcr & Hlen).
  exists db'. split; [exact Hres|]. split; [exact Hin|]. split.
  - rewrite Hlen.
    replace (filter (tupla_valida db (user r)) _)
      with (@nil (string * string * string)).
    + simpl. lia.
    + symmetry. apply (proj2 (filter_nil_iff _ _)). exact Hinv.
  - rewrite Hcr, length_app, length_linhas_parcelas, Nat2Z.inj_add.
    rewrite length_range by lia. reflexivity.
Qed.






End Claims.



(** ** C1: a sale whose tuples are all invalid *)

(** C1 fails on the code.  On [req_all_invalid], where no tuple is valid,
    the view answers with the redirection of a created sale: the sale
    stays in the database with no item and total zero, and one receivable
    of amount zero is created.  Only a request with no product row at
    all, [req_sem_produtos], has its sale deleted and is answered with
    the error. *)
Theorem venda_create_all_invalid_keeps_sale :
  forallb (fun t => negb (tupla_valida (B:=plain) db0 7 t))
          (zip3 (POST_getlist req_all_invalid "produto_id[]")
                (POST_getlist req_all_invalid "quantidade[]")
                (POST_getlist req_all_invalid "preco[]"))
  = true
  /\ POST_getlist req_all_invalid "produto_id[]" <> []
  /\ venda_create (B:=plain) req_all_invalid db0
     = (Redirect "vendas:venda_detail" (Some 1) (Some (VendaCriada 1 1)),
        db_sem_itens)
  /\ venda_create (B:=plain) req_sem_produtos db0
     = (Render "vendas/vendas/form.html" (Some AdicioneProduto), db_sem_venda).
Proof.
  split; [vm_compute; reflexivity|].
  split; [vm_compute; discriminate|].
  split; vm_compute; reflexivity.
Qed.

(** * More of the application *)

(** ** Referential integrity *)

Lemma hoare_ret {A : Type} (P : DB -> Prop) (a : A) (Q : A -> DB -> Prop) R :
  (forall db, P db -> Q a db) -> hoare P (ret a) Q R.
Proof. intros H db Hp. apply H. exact Hp. Qed.

Lemma hoare_bind {A C : Type} (P : DB -> Prop) (m : M A) (k : A -> M C)
      (Q : A -> DB -> Prop) (Q' : C -> DB -> Prop) (R : DB -> Prop) :
  hoare P m Q R -> (forall a, hoare (Q a) (k a) Q' R) ->
  hoare P (bind m k) Q' R.
Proof.
  intros Hm Hk db Hp. unfold bind. specialize (Hm db Hp).
  destruct (m db) as [[a|e] db1]; [apply (Hk a db1 Hm) | exact Hm].
Qed.

Lemma hoare_value_of {A : Type} (P : DB -> Prop) (o : option A) :
  hoare P (value_of o) (fun _ => P) P.
Proof. intros db Hp. destruct o; exact Hp. Qed.

Lemma hoare_for_each {A : Type} (P : DB -> Prop) (body : A -> M unit) l :
  (forall x, hoare P (body x) (fun _ => P) P) ->
  hoare P (for_each l body) (fun _ => P) P.
Proof.
  intros Hb. induction l as [|x l IH].
  - intros db Hp. exact Hp.
  - cbn [for_each]. eapply hoare_bind; [apply Hb | intros ?; exact IH].
Qed.

Lemma hoare_conseq {A : Type} (P : DB -> Prop) (m : M A)
      (Q Q' : A -> DB -> Prop) (R R' : DB -> Prop) :
  hoare P m Q R ->
  (forall a db, Q a db -> Q' a db) -> (forall db, R db -> R' db) ->
  hoare P m Q' R'.
Proof.
  intros Hm Hq Hr db Hp. specialize (Hm db Hp).
  destruct (m db) as [[a|e] db1]; [apply Hq | apply Hr]; exact Hm.
Qed.

(** Deleting a sale keeps integrity: its items and its receivables go
    with it. *)
Lemma Sale_delete_fk_ok k db : fk_ok db -> fk_ok (snd (Sale_delete k db)).
Proof.
  intros [Hi Hc]. unfold Sale_delete, fk_ok. simpl.
  assert (forall v, In v (map sale_id (sales db)) -> v <> k ->
            In v (map sale_id
                      (filter (fun s => negb (sale_id s =? k)) (sales db))))
    as Hkeep.
  { intros v Hv Hne. apply in_map_iff in Hv. destruct Hv as (s & Hs & Hin).
    apply in_map_iff. exists s. split; [exact Hs|].
    apply filter_In. split; [exact Hin|].
    apply negb_true_iff, Z.eqb_neq. congruence. }
  split.
  - intros it Hit. apply filter_In in Hit. destruct Hit as [Hit Hne].
    apply negb_true_iff, Z.eqb_neq in Hne. apply Hkeep; auto.
  - intros c Hin. apply filter_In in Hin. destruct Hin as [Hin Hne].
    apply negb_true_iff, Z.eqb_neq in Hne. apply Hkeep; auto.
Qed.

Lemma fk_com_items k db it :
  fk_com k db -> item_venda it = k ->
  fk_com k (mkDB (clients db) (products db) (sales db) (sale_items db ++ [it])
                 (contas_receber db) (contas_pagar db) (seq_sale db)
                 (seq_item db + 1) (seq_receber db)).
Proof.
  intros [[Hi Hc] Hk] Hv. split; [split|]; simpl; try assumption.
  intros x Hx. apply in_app_or in Hx. destruct Hx as [Hx | [Hx | []]].
  - apply Hi. exact Hx.
  - subst x. rewrite Hv. exact Hk.
Qed.

Lemma fk_com_so_itens k db db' row :
  fk_com k db -> so_itens db db' ->
  sale_items db' = sale_items db ++ [row] -> item_venda row = k ->
  fk_com k db'.
Proof.
  intros [[Hi Hc] Hk] (_ & _ & F3 & _ & _ & _ & F7) Hitems Hv.
  unfold fk_com, fk_ok. rewrite F7, F3, Hitems. split; [split|]; try assumption.
  intros x Hx. apply in_app_or in Hx. destruct Hx as [Hx | [Hx | []]].
  - apply Hi. exact Hx.
  - subst x. rewrite Hv. exact Hk.
Qed.

Lemma calcular_valor_total_fk_com k k' db :
  fk_com k db -> fk_com k (snd (calcular_valor_total k' db)).
Proof.
  intros [[Hi Hc] Hk]. rewrite calcular_valor_total_result.
  unfold fk_com, fk_ok. simpl. rewrite map_sale_id_update. auto.
Qed.

Section Integridade.

Context {B : Builtins}.

Lemma hoare_processa_item usuario k t :
  hoare (fk_com k) (processa_item usuario k t) (fun _ => fk_com k) (fk_com k).
Proof.
  intros db Hp. destruct t as [[pid q] p].
  destruct (processa_item_cases usuario k pid q p db)
    as [[_ Hr] | [_ (kk & n & x & db1 & _ & _ & _ & Hr & Hitems & Hframe)]];
    rewrite Hr.
  - exact Hp.
  - eapply fk_com_so_itens; [exact Hp | exact Hframe | exact Hitems | reflexivity].
Qed.

Lemma hoare_cria_parcela usuario k cliente dv valor parcelas i :
  hoare (fk_com k) (cria_parcela usuario k cliente dv valor parcelas i)
        (fun _ => fk_com k) (fk_com k).
Proof.
  intros db Hp. unfold cria_parcela, bind, value_of.
  destruct (data_parcela dv i) as [data|]; [|exact Hp].
  cbn. destruct Hp as [[Hi Hc] Hk]. split; [split|]; simpl; try assumption.
  intros c Hin. apply in_app_or in Hin. destruct Hin as [Hin | [<- | []]].
  - apply Hc. exact Hin.
  - exact Hk.
Qed.

Lemma hoare_converte_parcelas (P : DB -> Prop) s :
  hoare P (converte_parcelas s) (fun _ => P) P.
Proof.
  intros db Hp.
  destruct (converte_parcelas_cases s) as [(p & _ & H) | H]; rewrite H; exact Hp.
Qed.

Lemma hoare_venda_create_try r cliente forma dvs ps obs :
  hoare fk_ok (venda_create_try r cliente forma dvs ps obs)
        (fun _ => fk_ok) fk_ok.
Proof.
  unfold venda_create_try.
  eapply hoare_bind; [apply hoare_value_of|]. intros dv.
  eapply hoare_bind; [apply hoare_converte_parcelas|]. intros p.
  eapply (hoare_bind _ _ _ (fun venda => fk_com (sale_id venda))).
  { intros db [Hi Hc]. cbn. unfold fk_com, fk_ok. simpl.
    rewrite map_app. split; [split|].
    - intros it Hit. apply in_or_app. left. apply Hi. exact Hit.
    - intros c Hin. apply in_or_app. left. apply Hc. exact Hin.
    - apply in_or_app. right. left. reflexivity. }
  intros venda. destruct (POST_getlist r "produto_id[]") as [|pid0 pids].
  - eapply (hoare_bind _ _ _ (fun _ => fk_ok)).
    + intros db [Hp _]. exact (Sale_delete_fk_ok (sale_id venda) db Hp).
    + intros ?. apply hoare_ret. auto.
  - apply (hoare_conseq _ _ (fun _ => fk_com (sale_id venda)) _
                        (fk_com (sale_id venda)) _);
      [| intros ? db [H _]; exact H | intros db [H _]; exact H].
    eapply hoare_bind;
      [apply hoare_for_each; intros t; apply hoare_processa_item|].
    intros ?.
    eapply (hoare_bind _ _ _ (fun _ => fk_com (sale_id venda))).
    { intros db Hp.
      exact (calcular_valor_total_fk_com _ (sale_id venda) db Hp). }
    intros total.
    eapply hoare_bind;
      [apply hoare_for_each; intros i; apply hoare_cria_parcela|].
    intros ?. apply hoare_ret. auto.
Qed.

End Integridade.

Section Integridade2.

Context {B : Builtins}.

Lemma Client_objects_get_state s u db :
  snd (Client_objects_get s u db) = db.
Proof.
  unfold Client_objects_get, bind, value_of, ret, raise.
  destruct (py_int s); [|reflexivity].
  destruct (find _ (clients db)); reflexivity.
Qed.

Lemma venda_create_fk_ok r db : fk_ok db -> fk_ok (snd (venda_create r db)).
Proof.
  intros Hp. unfold venda_create.
  destruct (String.eqb (method r) "POST"); [|exact Hp].
  destruct (is_empty (POST_get r "cliente" "")); [exact Hp|].
  destruct (is_empty (POST_get r "data_vencimento" "")); [exact Hp|].
  pose proof (Client_objects_get_state (POST_get r "cliente" "") (user r) db)
    as Hs.
  destruct (Client_objects_get _ _ db) as [[cliente|e] db1]; simpl in Hs;
    subst db1.
  - pose proof (hoare_venda_create_try r cliente
                  (POST_get r "forma_pagamento" "dinheiro")
                  (POST_get r "data_vencimento" "")
                  (POST_get r "parcelas" "1")
                  (py_strip (POST_get r "observacoes" "")) db Hp) as H.
    destruct (venda_create_try _ _ _ _ _ _ db) as [[resp|e] db2]; exact H.
  - destruct e as [|[]]; exact Hp.
Qed.

Lemma venda_delete_fk_ok r pk db : fk_ok db -> fk_ok (snd (venda_delete r pk db)).
Proof.
  intros Hp. unfold venda_delete, Sale_objects_get.
  destruct (find _ (sales db)) as [venda|]; [|exact Hp].
  destruct (String.eqb (method r) "POST"); [|exact Hp].
  exact (Sale_delete_fk_ok (sale_id venda) db Hp).
Qed.

(** X1.  Whatever the request and however the view ends, on success, on a
    rejected form or on an exception half way, [venda_create] and
    [venda_delete] leave no line item and no receivable that refers to a
    sale that is not in the table. *)
Theorem vendas_keep_integrity (r : request) (pk : Z) (db : DB) :
  fk_ok db ->
  fk_ok (snd (venda_create r db)) /\ fk_ok (snd (venda_delete r pk db)).
Proof.
  intros Hp. split; [apply venda_create_fk_ok | apply venda_delete_fk_ok];
    exact Hp.
Qed.

End Integridade2.

Lemma fk_ok_db_vendido : fk_ok db_vendido.
Proof.
  split.
  - intros it [<-|[<-|[]]]; left; reflexivity.
  - intros c [<-|[<-|[]]]; left; reflexivity.
Qed.

Lemma vendas_keep_integrity_witness :
  fk_ok (snd (venda_create (B:=plain) req_two_items db_vendido))
  /\ fk_ok (snd (venda_delete req_two_items 1 db_vendido)).
Proof.
  apply (vendas_keep_integrity (B:=plain) req_two_items 1 db_vendido).
  exact fk_ok_db_vendido.
Defined.

(** ** What a created sale is made of *)



Section Composicao.

Context {B : Builtins}.





End Composicao.

Lemma filter_all {A : Type} (f : A -> bool) (l : list A) :
  (forall x, In x l -> f x = true) -> filter f l = l.
Proof.
  intros H. induction l as [|a l IH]; [reflexivity|].
  simpl. rewrite (H a (or_introl eq_refl)), IH; [reflexivity|].
  intros x Hx. apply H. right. exact Hx.
Qed.

Section Composicao2.

Context {B : Builtins}.


End Composicao2.

Lemma filter_app_fresh {A : Type} (f : A -> bool) (l1 l2 : list A) :
  (forall x, In x l1 -> f x = true) -> (forall x, In x l2 -> f x = false) ->
  filter f (l1 ++ l2) = l1.
Proof.
  intros H1 H2. rewrite filter_app, (filter_all f l1 H1).
  rewrite (proj2 (filter_nil_iff f l2) H2). apply app_nil_r.
Qed.


Section Efeito.

Context {B : Builtins}.



End Efeito.


Section Falhas.

Context {B : Builtins}.


End Falhas.

Lemma chave_livre_db_vendido : chave_livre db_vendido.
Proof.
  repeat split.
  - intros s [<-|[]]. discriminate.
  - intros it [<-|[<-|[]]]; discriminate.
  - intros c [<-|[<-|[]]]; discriminate.
Qed.



Lemma bind_raise' {A C : Type} (m : M A) (k : A -> M C) db e db1 :
  m db = (Raise e, db1) -> bind m k db = (Raise e, db1).
Proof. intros H. unfold bind. rewrite H. reflexivity. Qed.

Section Falhas2.

Context {B : Builtins}.



End Falhas2.


Lemma find_all_false {A : Type} (f : A -> bool) (l : list A) :
  (forall x, In x l -> f x = false) -> find f l = None.
Proof.
  intros H. induction l as [|a l IH]; [reflexivity|].
  simpl. rewrite (H a (or_introl eq_refl)). apply IH.
  intros x Hx. apply H. right. exact Hx.
Qed.

Section Rejeicoes.

Context {B : Builtins}.

(** X4.  What [venda_create] rejects, and what a rejection leaves.  A
    request that is not a POST, that has no client or no due date, whose
    client is not a client of the user, or whose due date or number of
    installments does not parse, is answered with the form and leaves the
    database exactly as it was; a client key that is not a number is not
    caught and leaves the database as it was too.  A request with no
    product row creates the sale and deletes it: the tables are as
    before, and one primary key is used up. *)
Theorem venda_create_rejections (r : request) (db : DB) :
  (method r <> "POST"%string ->
   venda_create r db = (Render "vendas/vendas/form.html" None, db))
  /\ (method r = "POST"%string ->
      (is_empty (POST_get r "cliente" "") = true ->
       venda_create r db
       = (Render "vendas/vendas/form.html" (Some ClienteObrigatorio), db))
      /\ (is_empty (POST_get r "cliente" "") = false ->
          is_empty (POST_get r "data_vencimento" "") = true ->
          venda_create r db
          = (Render "vendas/vendas/form.html" (Some DataVencimentoObrigatoria),
             db))
      /\ (is_empty (POST_get r "cliente" "") = false ->
          is_empty (POST_get r "data_vencimento" "") = false ->
          (py_int (POST_get r "cliente" "") = None ->
           venda_create r db = (Uncaught ValueError, db))
          /\ (forall k,
                 py_int (POST_get r "cliente" "") = Some k ->
                 (forall c, In c (clients db) -> client_id c = k ->
                            client_usuario c <> user r) ->
                 venda_create r db
                 = (Render "vendas/vendas/form.html" (Some ClienteNaoEncontrado),
                    db))
          /\ (forall cliente,
                 Client_objects_get (POST_get r "cliente" "") (user r) db
                 = (Ok cliente, db) ->
                 (py_strptime_date (POST_get r "data_vencimento" "") = None ->
                  venda_create r db
                  = (Render "vendas/vendas/form.html"
                            (Some (ErroAoCriarVenda ValueError)), db))
                 /\ (forall dv,
                        py_strptime_date (POST_get r "data_vencimento" "")
                        = Some dv ->
                        is_empty (POST_get r "parcelas" "1") = false ->
                        py_int (POST_get r "parcelas" "1") = None ->
                        venda_create r db
                        = (Render "vendas/vendas/form.html"
                                  (Some (ErroAoCriarVenda ValueError)), db))
                 /\ (forall dv p,
                        py_strptime_date (POST_get r "data_vencimento" "")
                        = Some dv ->
                        converte_parcelas (POST_get r "parcelas" "1") db
                        = (Ok p, db) ->
                        POST_getlist r "produto_id[]" = [] ->
                        chave_livre db ->
                        exists db',
                          venda_create r db
                          = (Render "vendas/vendas/form.html"
                                    (Some AdicioneProduto), db')
                          /\ mesmas_tabelas db db'
                          /\ seq_sale db' = seq_sale db + 1)))).
Proof.
  split.
  - intros Hm. unfold venda_create. apply String.eqb_neq in Hm. rewrite Hm.
    reflexivity.
  - intros Hm. unfold venda_create. rewrite Hm.
    cbn [String.eqb Ascii.eqb Bool.eqb andb].
    split; [intros ->; reflexivity|].
    split; [intros -> ->; reflexivity|].
    intros -> ->. split; [|split].
    + intros Hk. unfold Client_objects_get, bind, value_of, raise.
      rewrite Hk. reflexivity.
    + intros k Hk Hnone. unfold Client_objects_get, bind, value_of, ret.
      rewrite Hk. rewrite find_all_false; [reflexivity|].
      intros c Hin. destruct (client_id c =? k) eqn:E; [|reflexivity].
      apply Z.eqb_eq in E. simpl. apply Z.eqb_neq. apply Hnone; assumption.
    + intros cliente Hcli. rewrite Hcli. split; [|split].
      * intros Hd. unfold venda_create_try.
        erewrite bind_raise'; [reflexivity|].
        unfold value_of. rewrite Hd. reflexivity.
      * intros dv Hd He Hp. unfold venda_create_try.
        rewrite (bind_ok _ _ db dv db)
          by (unfold value_of; rewrite Hd; reflexivity).
        erewrite bind_raise'; [reflexivity|].
        unfold converte_parcelas, bind, value_of, raise.
        rewrite He, Hp. reflexivity.
      * intros dv p Hd Hp Hids (Hls & Hli & Hlc). unfold venda_create_try.
        rewrite (bind_ok _ _ db dv db)
          by (unfold value_of; rewrite Hd; reflexivity).
        rewrite (bind_ok _ _ db p db) by exact Hp.
        erewrite bind_ok by (unfold Sale_objects_create; reflexivity).
        rewrite Hids. erewrite bind_ok by (unfold Sale_delete; reflexivity).
        unfold ret. eexists. split; [reflexivity|].
        unfold mesmas_tabelas.
        cbn [clients products sales sale_items contas_receber contas_pagar
             seq_sale sale_id].
        repeat split.
        -- apply filter_app_fresh.
           ++ intros s Hin. apply negb_true_iff, Z.eqb_neq. apply Hls.
              exact Hin.
           ++ intros s [<-|[]]. cbn [sale_id]. rewrite Z.eqb_refl. reflexivity.
        -- apply filter_all. intros it Hin.
           apply negb_true_iff, Z.eqb_neq. apply Hli. exact Hin.
        -- apply filter_all. intros c Hin.
           apply negb_true_iff, Z.eqb_neq. apply Hlc. exact Hin.
Qed.

End Rejeicoes.

Lemma venda_create_rejections_witness :
  venda_create (B:=plain) req_cliente_alheio db_vendido
  = (Render "vendas/vendas/form.html" (Some ClienteNaoEncontrado), db_vendido)
  /\ exists db',
      venda_create (B:=plain) req_sem_produtos db_vendido
      = (Render "vendas/vendas/form.html" (Some AdicioneProduto), db')
      /\ mesmas_tabelas db_vendido db'
      /\ seq_sale db' = seq_sale db_vendido + 1.
Proof.
  split.
  - destruct (venda_create_rejections (B:=plain) req_cliente_alheio db_vendido)
      as [_ H].
    destruct (H eq_refl) as (_ & _ & H3).
    destruct (H3 eq_refl eq_refl) as (_ & H4 & _).
    apply (H4 1); [reflexivity|].
    intros c [<-|[]] _. discriminate.
  - destruct (venda_create_rejections (B:=plain) req_sem_produtos db_vendido)
      as [_ H].
    destruct (H eq_refl) as (_ & _ & H3).
    destruct (H3 eq_refl eq_refl) as (_ & _ & H5).
    destruct (H5 (mkClient 1 7 "Ana") eq_refl) as (_ & _ & H6).
    apply (H6 (mkdate 2024 1 15) 1);
      [reflexivity | reflexivity | reflexivity | exact chave_livre_db_vendido].
Defined.

(** ** Payable accounts *)

Lemma set_contas_pagar_same db : set_contas_pagar db (contas_pagar db) = db.
Proof. destruct db; reflexivity. Qed.


Section ContasPagarProofs.

Context {B : Builtins}.






End ContasPagarProofs.



(** ** Accounts of another user, and accounts left untouched *)

Lemma nodup_key_eq {A : Type} (key : A -> Z) (l : list A) (x y : A) :
  NoDup (map key l) -> In x l -> In y l -> key x = key y -> x = y.
Proof.
  induction l as [|a l IH]; intros Hnd Hx Hy Hk; [destruct Hx|].
  simpl in Hnd. inversion Hnd as [|? ? Hnotin Hnd']; subst.
  destruct Hx as [<-|Hx], Hy as [<-|Hy].
  - reflexivity.
  - exfalso. apply Hnotin. rewrite Hk. apply in_map. exact Hy.
  - exfalso. apply Hnotin. rewrite <- Hk. apply in_map. exact Hx.
  - apply IH; assumption.
Qed.

(** With unique keys, saving a row over the row [old] rewrites that row
    only. *)
Lemma save_row_unique {A : Type} (key : A -> Z) (old row : A) (l : list A) :
  In old l -> key row = key old ->
  save_row key row l = map (fun r => if key r =? key old then row else r) l.
Proof.
  intros Hin Hk. unfold save_row. rewrite Hk.
  assert (existsb (fun r => key r =? key old) l = true) as ->; [|reflexivity].
  apply existsb_exists. exists old. split; [exact Hin | apply Z.eqb_refl].
Qed.

Lemma save_row_restore {A : Type} (key : A -> Z) (old row : A) (l : list A) :
  NoDup (map key l) -> In old l -> key row = key old ->
  save_row key old (save_row key row l) = l.
Proof.
  intros Hnd Hin Hk.
  rewrite (save_row_unique key old row l Hin Hk).
  rewrite (save_row_unique key row old).
  - rewrite map_map. rewrite <- (map_id l) at 2. apply map_ext_in.
    intros r Hr. rewrite Hk.
    destruct (key r =? key old) eqn:E.
    + rewrite Hk, Z.eqb_refl. symmetry.
      apply (nodup_key_eq key l r old Hnd Hr Hin). apply Z.eqb_eq. exact E.
    + rewrite E. reflexivity.
  - apply in_map_iff. exists old. rewrite Z.eqb_refl. split; [reflexivity|exact Hin].
  - symmetry. exact Hk.
Qed.

Section Isolamento.

Context {B : Builtins}.

(** X9.  A sale, a receivable or a payable account that does not belong
    to the user of the request is treated as if it did not exist: every
    view that takes its primary key answers 'not found' with a
    redirection to the list, and leaves the database exactly as it was. *)
Theorem other_users_rows_not_found
        (hoje : date) (r : request) (pk : Z) (db : DB) :
  ((forall s, In s (sales db) -> sale_id s = pk -> sale_usuario s <> user r) ->
   venda_delete r pk db
   = (Redireciona "vendas:vendas_list" None (Some VendaNaoEncontrada), db))
  /\ ((forall c, In c (contas_receber db) -> ar_id c = pk ->
                 ar_usuario c <> user r) ->
      conta_receber_detail hoje r pk db
      = (Redireciona "vendas:contas_receber_list" None
                     (Some ContaReceberNaoEncontrada), db)
      /\ conta_receber_marcar_pago r pk db
         = (Redirect "vendas:contas_receber_list" None (Some ContaNaoEncontrada),
            db)
      /\ conta_receber_marcar_nao_pago r pk db
         = (Redirect "vendas:contas_receber_list" None (Some ContaNaoEncontrada),
            db))
  /\ ((forall c, In c (contas_pagar db) -> ap_id c = pk ->
                 ap_usuario c <> user r) ->
      conta_pagar_detail hoje r pk db
      = (Redireciona "vendas:contas_pagar_list" None
                     (Some ContaPagarNaoEncontrada), db)
      /\ conta_pagar_edit r pk db
         = (Redireciona "vendas:contas_pagar_list" None
                        (Some ContaPagarNaoEncontrada), db)
      /\ conta_pagar_delete r pk db
         = (Redireciona "vendas:contas_pagar_list" None
                        (Some ContaPagarNaoEncontrada), db)
      /\ conta_pagar_marcar_pago r pk db
         = (Redirect "vendas:contas_pagar_list" None (Some ContaNaoEncontrada),
            db)
      /\ conta_pagar_marcar_nao_pago r pk db
         = (Redirect "vendas:contas_pagar_list" None (Some ContaNaoEncontrada),
            db)).
Proof.
  split; [|split].
  - intros H. unfold venda_delete, Sale_objects_get.
    rewrite find_all_false; [reflexivity|].
    intros s Hin. destruct (sale_id s =? pk) eqn:E; [|reflexivity].
    apply Z.eqb_eq in E. simpl. apply Z.eqb_neq. apply H; assumption.
  - intros H.
    assert (AccountsReceivable_objects_get pk (user r) db
            = (Raise (DoesNotExist MReceber), db)) as Hget.
    { unfold AccountsReceivable_objects_get.
      rewrite find_all_false; [reflexivity|].
      intros c Hin. destruct (ar_id c =? pk) eqn:E; [|reflexivity].
      apply Z.eqb_eq in E. simpl. apply Z.eqb_neq. apply H; assumption. }
    unfold conta_receber_detail, conta_receber_marcar_pago,
      conta_receber_marcar_nao_pago.
    rewrite Hget. repeat split.
  - intros H.
    assert (AccountsPayable_objects_get pk (user r) db
            = (Raise (DoesNotExist MPagar), db)) as Hget.
    { unfold AccountsPayable_objects_get.
      rewrite find_all_false; [reflexivity|].
      intros c Hin. destruct (ap_id c =? pk) eqn:E; [|reflexivity].
      apply Z.eqb_eq in E. simpl. apply Z.eqb_neq. apply H; assumption. }
    unfold conta_pagar_detail, conta_pagar_edit, conta_pagar_delete,
      conta_pagar_marcar_pago, conta_pagar_marcar_nao_pago.
    rewrite Hget. repeat split.
Qed.

(** X10.  An account of the user is marked as paid only by a POST that
    carries a payment date that parses.  A request that is not a POST, a
    POST without the date and a POST whose date does not parse leave the
    database exactly as it was, for receivable and for payable accounts. *)
Theorem marcar_pago_failures (r : request) (pk : Z) (db : DB) :
  (forall conta,
      AccountsReceivable_objects_get pk (user r) db = (Ok conta, db) ->
      (method r <> "POST"%string ->
       conta_receber_marcar_pago r pk db
       = (Render "vendas/contas_receber/marcar_pago.html" None, db))
      /\ (method r = "POST"%string ->
          is_empty (POST_get r "data_pagamento" "") = true ->
          conta_receber_marcar_pago r pk db
          = (Render "vendas/contas_receber/marcar_pago.html"
                    (Some DataPagamentoObrigatoria), db))
      /\ (method r = "POST"%string ->
          is_empty (POST_get r "data_pagamento" "") = false ->
          py_strptime_date (POST_get r "data_pagamento" "") = None ->
          conta_receber_marcar_pago r pk db
          = (Render "vendas/contas_receber/marcar_pago.html"
                    (Some (ErroAoMarcarPago ValueError)), db)))
  /\ (forall conta,
         AccountsPayable_objects_get pk (user r) db = (Ok conta, db) ->
         (method r <> "POST"%string ->
          conta_pagar_marcar_pago r pk db
          = (Render "vendas/contas_pagar/marcar_pago.html" None, db))
         /\ (method r = "POST"%string ->
             is_empty (POST_get r "data_pagamento" "") = true ->
             conta_pagar_marcar_pago r pk db
             = (Render "vendas/contas_pagar/marcar_pago.html"
                       (Some DataPagamentoObrigatoria), db))
         /\ (method r = "POST"%string ->
             is_empty (POST_get r "data_pagamento" "") = false ->
             py_strptime_date (POST_get r "data_pagamento" "") = None ->
             conta_pagar_marcar_pago r pk db
             = (Render "vendas/contas_pagar/marcar_pago.html"
                       (Some (ErroAoMarcarPago ValueError)), db))).
Proof.
  split; intros conta Hget.
  - unfold conta_receber_marcar_pago. rewrite Hget. split; [|split].
    + intros Hm. apply String.eqb_neq in Hm. rewrite Hm. reflexivity.
    + intros -> ->. reflexivity.
    + intros -> -> Hd. cbn [String.eqb Ascii.eqb Bool.eqb andb].
      unfold bind, value_of, raise. rewrite Hd. reflexivity.
  - unfold conta_pagar_marcar_pago. rewrite Hget. split; [|split].
    + intros Hm. apply String.eqb_neq in Hm. rewrite Hm. reflexivity.
    + intros -> ->. reflexivity.
    + intros -> -> Hd. cbn [String.eqb Ascii.eqb Bool.eqb andb].
      unfold bind, value_of, raise. rewrite Hd. reflexivity.
Qed.

End Isolamento.

Lemma set_contas_receber_same db :
  set_contas_receber db (contas_receber db) = db.
Proof. destruct db; reflexivity. Qed.

Section IdaEVolta.

Context {B : Builtins}.

(** X11.  With unique primary keys, marking a pending, unpaid account as
    paid and then as not paid brings the database back exactly to what
    it was, for receivable and for payable accounts. *)
Theorem marcar_pago_then_nao_pago (r r' : request) (pk : Z) (d : date) (db : DB) :
  method r = "POST"%string ->
  is_empty (POST_get r "data_pagamento" "") = false ->
  py_strptime_date (POST_get r "data_pagamento" "") = Some d ->
  user r' = user r ->
  (forall conta,
      NoDup (map ar_id (contas_receber db)) ->
      AccountsReceivable_objects_get pk (user r) db = (Ok conta, db) ->
      ar_status conta = "pendente"%string ->
      ar_data_pagamento conta = None ->
      exists db1,
        conta_receber_marcar_pago r pk db
        = (Redirect "vendas:conta_receber_detail" (Some pk)
                    (Some (ContaMarcadaPaga pk)), db1)
        /\ conta_receber_marcar_nao_pago r' pk db1
           = (Redirect "vendas:conta_receber_detail" (Some pk)
                       (Some (ContaMarcadaNaoPaga pk)), db))
  /\ (forall conta,
         NoDup (map ap_id (contas_pagar db)) ->
         AccountsPayable_objects_get pk (user r) db = (Ok conta, db) ->
         ap_status conta = "pendente"%string ->
         ap_data_pagamento conta = None ->
         exists db1,
           conta_pagar_marcar_pago r pk db
           = (Redirect "vendas:conta_pagar_detail" (Some pk)
                       (Some (ContaMarcadaPaga pk)), db1)
           /\ conta_pagar_marcar_nao_pago r' pk db1
              = (Redirect "vendas:conta_pagar_detail" (Some pk)
                          (Some (ContaMarcadaNaoPaga pk)), db)).
Proof.
  intros Hm He Hd Hu'. split.
  - intros conta Hnd Hget Hst Hpg.
    unfold conta_receber_marcar_pago. rewrite Hget, Hm, He.
    cbn [String.eqb Ascii.eqb Bool.eqb andb].
    unfold bind, value_of, ret. rewrite Hd.
    apply receber_get_find in Hget. destruct Hget as (Hf & Hk & Hu & _).
    pose proof (find_some _ _ Hf) as [Hin _].
    eexists. split; [cbn; rewrite Hk; reflexivity|].
    unfold conta_receber_marcar_nao_pago, AccountsReceivable_objects_get,
      AccountsReceivable_save.
    cbn [contas_receber set_contas_receber]. rewrite Hu'.
    erewrite find_save_row; [| exact Hf | exact Hk | exact Hu].
    cbn [ar_id ar_with_status ar_with_pagamento]. rewrite Hk.
    f_equal.
    replace (ar_with_status
               (ar_with_pagamento
                  (ar_with_status (ar_with_pagamento conta (Some d)) "pago")
                  None) "pendente") with conta
      by (destruct conta; cbn in *; subst; reflexivity).
    cbn [contas_receber set_contas_receber].
    rewrite save_row_restore; [| exact Hnd | exact Hin | reflexivity].
    destruct db; reflexivity.
  - intros conta Hnd Hget Hst Hpg.
    unfold conta_pagar_marcar_pago. rewrite Hget, Hm, He.
    cbn [String.eqb Ascii.eqb Bool.eqb andb].
    unfold bind, value_of, ret. rewrite Hd.
    apply pagar_get_find in Hget. destruct Hget as (Hf & Hk & Hu & _).
    pose proof (find_some _ _ Hf) as [Hin _].
    eexists. split; [cbn; rewrite Hk; reflexivity|].
    unfold conta_pagar_marcar_nao_pago, AccountsPayable_objects_get,
      AccountsPayable_save.
    cbn [contas_pagar set_contas_pagar]. rewrite Hu'.
    erewrite find_save_row; [| exact Hf | exact Hk | exact Hu].
    cbn [ap_id ap_with_status ap_with_pagamento]. rewrite Hk.
    f_equal.
    replace (ap_with_status
               (ap_with_pagamento
                  (ap_with_status (ap_with_pagamento conta (Some d)) "pago")
                  None) "pendente") with conta
      by (destruct conta; cbn in *; subst; reflexivity).
    cbn [contas_pagar set_contas_pagar].
    rewrite save_row_restore; [| exact Hnd | exact Hin | reflexivity].
    destruct db; reflexivity.
Qed.

(** X12.  After an account is marked as not paid, the first look at its
    detail page puts the status right again: the account is stored as
    'vencido' when its due date is before today and as 'pendente'
    otherwise, with no payment date.  For receivable and for payable
    accounts. *)
Theorem nao_pago_then_detail (hoje : date) (r r' : request) (pk : Z) (db : DB) :
  user r' = user r ->
  (forall conta,
      AccountsReceivable_objects_get pk (user r) db = (Ok conta, db) ->
      exists resp db1 db2,
        conta_receber_marcar_nao_pago r pk db = (resp, db1)
        /\ conta_receber_detail hoje r' pk db1
           = (Pagina "vendas/contas_receber/detail.html" None, db2)
        /\ AccountsReceivable_objects_get pk (user r) db2
           = (Ok (mkReceivable pk (user r) (ar_venda conta) (ar_cliente conta)
                              (ar_valor conta) (ar_data_vencimento conta) None
                              (if ltb (ar_data_vencimento conta) hoje
                               then "vencido" else "pendente")
                              (ar_observacoes conta)), db2))
  /\ (forall conta,
         AccountsPayable_objects_get pk (user r) db = (Ok conta, db) ->
         exists resp db1 db2,
           conta_pagar_marcar_nao_pago r pk db = (resp, db1)
           /\ conta_pagar_detail hoje r' pk db1
              = (Pagina "vendas/contas_pagar/detail.html" None, db2)
           /\ AccountsPayable_objects_get pk (user r) db2
              = (Ok (mkPayable pk (user r) (ap_descricao conta) (ap_valor conta)
                               (ap_data_vencimento conta) None
                               (if ltb (ap_data_vencimento conta) hoje
                                then "vencido" else "pendente")
                               (ap_observacoes conta)), db2)).
Proof.
  intros Hu'. split.
  - intros conta Hget.
    unfold conta_receber_marcar_nao_pago. rewrite Hget.
    apply receber_get_find in Hget. destruct Hget as (Hf & Hk & Hu & _).
    unfold AccountsReceivable_save at 1. eexists. eexists. eexists.
    split; [reflexivity|].
    set (c2 := ar_with_status (ar_with_pagamento conta None) "pendente").
    assert (find (fun c => (ar_id c =? pk) && (ar_usuario c =? user r))
                 (save_row ar_id c2 (contas_receber db)) = Some c2) as Hf2
      by (apply (find_save_row _ _ _ _ conta); assumption).
    unfold conta_receber_detail, AccountsReceivable_objects_get.
    cbn [contas_receber set_contas_receber]. rewrite Hu', Hf2.
    unfold AccountsReceivable_atualizar_status, bind, ret,
      AccountsReceivable_save.
    cbn [ar_status c2 ar_with_status String.eqb Ascii.eqb Bool.eqb andb].
    split; [reflexivity|].
    cbn [contas_receber set_contas_receber].
    erewrite find_save_row; [| exact Hf2 | |].
    + subst c2. cbn [ar_data_vencimento ar_with_status ar_with_pagamento].
      destruct (ltb (ar_data_vencimento conta) hoje);
        unfold ar_with_status; cbn; rewrite Hk, Hu; reflexivity.
    + destruct (ltb _ hoje); exact Hk.
    + destruct (ltb _ hoje); exact Hu.
  - intros conta Hget.
    unfold conta_pagar_marcar_nao_pago. rewrite Hget.
    apply pagar_get_find in Hget. destruct Hget as (Hf & Hk & Hu & _).
    unfold AccountsPayable_save at 1. eexists. eexists. eexists.
    split; [reflexivity|].
    set (c2 := ap_with_status (ap_with_pagamento conta None) "pendente").
    assert (find (fun c => (ap_id c =? pk) && (ap_usuario c =? user r))
                 (save_row ap_id c2 (contas_pagar db)) = Some c2) as Hf2
      by (apply (find_save_row _ _ _ _ conta); assumption).
    unfold conta_pagar_detail, AccountsPayable_objects_get.
    cbn [contas_pagar set_contas_pagar]. rewrite Hu', Hf2.
    unfold AccountsPayable_atualizar_status, bind, ret, AccountsPayable_save.
    cbn [ap_status c2 ap_with_status String.eqb Ascii.eqb Bool.eqb andb].
    split; [reflexivity|].
    cbn [contas_pagar set_contas_pagar].
    erewrite find_save_row; [| exact Hf2 | |].
    + subst c2. cbn [ap_data_vencimento ap_with_status ap_with_pagamento].
      destruct (ltb (ap_data_vencimento conta) hoje);
        unfold ap_with_status; cbn; rewrite Hk, Hu; reflexivity.
    + destruct (ltb _ hoje); exact Hk.
    + destruct (ltb _ hoje); exact Hu.
Qed.

End IdaEVolta.

Lemma other_users_rows_not_found_witness :
  venda_delete (mkRequest "POST" 8 []) 1 db_contas
  = (Redireciona "vendas:vendas_list" None (Some VendaNaoEncontrada), db_contas)
  /\ conta_receber_marcar_nao_pago (mkRequest "POST" 8 []) 2 db_contas
     = (Redirect "vendas:contas_receber_list" None (Some ContaNaoEncontrada),
        db_contas)
  /\ conta_pagar_delete (mkRequest "POST" 8 []) 1 db_contas
     = (Redireciona "vendas:contas_pagar_list" None
                    (Some ContaPagarNaoEncontrada), db_contas).
Proof.
  split; [|split].
  - apply (proj1 (other_users_rows_not_found (B:=plain) (mkdate 2024 3 1)
                    (mkRequest "POST" 8 []) 1 db_contas)).
    intros s [<-|[]] _. discriminate.
  - apply (proj1 (proj2 (other_users_rows_not_found (B:=plain) (mkdate 2024 3 1)
                           (mkRequest "POST" 8 []) 2 db_contas))).
    intros c [<-|[<-|[]]] _; discriminate.
  - apply (proj2 (proj2 (other_users_rows_not_found (B:=plain) (mkdate 2024 3 1)
                           (mkRequest "POST" 8 []) 1 db_contas))).
    intros c [<-|[<-|[]]] _; discriminate.
Defined.

Lemma marcar_pago_failures_witness :
  conta_receber_marcar_pago (B:=plain) (mkRequest "GET" 7 []) 1 db_contas
  = (Render "vendas/contas_receber/marcar_pago.html" None, db_contas)
  /\ conta_pagar_marcar_pago (B:=plain) (post_pagamento "amanha") 1 db_contas
     = (Render "vendas/contas_pagar/marcar_pago.html"
               (Some (ErroAoMarcarPago ValueError)), db_contas).
Proof.
  split.
  - apply (proj1 (marcar_pago_failures (B:=plain) (mkRequest "GET" 7 []) 1
                    db_contas) conta_pendente eq_refl).
    discriminate.
  - apply (proj2 (marcar_pago_failures (B:=plain) (post_pagamento "amanha") 1
                    db_contas) boleto_pendente eq_refl); reflexivity.
Defined.

Lemma marcar_pago_then_nao_pago_witness :
  exists db1,
    conta_receber_marcar_pago (B:=plain) (post_pagamento "2024-03-01") 1
                              db_contas
    = (Redirect "vendas:conta_receber_detail" (Some 1)
                (Some (ContaMarcadaPaga 1)), db1)
    /\ conta_receber_marcar_nao_pago (mkRequest "GET" 7 []) 1 db1
       = (Redirect "vendas:conta_receber_detail" (Some 1)
                   (Some (ContaMarcadaNaoPaga 1)), db_contas).
Proof.
  apply (proj1 (marcar_pago_then_nao_pago (B:=plain)
                  (post_pagamento "2024-03-01") (mkRequest "GET" 7 []) 1
                  (mkdate 2024 3 1) db_contas eq_refl eq_refl eq_refl eq_refl)
               conta_pendente).
  - repeat constructor; simpl; intuition discriminate.
  - reflexivity.
  - reflexivity.
  - reflexivity.
Defined.

Lemma nao_pago_then_detail_witness :
  exists resp db1 db2,
    conta_receber_marcar_nao_pago (mkRequest "POST" 7 []) 2 db_contas
    = (resp, db1)
    /\ conta_receber_detail (mkdate 2024 3 1) (mkRequest "GET" 7 []) 2 db1
       = (Pagina "vendas/contas_receber/detail.html" None, db2)
    /\ AccountsReceivable_objects_get 2 7 db2
       = (Ok (mkReceivable 2 7 1 1 1250 (mkdate 2024 2 15) None "vencido" None),
          db2).
Proof.
  apply (proj1 (nao_pago_then_detail (mkdate 2024 3 1) (mkRequest "POST" 7 [])
                  (mkRequest "GET" 7 []) 2 db_contas eq_refl) conta_paga).
  reflexivity.
Defined.

(** ** More on the due dates *)

Lemma data_parcela_valid d i x : data_parcela d i = Some x -> valid x = true.
Proof.
  unfold data_parcela, replace_month_year, replace_all.
  destruct (mes_ano_vencimento d i) as [[m y]|]; [|discriminate].
  destruct (new y m (day d)) as [x'|] eqn:E.
  - intros H. injection H as <-. apply (new_valid _ _ _ _ E).
  - destruct (monthrange_ndays y m) as [u|]; [|discriminate].
    apply new_valid.
Qed.

Lemma all_dates_some d idx l :
  all_dates d idx = Some l ->
  l = map (fun i => match data_parcela d i with Some x => x | None => d end) idx
  /\ forall i, In i idx -> data_parcela d i <> None.
Proof.
  revert l. induction idx as [|i idx IH]; intros l H.
  - injection H as <-. split; [reflexivity | intros i []].
  - simpl in H. destruct (data_parcela d i) as [x|] eqn:E; [|discriminate].
    destruct (all_dates d idx) as [xs|]; [|discriminate].
    injection H as <-. destruct (IH xs eq_refl) as [-> Hall].
    split; [simpl; rewrite E; reflexivity|].
    intros j [<-|Hj]; [congruence | apply Hall; exact Hj].
Qed.

Lemma all_dates_none d idx i :
  In i idx -> data_parcela d i = None -> all_dates d idx = None.
Proof.
  intros Hin Hnone. induction idx as [|j idx IH]; [destruct Hin|].
  simpl. destruct Hin as [->|Hin].
  - rewrite Hnone. reflexivity.
  - destruct (data_parcela d j); [|reflexivity].
    rewrite (IH Hin). reflexivity.
Qed.

Lemma target_year_bound d count :
  1 <= month d <= 12 ->
  target_year d (count - 1) <= MAXYEAR
  <-> count <= 12 * (MAXYEAR - year d) + 13 - month d.
Proof.
  intros Hm. unfold target_year.
  pose proof (Z.div_mod (month d - 1 + (count - 1)) 12 ltac:(lia)) as Hdm.
  pose proof (Z.mod_pos_bound (month d - 1 + (count - 1)) 12 ltac:(lia)) as Hb.
  lia.
Qed.

(** X13.  From a valid anchor date, the due dates of [count] installments,
    for [count] at least 1, can be computed exactly when [count] is at
    most 12 * (9999 - year) + 13 - month of the anchor, the number of
    months left in the calendar counting the month of the anchor;
    with one installment more the computation raises. *)
Theorem compute_installment_dates_limit (d : date) (count : Z) :
  valid d = true ->
  1 <= count ->
  (compute_installment_dates d count <> None
   <-> count <= 12 * (MAXYEAR - year d) + 13 - month d).
Proof.
  intros Hv Hc.
  pose proof (proj1 (check_date_fields_true _ _ _) Hv) as (Hy & Hm & Hd).
  rewrite <- (target_year_bound d count Hm). split.
  - intros Hsome.
    destruct (Z_le_gt_dec (target_year d (count - 1)) MAXYEAR) as [Hle|Hgt];
      [exact Hle|].
    exfalso. apply Hsome. unfold compute_installment_dates.
    apply (all_dates_none d (range count) (count - 1)).
    + apply In_range. lia.
    + apply data_parcela_out_of_range; [exact Hv | lia | lia].
  - intros Hle. rewrite compute_installment_dates_in_range by assumption.
    discriminate.
Qed.

Lemma compute_installment_dates_limit_witness :
  compute_installment_dates (mkdate 9999 11 15) 2 <> None
  <-> 2 <= 12 * (MAXYEAR - 9999) + 13 - 11.
Proof.
  apply (compute_installment_dates_limit (mkdate 9999 11 15) 2).
  - reflexivity.
  - lia.
Defined.

(** X14.  Whenever the due dates are computed from a valid anchor date,
    every one of them is a valid calendar date, none is before the
    anchor, none has a later day of the month than the anchor, and the
    first one is the anchor itself. *)
Theorem compute_installment_dates_sound (d : date) (count : Z) (l : list date) :
  valid d = true ->
  compute_installment_dates d count = Some l ->
  (forall x, In x l ->
             valid x = true /\ day x <= day d /\ ltb x d = false)
  /\ (1 <= count -> nth_error l 0 = Some d).
Proof.
  intros Hv Hl. unfold compute_installment_dates in Hl.
  destruct (all_dates_some d (range count) l Hl) as [-> Hall].
  assert (forall i, In i (range count) ->
            data_parcela d i = Some (parcela_esperada d i)) as Hexp.
  { intros i Hi. pose proof (Hall i Hi) as Hne. apply In_range in Hi.
    destruct (Z_le_gt_dec (target_year d i) MAXYEAR) as [Hle|Hgt].
    - apply data_parcela_in_range; [exact Hv | lia | exact Hle].
    - exfalso. apply Hne.
      apply data_parcela_out_of_range; [exact Hv | lia | lia]. }
  split.
  - intros x Hx. apply in_map_iff in Hx. destruct Hx as (i & <- & Hi).
    rewrite (Hexp i Hi). split; [|split].
    + apply (data_parcela_valid d i). apply Hexp. exact Hi.
    + unfold parcela_esperada, dia_parcela. simpl. lia.
    + apply In_range in Hi.
      destruct (Z.eq_dec i 0) as [->|Hne].
      * rewrite parcela_esperada_0 by exact Hv. apply ltb_irrefl.
      * pose proof (parcela_esperada_increasing d 0 i ltac:(lia)) as Hlt.
        rewrite parcela_esperada_0 in Hlt by exact Hv.
        unfold lt in Hlt. apply ltb_true_iff in Hlt.
        destruct (ltb (parcela_esperada d i) d) eqn:E; [|reflexivity].
        apply ltb_true_iff in E. lia.
  - intros Hc. rewrite nth_error_map.
    change (nth_error (range count) 0)
      with (nth_error (range count) (Z.to_nat 0)).
    rewrite (nth_error_range count 0) by lia. simpl.
    rewrite (Hexp 0) by (apply In_range; lia).
    rewrite parcela_esperada_0 by exact Hv. reflexivity.
Qed.

Lemma compute_installment_dates_sound_witness :
  (forall x, In x [mkdate 2024 1 31; mkdate 2024 2 29; mkdate 2024 3 31] ->
             valid x = true /\ day x <= 31
             /\ ltb x (mkdate 2024 1 31) = false)
  /\ (1 <= 3 ->
      nth_error [mkdate 2024 1 31; mkdate 2024 2 29; mkdate 2024 3 31] 0
      = Some (mkdate 2024 1 31)).
Proof.
  apply (compute_installment_dates_sound (mkdate 2024 1 31) 3).
  - reflexivity.
  - reflexivity.
Defined.

(** ** How far the installments are from the total *)



Lemma sum_Z_cons x l : sum_Z (x :: l) = x + sum_Z l.
Proof. change (x :: l) with ([x] ++ l). rewrite sum_Z_app. reflexivity. Qed.


Section Deriva.

Context {B : Builtins}.


End Deriva.


(** The bound is not always zero: three installments of 8.33 for a sale
    of 25.00. *)
Example parcelas_sum_can_miss_total :
  let db' := snd (venda_create (B:=plain) req_tres_parcelas db0) in
  map ar_valor (contas_receber db') = [833; 833; 833]
  /\ map valor_total (sales db') = [2500].
Proof. vm_compute. split; reflexivity. Qed.

(** ** The list of receivable accounts *)

Lemma ar_id_atualizada hoje c : ar_id (ar_atualizada hoje c) = ar_id c.
Proof.
  unfold ar_atualizada.
  destruct (String.eqb _ _); [reflexivity|].
  destruct (ltb _ _); reflexivity.
Qed.

Lemma ar_usuario_atualizada hoje c :
  ar_usuario (ar_atualizada hoje c) = ar_usuario c.
Proof.
  unfold ar_atualizada.
  destruct (String.eqb _ _); [reflexivity|].
  destruct (ltb _ _); reflexivity.
Qed.

Lemma ar_atualizada_idem hoje c :
  ar_atualizada hoje (ar_atualizada hoje c) = ar_atualizada hoje c.
Proof.
  unfold ar_atualizada.
  destruct (String.eqb (ar_status c) "pago") eqn:E; [rewrite E; reflexivity|].
  destruct (ltb (ar_data_vencimento c) hoje) eqn:L; cbn; rewrite L; reflexivity.
Qed.

Lemma set_contas_receber_twice db l1 l2 :
  set_contas_receber (set_contas_receber db l1) l2 = set_contas_receber db l2.
Proof. reflexivity. Qed.

(** With unique keys, one call rewrites the row of the account, and only
    that row. *)
Lemma atualizar_status_step hoje c db :
  NoDup (map ar_id (contas_receber db)) -> In c (contas_receber db) ->
  AccountsReceivable_atualizar_status hoje c db
  = (Ok (ar_atualizada hoje c),
     set_contas_receber db
       (map (fun r => if ar_id r =? ar_id c then ar_atualizada hoje r else r)
            (contas_receber db))).
Proof.
  intros Hnd Hin.
  assert (map (fun r => if ar_id r =? ar_id c then ar_atualizada hoje r else r)
              (contas_receber db)
          = map (fun r => if ar_id r =? ar_id c then ar_atualizada hoje c else r)
                (contas_receber db)) as ->.
  { apply map_ext_in. intros r Hr. destruct (ar_id r =? ar_id c) eqn:E;
      [|reflexivity].
    apply Z.eqb_eq in E.
    rewrite (nodup_key_eq ar_id _ r c Hnd Hr Hin E). reflexivity. }
  unfold AccountsReceivable_atualizar_status, ar_atualizada.
  destruct (String.eqb (ar_status c) "pago") eqn:Ep.
  - unfold ret. f_equal.
    rewrite <- (set_contas_receber_same db) at 1. f_equal.
    rewrite <- (map_id (contas_receber db)) at 1. apply map_ext_in.
    intros r Hr. destruct (ar_id r =? ar_id c) eqn:E; [|reflexivity].
    apply Z.eqb_eq in E. apply (nodup_key_eq ar_id _ r c Hnd Hr Hin E).
  - unfold bind, AccountsReceivable_save, ret.
    rewrite (save_row_unique ar_id c _ _ Hin).
    + destruct (ltb _ _); reflexivity.
    + destruct (ltb _ _); reflexivity.
Qed.

Lemma existsb_ar_id_false (l : list AccountsReceivable) k :
  ~ In k (map ar_id l) -> existsb (fun c => ar_id c =? k) l = false.
Proof.
  intros H. destruct (existsb _ l) eqn:E; [|reflexivity].
  apply existsb_exists in E. destruct E as (x & Hx & Hk).
  apply Z.eqb_eq in Hk. exfalso. apply H. rewrite <- Hk. apply in_map. exact Hx.
Qed.

(** The loop over the accounts: every row whose key is in the list is
    brought up to date, the others stay. *)
Lemma for_each_atualizar_status hoje l : forall db,
  NoDup (map ar_id (contas_receber db)) ->
  NoDup (map ar_id l) ->
  incl l (contas_receber db) ->
  for_each l (fun conta =>
                AccountsReceivable_atualizar_status hoje conta ;;; ret tt) db
  = (Ok tt,
     set_contas_receber db
       (map (fun r => if existsb (fun c => ar_id c =? ar_id r) l
                      then ar_atualizada hoje r else r)
            (contas_receber db))).
Proof.
  induction l as [|c l IH]; intros db Hnd Hl Hincl.
  - cbn [for_each existsb]. unfold ret. rewrite map_id.
    rewrite set_contas_receber_same. reflexivity.
  - cbn [for_each]. inversion Hl as [|? ? Hc Hl']; subst.
    assert (In c (contas_receber db)) as Hin by (apply Hincl; left; reflexivity).
    unfold bind at 1. unfold bind at 1.
    rewrite (atualizar_status_step hoje c db Hnd Hin). unfold ret at 1.
    set (T1 := map (fun r => if ar_id r =? ar_id c
                             then ar_atualizada hoje r else r)
                   (contas_receber db)).
    assert (map ar_id T1 = map ar_id (contas_receber db)) as Hids.
    { subst T1. rewrite map_map. apply map_ext. intros r.
      destruct (ar_id r =? ar_id c); [apply ar_id_atualizada | reflexivity]. }
    rewrite IH.
    + cbn [contas_receber set_contas_receber]. rewrite set_contas_receber_twice.
      f_equal. f_equal. subst T1. rewrite map_map. apply map_ext. intros r.
      cbn [existsb]. rewrite (Z.eqb_sym (ar_id c) (ar_id r)).
      destruct (ar_id r =? ar_id c) eqn:E; cbn [orb]; [|reflexivity].
      apply Z.eqb_eq in E. rewrite ar_id_atualizada, E.
      rewrite (existsb_ar_id_false l (ar_id c) Hc). reflexivity.
    + cbn [contas_receber set_contas_receber]. rewrite Hids. exact Hnd.
    + exact Hl'.
    + intros x Hx. cbn [contas_receber set_contas_receber]. subst T1.
      apply in_map_iff. exists x. split.
      * destruct (ar_id x =? ar_id c) eqn:E; [|reflexivity].
        apply Z.eqb_eq in E. exfalso. apply Hc. rewrite <- E.
        apply in_map. exact Hx.
      * apply Hincl. right. exact Hx.
Qed.

Lemma NoDup_map_filter {A : Type} (key : A -> Z) (f : A -> bool) (l : list A) :
  NoDup (map key l) -> NoDup (map key (filter f l)).
Proof.
  induction l as [|a l IH]; intros H; [constructor|].
  simpl in H. inversion H as [|? ? Hn Hl]; subst. simpl.
  destruct (f a); [|apply IH; exact Hl].
  simpl. constructor; [|apply IH; exact Hl].
  intros Hin. apply Hn. apply in_map_iff in Hin.
  destruct Hin as (x & Hk & Hx). apply filter_In in Hx.
  apply in_map_iff. exists x. tauto.
Qed.

Section ListaReceberProvas.

Context {B : Builtins}.

Variable ordena : list AccountsReceivable -> list AccountsReceivable.
Hypothesis ordena_perm : forall l, Permutation (ordena l) l.

Lemma In_contas_do_usuario u db c :
  In c (contas_do_usuario ordena u db)
  <-> In c (contas_receber db) /\ ar_usuario c = u.
Proof.
  unfold contas_do_usuario. split.
  - intros H. apply (Permutation_in _ (ordena_perm _)) in H.
    apply filter_In in H. rewrite Z.eqb_eq in H. exact H.
  - intros [H1 H2]. apply (Permutation_in _ (Permutation_sym (ordena_perm _))).
    apply filter_In. rewrite Z.eqb_eq. tauto.
Qed.

(** The loop of the view. *)
Lemma atualiza_contas_do_usuario hoje u db :
  NoDup (map ar_id (contas_receber db)) ->
  for_each (contas_do_usuario ordena u db)
           (fun conta =>
              AccountsReceivable_atualizar_status hoje conta ;;; ret tt) db
  = (Ok tt,
     set_contas_receber db
       (map (fun c => if ar_usuario c =? u then ar_atualizada hoje c else c)
            (contas_receber db))).
Proof.
  intros Hnd. rewrite for_each_atualizar_status.
  - f_equal. f_equal. apply map_ext_in. intros r Hr.
    destruct (ar_usuario r =? u) eqn:E.
    + assert (existsb (fun c => ar_id c =? ar_id r)
                      (contas_do_usuario ordena u db) = true) as ->;
        [|reflexivity].
      apply existsb_exists. exists r. split; [|apply Z.eqb_refl].
      apply In_contas_do_usuario. apply Z.eqb_eq in E. tauto.
    + destruct (existsb _ _) eqn:X; [|reflexivity].
      apply existsb_exists in X. destruct X as (c & Hc & Hk).
      apply In_contas_do_usuario in Hc. destruct Hc as [Hc Hu].
      apply Z.eqb_eq in Hk.
      rewrite (nodup_key_eq ar_id _ c r Hnd Hc Hr Hk) in Hu.
      apply Z.eqb_neq in E. contradiction.
  - exact Hnd.
  - unfold contas_do_usuario.
    apply (Permutation_NoDup
             (Permutation_sym (Permutation_map ar_id (ordena_perm _)))).
    apply NoDup_map_filter. exact Hnd.
  - intros c Hc. apply In_contas_do_usuario in Hc. tauto.
Qed.

(** The database the view leaves is the one the loop leaves, whether the
    view renders or raises. *)
Lemma contas_receber_list_db hoje r q db :
  NoDup (map ar_id (contas_receber db)) ->
  snd (contas_receber_list ordena hoje r q db)
  = set_contas_receber db
      (map (fun c => if ar_usuario c =? user r
                     then ar_atualizada hoje c else c)
           (contas_receber db)).
Proof.
  intros Hnd. unfold contas_receber_list.
  unfold bind at 1. unfold bind at 1.
  rewrite (atualiza_contas_do_usuario hoje (user r) db Hnd).
  destruct (if existsb _ _ then _ else _) as [por_status status].
  unfold bind at 1.
  destruct (is_empty (GET_get q "cliente" "")).
  - reflexivity.
  - unfold bind, value_of.
    destruct (py_int (GET_get q "cliente" "")); reflexivity.
Qed.

End ListaReceberProvas.

Lemma insere_vencimento_perm c l : Permutation (insere_vencimento c l) (c :: l).
Proof.
  induction l as [|x l IH]; [apply Permutation_refl|].
  cbn [insere_vencimento]. destruct (ltb _ _); [|apply Permutation_refl].
  eapply Permutation_trans; [apply perm_skip, IH | apply perm_swap].
Qed.

Lemma ordena_vencimento_perm l : Permutation (ordena_vencimento l) l.
Proof.
  induction l as [|c l IH]; [apply Permutation_refl|].
  unfold ordena_vencimento. cbn [fold_right].
  eapply Permutation_trans; [apply insere_vencimento_perm|].
  apply perm_skip. exact IH.
Qed.

Lemma NoDup_db_lista : NoDup (map ar_id (contas_receber db_lista)).
Proof.
  cbn. repeat constructor; cbn; intros H;
    repeat (destruct H as [H|H]; [discriminate|]); exact H.
Qed.

Section ListaReceberEfeito.

Context {B : Builtins}.

Variable ordena : list AccountsReceivable -> list AccountsReceivable.
Hypothesis ordena_perm : forall l, Permutation (ordena l) l.

(** X16.  With unique primary keys, a visit to the list of receivable
    accounts stores the status that follows from the due date on every
    account of the user that is not paid, and changes nothing else: paid
    accounts, the accounts of other users and the other tables stay as
    they are.  This holds for every query string, also for one that
    makes the view raise, and for every order in which the database
    lists accounts with the same due date. *)
Theorem contas_receber_list_refreshes
        (hoje : date) (r : request) (q : list (string * string)) (db : DB) :
  NoDup (map ar_id (contas_receber db)) ->
  let db' := snd (contas_receber_list ordena hoje r q db) in
  db' = set_contas_receber db (contas_receber db')
  /\ contas_receber db'
     = map (fun c =>
              if (ar_usuario c =? user r)
                 && negb (String.eqb (ar_status c) "pago")
              then ar_with_status c
                     (if ltb (ar_data_vencimento c) hoje
                      then "vencido" else "pendente")
              else c)
           (contas_receber db).
Proof.
  intros Hnd db'. subst db'.
  rewrite (contas_receber_list_db ordena ordena_perm hoje r q db Hnd).
  split; [reflexivity|].
  cbn [contas_receber set_contas_receber]. apply map_ext. intros c.
  unfold ar_atualizada.
  destruct (ar_usuario c =? user r); [|reflexivity].
  destruct (String.eqb (ar_status c) "pago"); [reflexivity|].
  cbn [andb negb]. destruct (ltb _ _); reflexivity.
Qed.

(** X17.  With unique primary keys, a second visit to the list on the
    same day, with whatever query string, leaves the database as the
    first visit left it. *)
Theorem contas_receber_list_twice
        (hoje : date) (r : request) (q q' : list (string * string)) (db : DB) :
  NoDup (map ar_id (contas_receber db)) ->
  let db' := snd (contas_receber_list ordena hoje r q db) in
  snd (contas_receber_list ordena hoje r q' db') = db'.
Proof.
  intros Hnd db'. subst db'.
  rewrite (contas_receber_list_db ordena ordena_perm hoje r q db Hnd).
  rewrite (contas_receber_list_db ordena ordena_perm).
  - cbn [contas_receber set_contas_receber]. rewrite set_contas_receber_twice.
    f_equal. rewrite map_map. apply map_ext. intros c.
    destruct (ar_usuario c =? user r) eqn:E; [|rewrite E; reflexivity].
    rewrite ar_usuario_atualizada, E. apply ar_atualizada_idem.
  - cbn [contas_receber set_contas_receber]. rewrite map_map.
    erewrite map_ext; [exact Hnd|]. intros c. cbn beta.
    destruct (ar_usuario c =? user r); [apply ar_id_atualizada | reflexivity].
Qed.

End ListaReceberEfeito.

Lemma contas_receber_list_refreshes_witness :
  let db' := snd (contas_receber_list (B:=plain) ordena_vencimento hoje_lista
                    req_lista [("status", "todos")]%string db_lista) in
  db' = set_contas_receber db_lista (contas_receber db')
  /\ contas_receber db'
     = map (fun c =>
              if (ar_usuario c =? user req_lista)
                 && negb (String.eqb (ar_status c) "pago")
              then ar_with_status c
                     (if ltb (ar_data_vencimento c) hoje_lista
                      then "vencido" else "pendente")
              else c)
           (contas_receber db_lista).
Proof.
  apply (contas_receber_list_refreshes (B:=plain) ordena_vencimento
           ordena_vencimento_perm hoje_lista req_lista
           [("status", "todos")]%string db_lista).
  exact NoDup_db_lista.
Defined.

Lemma contas_receber_list_twice_witness :
  let db' := snd (contas_receber_list (B:=plain) ordena_vencimento hoje_lista
                    req_lista [("status", "todos")]%string db_lista) in
  snd (contas_receber_list (B:=plain) ordena_vencimento hoje_lista req_lista
         [("status", "pago"); ("cliente", "x")]%string db')
  = db'.
Proof.
  apply (contas_receber_list_twice (B:=plain) ordena_vencimento
           ordena_vencimento_perm hoje_lista req_lista
           [("status", "todos")]%string
           [("status", "pago"); ("cliente", "x")]%string db_lista).
  exact NoDup_db_lista.
Defined.

Lemma ar_valor_atualizada hoje c : ar_valor (ar_atualizada hoje c) = ar_valor c.
Proof.
  unfold ar_atualizada.
  destruct (String.eqb _ _); [reflexivity|].
  destruct (ltb _ _); reflexivity.
Qed.

(** The status an account is left with, read off the account before. *)
Lemma ar_status_atualizada hoje c st :
  String.eqb (ar_status (ar_atualizada hoje c)) st
  = if String.eqb (ar_status c) "pago" then String.eqb "pago" st
    else if ltb (ar_data_vencimento c) hoje then String.eqb "vencido" st
         else String.eqb "pendente" st.
Proof.
  unfold ar_atualizada.
  destruct (String.eqb (ar_status c) "pago") eqn:E.
  - apply String.eqb_eq in E. rewrite E. reflexivity.
  - destruct (ltb _ _); reflexivity.
Qed.

(** A sum over the accounts of one status, after the loop. *)
Lemma soma_receber_atualizada hoje u st db :
  soma_receber u st
    (set_contas_receber db
       (map (fun c => if ar_usuario c =? u then ar_atualizada hoje c else c)
            (contas_receber db)))
  = sum_Z (map ar_valor
               (filter (fun c =>
                          (ar_usuario c =? u)
                          && String.eqb (ar_status (ar_atualizada hoje c)) st)
                       (contas_receber db))).
Proof.
  unfold soma_receber. cbn [contas_receber set_contas_receber].
  induction (contas_receber db) as [|c T IH]; [reflexivity|].
  cbn [map filter]. destruct (ar_usuario c =? u) eqn:E.
  - rewrite ar_usuario_atualizada, E. cbn [andb].
    destruct (String.eqb (ar_status (ar_atualizada hoje c)) st).
    + cbn [map]. rewrite !sum_Z_cons, IH, ar_valor_atualizada. reflexivity.
    + exact IH.
  - rewrite E. cbn [andb]. exact IH.
Qed.

Lemma for_each_atualizar_status_ok hoje l : forall db,
  exists db1,
    for_each l (fun conta =>
                  AccountsReceivable_atualizar_status hoje conta ;;; ret tt) db
    = (Ok tt, db1).
Proof.
  induction l as [|c l IH]; intros db.
  - exists db. reflexivity.
  - cbn [for_each]. unfold bind at 1. unfold bind at 1.
    unfold AccountsReceivable_atualizar_status.
    destruct (String.eqb (ar_status c) "pago").
    + unfold ret at 1. unfold ret at 1. apply IH.
    + unfold bind at 1. unfold AccountsReceivable_save at 1.
      unfold ret at 1. unfold ret at 1. apply IH.
Qed.

Section ListaReceberContexto.

Context {B : Builtins}.

Variable ordena : list AccountsReceivable -> list AccountsReceivable.
Hypothesis ordena_perm : forall l, Permutation (ordena l) l.

(** The context of a list that is rendered. *)
Lemma contas_receber_list_ok hoje r q db ctx db' :
  NoDup (map ar_id (contas_receber db)) ->
  contas_receber_list ordena hoje r q db = (Ok ctx, db') ->
  db' = set_contas_receber db
          (map (fun c => if ar_usuario c =? user r
                         then ar_atualizada hoje c else c)
               (contas_receber db))
  /\ cr_contas_pendentes ctx = soma_receber (user r) "pendente" db'
  /\ cr_contas_vencidas ctx = soma_receber (user r) "vencido" db'
  /\ cr_contas_pagas ctx = soma_receber (user r) "pago" db'
  /\ cr_total_contas ctx = Z.of_nat (List.length (cr_contas_receber ctx))
  /\ cr_valor_total ctx = sum_Z (map ar_valor (cr_contas_receber ctx))
  /\ exists por_status,
       (if existsb (String.eqb (GET_get q "status" "pendente"))
                   ["pendente"; "vencido"; "pago"]%string
        then (fun c => String.eqb (ar_status c) (GET_get q "status" "pendente"),
              GET_get q "status" "pendente")
        else if String.eqb (GET_get q "status" "pendente") "todos"
             then (fun _ : AccountsReceivable => true,
                   GET_get q "status" "pendente")
             else (fun c => String.eqb (ar_status c) "pendente",
                   "pendente"%string))
       = (por_status, cr_status_filtro ctx)
       /\ incl (cr_contas_receber ctx)
               (filter por_status (contas_do_usuario ordena (user r) db')).
Proof.
  intros Hnd. unfold contas_receber_list.
  unfold bind at 1. unfold bind at 1.
  rewrite (atualiza_contas_do_usuario ordena ordena_perm hoje (user r) db Hnd).
  destruct (if existsb _ _ then _ else _) as [por_status status] eqn:Est.
  unfold bind at 1.
  assert (forall (f g h : AccountsReceivable -> bool) l,
             incl (filter f (filter g (filter h l))) l) as Hincl.
  { intros f g h l x Hx. apply filter_In in Hx. destruct Hx as [Hx _].
    apply filter_In in Hx. destruct Hx as [Hx _].
    apply filter_In in Hx. tauto. }
  destruct (is_empty (GET_get q "cliente" "")).
  - unfold ret at 1. intros H. injection H as <- <-.
    cbn [cr_contas_pendentes cr_contas_vencidas cr_contas_pagas cr_total_contas
         cr_valor_total cr_status_filtro cr_contas_receber].
    repeat (split; [reflexivity|]).
    exists por_status. split; [reflexivity | apply Hincl].
  - unfold bind at 1. unfold value_of.
    destruct (py_int (GET_get q "cliente" "")); [|discriminate].
    unfold ret at 1. unfold ret at 1. intros H. injection H as <- <-.
    cbn [cr_contas_pendentes cr_contas_vencidas cr_contas_pagas cr_total_contas
         cr_valor_total cr_status_filtro cr_contas_receber].
    repeat (split; [reflexivity|]).
    exists por_status. split; [reflexivity | apply Hincl].
Qed.

(** X18.  With unique primary keys, the three sums in the summary of the
    list are taken after the statuses are brought up to date: 'pago' sums
    the user's paid accounts, 'vencido' the unpaid ones due before today
    and 'pendente' the unpaid ones due today or later, whatever status
    was stored before; together they make the sum of all the accounts of
    the user. *)
Theorem contas_receber_list_summary
        (hoje : date) (r : request) (q : list (string * string)) (db db' : DB)
        (ctx : contexto_receber) :
  NoDup (map ar_id (contas_receber db)) ->
  contas_receber_list ordena hoje r q db = (Ok ctx, db') ->
  let soma f :=
    sum_Z (map ar_valor
               (filter (fun c => (ar_usuario c =? user r) && f c)
                       (contas_receber db))) in
  cr_contas_pagas ctx = soma (fun c => String.eqb (ar_status c) "pago")
  /\ cr_contas_vencidas ctx
     = soma (fun c => negb (String.eqb (ar_status c) "pago")
                      && ltb (ar_data_vencimento c) hoje)
  /\ cr_contas_pendentes ctx
     = soma (fun c => negb (String.eqb (ar_status c) "pago")
                      && negb (ltb (ar_data_vencimento c) hoje))
  /\ cr_contas_pendentes ctx + cr_contas_vencidas ctx + cr_contas_pagas ctx
     = soma (fun _ => true).
Proof.
  intros Hnd Hv soma.
  destruct (contas_receber_list_ok hoje r q db ctx db' Hnd Hv)
    as (-> & Hp & Hvc & Hpg & _).
  rewrite soma_receber_atualizada in Hp, Hvc, Hpg.
  assert (cr_contas_pagas ctx
          = soma (fun c => String.eqb (ar_status c) "pago")) as H1.
  { rewrite Hpg. subst soma. cbv beta. f_equal. f_equal. apply filter_ext.
    intros c. f_equal. rewrite ar_status_atualizada.
    destruct (String.eqb (ar_status c) "pago"); [reflexivity|].
    destruct (ltb _ _); reflexivity. }
  assert (cr_contas_vencidas ctx
          = soma (fun c => negb (String.eqb (ar_status c) "pago")
                           && ltb (ar_data_vencimento c) hoje)) as H2.
  { rewrite Hvc. subst soma. cbv beta. f_equal. f_equal. apply filter_ext.
    intros c. f_equal. rewrite ar_status_atualizada.
    destruct (String.eqb (ar_status c) "pago"); [reflexivity|].
    destruct (ltb _ _); reflexivity. }
  assert (cr_contas_pendentes ctx
          = soma (fun c => negb (String.eqb (ar_status c) "pago")
                           && negb (ltb (ar_data_vencimento c) hoje))) as H3.
  { rewrite Hp. subst soma. cbv beta. f_equal. f_equal. apply filter_ext.
    intros c. f_equal. rewrite ar_status_atualizada.
    destruct (String.eqb (ar_status c) "pago"); [reflexivity|].
    destruct (ltb _ _); reflexivity. }
  split; [exact H1|]. split; [exact H2|]. split; [exact H3|].
  rewrite H1, H2, H3. subst soma. cbv beta.
  clear Hnd Hv Hp Hvc Hpg H1 H2 H3.
  induction (contas_receber db) as [|c T IH]; [reflexivity|].
  cbn [filter]. destruct (ar_usuario c =? user r); cbn [andb]; [|exact IH].
  destruct (String.eqb (ar_status c) "pago"),
           (ltb (ar_data_vencimento c) hoje);
    cbn [andb negb map]; rewrite ?sum_Z_cons; lia.
Qed.

(** X19.  With unique primary keys, a list that is rendered shows only
    accounts of the user, with the status they are stored with after the
    visit; no account is shown as 'vencido' unless it is due before
    today, nor as 'pendente' when it is.  The status filter of the
    context is one of 'pendente', 'vencido', 'pago' and 'todos': any
    other value asked for is turned into 'pendente'; unless it is
    'todos', every account shown has that status.  The count and the
    total are those of the accounts shown. *)
Theorem contas_receber_list_shows
        (hoje : date) (r : request) (q : list (string * string)) (db db' : DB)
        (ctx : contexto_receber) :
  NoDup (map ar_id (contas_receber db)) ->
  contas_receber_list ordena hoje r q db = (Ok ctx, db') ->
  In (cr_status_filtro ctx) ["pendente"; "vencido"; "pago"; "todos"]%string
  /\ (cr_status_filtro ctx = GET_get q "status" "pendente"
      \/ cr_status_filtro ctx = "pendente"%string)
  /\ cr_total_contas ctx = Z.of_nat (List.length (cr_contas_receber ctx))
  /\ cr_valor_total ctx = sum_Z (map ar_valor (cr_contas_receber ctx))
  /\ forall c, In c (cr_contas_receber ctx) ->
       In c (contas_receber db')
       /\ ar_usuario c = user r
       /\ (cr_status_filtro ctx <> "todos"%string ->
           ar_status c = cr_status_filtro ctx)
       /\ (ar_status c = "vencido"%string ->
           lt (ar_data_vencimento c) hoje)
       /\ (ar_status c = "pendente"%string ->
           ~ lt (ar_data_vencimento c) hoje).
Proof.
  intros Hnd Hv.
  destruct (contas_receber_list_ok hoje r q db ctx db' Hnd Hv)
    as (Hdb & _ & _ & _ & Hn & Hs & por_status & Hst & Hincl).
  assert (In (cr_status_filtro ctx)
             ["pendente"; "vencido"; "pago"; "todos"]%string
          /\ (cr_status_filtro ctx = GET_get q "status" "pendente"
              \/ cr_status_filtro ctx = "pendente"%string)
          /\ forall c, por_status c = true ->
               cr_status_filtro ctx <> "todos"%string ->
               ar_status c = cr_status_filtro ctx) as (Hin & Hor & Hpor).
  { destruct (existsb _ _) eqn:E.
    - injection Hst as <- <-. split; [|split].
      + apply existsb_exists in E. destruct E as (x & Hx & Hxe).
        apply String.eqb_eq in Hxe. rewrite Hxe.
        cbn in Hx. cbn. tauto.
      + left. reflexivity.
      + intros c Hc _. apply String.eqb_eq. exact Hc.
    - destruct (String.eqb (GET_get q "status" "pendente") "todos") eqn:Et.
      + injection Hst as <- <-. apply String.eqb_eq in Et.
        split; [|split].
        * rewrite Et. cbn. tauto.
        * left. reflexivity.
        * intros c _ Hne. contradiction.
      + injection Hst as <- <-. split; [|split].
        * cbn. tauto.
        * right. reflexivity.
        * intros c Hc _. apply String.eqb_eq. exact Hc. }
  split; [exact Hin|]. split; [exact Hor|]. split; [exact Hn|].
  split; [exact Hs|].
  intros c Hc. apply Hincl in Hc. apply filter_In in Hc.
  destruct Hc as [Hc Hp].
  apply (In_contas_do_usuario ordena ordena_perm) in Hc. destruct Hc as [Hc Hu].
  split; [exact Hc|]. split; [exact Hu|]. split; [apply Hpor; exact Hp|].
  rewrite Hdb in Hc. cbn [contas_receber set_contas_receber] in Hc.
  apply in_map_iff in Hc. destruct Hc as (c0 & Hc0 & _).
  assert (c = ar_atualizada hoje c0) as ->.
  { revert Hc0 Hu. destruct (ar_usuario c0 =? user r) eqn:E; intros Hc0 Hu;
      [symmetry; exact Hc0|].
    subst c. apply Z.eqb_neq in E. contradiction. }
  unfold lt, ar_atualizada.
  destruct (String.eqb (ar_status c0) "pago") eqn:Ep.
  - apply String.eqb_eq in Ep. rewrite Ep. split; discriminate.
  - destruct (ltb (ar_data_vencimento c0) hoje) eqn:L; cbn;
      rewrite L; split; intros; try discriminate; try reflexivity.
Qed.

(** X20.  The list of receivable accounts is rendered unless the query
    string has a [cliente] that is not empty and is not a number; then
    the view raises ValueError, after the statuses are saved. *)
Theorem contas_receber_list_raises_iff
        (hoje : date) (r : request) (q : list (string * string)) (db : DB) :
  (fst (contas_receber_list ordena hoje r q db) = Raise ValueError
   <-> is_empty (GET_get q "cliente" "") = false
       /\ py_int (GET_get q "cliente" "") = None)
  /\ (fst (contas_receber_list ordena hoje r q db) = Raise ValueError
      \/ exists ctx, fst (contas_receber_list ordena hoje r q db) = Ok ctx).
Proof.
  remember (contas_receber_list ordena hoje r q db) as v eqn:Ev.
  unfold contas_receber_list in Ev.
  unfold bind at 1 in Ev. unfold bind at 1 in Ev.
  destruct (for_each_atualizar_status_ok hoje
              (contas_do_usuario ordena (user r) db) db) as [db1 Hl].
  rewrite Hl in Ev.
  destruct (if existsb _ _ then _ else _) as [por_status status].
  unfold bind at 1 in Ev.
  destruct (is_empty (GET_get q "cliente" "")).
  - unfold ret at 1 in Ev. subst v. cbn [fst]. split.
    + split; [discriminate | intros [H _]; discriminate].
    + right. eexists. reflexivity.
  - unfold bind, value_of in Ev.
    destruct (py_int (GET_get q "cliente" "")).
    + unfold ret at 1 in Ev. unfold ret at 1 in Ev. subst v. cbn [fst]. split.
      * split; [discriminate | intros [_ H]; discriminate].
      * right. eexists. reflexivity.
    + unfold raise in Ev. subst v. cbn [fst]. split.
      * split; [split; reflexivity | reflexivity].
      * left. reflexivity.
Qed.

End ListaReceberContexto.

Lemma contas_receber_list_summary_witness :
  cr_contas_pagas ctx_lista = 8000
  /\ cr_contas_vencidas ctx_lista = 1000
  /\ cr_contas_pendentes ctx_lista = 2500
  /\ cr_contas_pendentes ctx_lista + cr_contas_vencidas ctx_lista
     + cr_contas_pagas ctx_lista
     = 11500.
Proof.
  exact (contas_receber_list_summary (B:=plain) ordena_vencimento
           ordena_vencimento_perm hoje_lista req_lista
           [("status", "todos")]%string db_lista db_lista_vista ctx_lista
           NoDup_db_lista eq_refl).
Defined.

Lemma contas_receber_list_shows_witness :
  In (cr_status_filtro ctx_lista_outro)
     ["pendente"; "vencido"; "pago"; "todos"]%string
  /\ (cr_status_filtro ctx_lista_outro
      = GET_get [("status", "atrasado")]%string "status" "pendente"
      \/ cr_status_filtro ctx_lista_outro = "pendente"%string)
  /\ cr_total_contas ctx_lista_outro
     = Z.of_nat (List.length (cr_contas_receber ctx_lista_outro))
  /\ cr_valor_total ctx_lista_outro
     = sum_Z (map ar_valor (cr_contas_receber ctx_lista_outro))
  /\ forall c, In c (cr_contas_receber ctx_lista_outro) ->
       In c (contas_receber db_lista_vista)
       /\ ar_usuario c = user req_lista
       /\ (cr_status_filtro ctx_lista_outro <> "todos"%string ->
           ar_status c = cr_status_filtro ctx_lista_outro)
       /\ (ar_status c = "vencido"%string ->
           lt (ar_data_vencimento c) hoje_lista)
       /\ (ar_status c = "pendente"%string ->
           ~ lt (ar_data_vencimento c) hoje_lista).
Proof.
  apply (contas_receber_list_shows (B:=plain) ordena_vencimento
           ordena_vencimento_perm hoje_lista req_lista
           [("status", "atrasado")]%string db_lista db_lista_vista
           ctx_lista_outro).
  - exact NoDup_db_lista.
  - vm_compute. reflexivity.
Defined.

(** ** The dashboard *)

Lemma ar_data_vencimento_atualizada hoje c :
  ar_data_vencimento (ar_atualizada hoje c) = ar_data_vencimento c.
Proof.
  unfold ar_atualizada.
  destruct (String.eqb _ _); [reflexivity|].
  destruct (ltb _ _); reflexivity.
Qed.

(** A filter on the accounts of a user, after the loop of the list. *)
Lemma filter_usuario_atualizada hoje u (p : AccountsReceivable -> bool) T :
  map ar_valor
      (filter p
         (filter (fun c => ar_usuario c =? u)
            (map (fun c => if ar_usuario c =? u
                           then ar_atualizada hoje c else c) T)))
  = map ar_valor
        (filter (fun c => (ar_usuario c =? u) && p (ar_atualizada hoje c)) T).
Proof.
  induction T as [|c T IH]; [reflexivity|].
  cbn [map filter]. destruct (ar_usuario c =? u) eqn:E.
  - rewrite ar_usuario_atualizada, E. cbn [filter andb].
    destruct (p (ar_atualizada hoje c)); [|exact IH].
    cbn [map]. rewrite IH, ar_valor_atualizada. reflexivity.
  - rewrite E. cbn [andb]. exact IH.
Qed.


Lemma filter_none {A : Type} (f : A -> bool) (l : list A) :
  (forall x, In x l -> f x = false) -> filter f l = [].
Proof.
  intros H. induction l as [|a l IH]; [reflexivity|].
  simpl. rewrite (H a (or_introl eq_refl)). apply IH.
  intros x Hx. apply H. right. exact Hx.
Qed.

Section Painel.

Context {B : Builtins}.

Variable ordena : list AccountsReceivable -> list AccountsReceivable.
Hypothesis ordena_perm : forall l, Permutation (ordena l) l.

(** X21.  With unique primary keys, the dashboard opened after a visit to
    the list of receivable accounts on the same day tells the truth
    about the accounts of the user: the overdue sum is the sum of the
    unpaid accounts due before today, the sum due today that of the
    unpaid accounts due today, and the number of pending accounts the
    number of unpaid accounts due today or later. *)
Theorem home_view_after_list
        (hoje : date) (r : request) (q : list (string * string)) (db : DB) :
  NoDup (map ar_id (contas_receber db)) ->
  let h := home_view hoje r
             (snd (contas_receber_list ordena hoje r q db)) in
  let aberta f :=
    filter (fun c => (ar_usuario c =? user r)
                     && (negb (String.eqb (ar_status c) "pago") && f c))
           (contas_receber db) in
  contas_receber_vencidas h
  = sum_Z (map ar_valor (aberta (fun c => ltb (ar_data_vencimento c) hoje)))
  /\ contas_receber_hoje h
     = sum_Z (map ar_valor
                  (aberta (fun c => date_eqb (ar_data_vencimento c) hoje)))
  /\ contas_receber_pendentes h
     = Z.of_nat (List.length
                   (aberta (fun c => negb (ltb (ar_data_vencimento c) hoje)))).
Proof.
  intros Hnd h aberta. subst h aberta. cbv beta.
  rewrite (contas_receber_list_db ordena ordena_perm hoje r q db Hnd).
  unfold home_view.
  cbn [contas_receber_vencidas contas_receber_hoje contas_receber_pendentes
       contas_receber set_contas_receber].
  split; [|split].
  - rewrite filter_usuario_atualizada. f_equal. f_equal.
    apply filter_ext. intros c. f_equal. rewrite ar_status_atualizada.
    destruct (String.eqb (ar_status c) "pago"); [reflexivity|].
    destruct (ltb _ _); reflexivity.
  - rewrite filter_usuario_atualizada. f_equal. f_equal.
    apply filter_ext. intros c. f_equal.
    rewrite ar_data_vencimento_atualizada. cbn [existsb].
    rewrite !ar_status_atualizada.
    destruct (String.eqb (ar_status c) "pago"); cbn [negb andb];
      [apply andb_false_r|].
    destruct (ltb _ _); cbn; destruct (date_eqb _ _); reflexivity.
  - f_equal. rewrite <- (length_map ar_valor).
    rewrite filter_usuario_atualizada, length_map. f_equal.
    apply filter_ext. intros c. f_equal. rewrite ar_status_atualizada.
    destruct (String.eqb (ar_status c) "pago"); [reflexivity|].
    destruct (ltb _ _); reflexivity.
Qed.


End Painel.

Lemma home_view_after_list_witness :
  let h := home_view hoje_lista req_lista db_lista_vista in
  contas_receber_vencidas h = 1000
  /\ contas_receber_hoje h = 500
  /\ contas_receber_pendentes h = 2.
Proof.
  exact (home_view_after_list (B:=plain) ordena_vencimento
           ordena_vencimento_perm hoje_lista req_lista
           [("status", "todos")]%string db_lista NoDup_db_lista).
Defined.


(** ** Tables the sale views never write *)

Section Intocadas.

Context {B : Builtins}.

Variable db0 : DB.

Let intocadas (db : DB) : Prop :=
  clients db = clients db0
  /\ products db = products db0
  /\ contas_pagar db = contas_pagar db0.

Lemma hoare_processa_item_intocadas usuario k t :
  hoare intocadas (processa_item usuario k t) (fun _ => intocadas) intocadas.
Proof.
  intros db Hp. destruct t as [[pid q] p].
  destruct (processa_item_cases usuario k pid q p db)
    as [[_ Hr] | [_ (kk & n & x & db1 & _ & _ & _ & Hr & _ & Hframe)]];
    rewrite Hr; [exact Hp|].
  destruct Hframe as (H1 & H2 & _ & H3 & _). destruct Hp as (P1 & P2 & P3).
  unfold intocadas. rewrite H1, H2, H3. auto.
Qed.

Lemma hoare_cria_parcela_intocadas usuario k cliente dv valor parcelas i :
  hoare intocadas (cria_parcela usuario k cliente dv valor parcelas i)
        (fun _ => intocadas) intocadas.
Proof.
  intros db Hp. unfold cria_parcela, bind, value_of.
  destruct (data_parcela dv i) as [data|]; exact Hp.
Qed.

Lemma hoare_venda_create_try_intocadas r cliente forma dvs ps obs :
  hoare intocadas (venda_create_try r cliente forma dvs ps obs)
        (fun _ => intocadas) intocadas.
Proof.
  unfold venda_create_try.
  eapply hoare_bind; [apply hoare_value_of|]. intros dv.
  eapply hoare_bind; [apply hoare_converte_parcelas|]. intros p.
  eapply (hoare_bind _ _ _ (fun _ => intocadas)).
  { intros db Hp. exact Hp. }
  intros venda. destruct (POST_getlist r "produto_id[]") as [|pid0 pids].
  - eapply (hoare_bind _ _ _ (fun _ => intocadas)).
    + intros db Hp. exact Hp.
    + intros ?. apply hoare_ret. auto.
  - eapply hoare_bind;
      [apply hoare_for_each; intros t; apply hoare_processa_item_intocadas|].
    intros ?.
    eapply (hoare_bind _ _ _ (fun _ => intocadas)).
    { intros db Hp. exact Hp. }
    intros total.
    eapply hoare_bind;
      [apply hoare_for_each; intros i; apply hoare_cria_parcela_intocadas|].
    intros ?. apply hoare_ret. auto.
Qed.

Lemma venda_create_intocadas r : intocadas (snd (venda_create r db0)).
Proof.
  assert (intocadas db0) as Hp by (repeat split).
  unfold venda_create.
  destruct (String.eqb (method r) "POST"); [|exact Hp].
  destruct (is_empty (POST_get r "cliente" "")); [exact Hp|].
  destruct (is_empty (POST_get r "data_vencimento" "")); [exact Hp|].
  pose proof (Client_objects_get_state (POST_get r "cliente" "") (user r) db0)
    as Hs.
  destruct (Client_objects_get _ _ db0) as [[cliente|e] db1]; simpl in Hs;
    subst db1.
  - pose proof (hoare_venda_create_try_intocadas r cliente
                  (POST_get r "forma_pagamento" "dinheiro")
                  (POST_get r "data_vencimento" "")
                  (POST_get r "parcelas" "1")
                  (py_strip (POST_get r "observacoes" "")) db0 Hp) as H.
    destruct (venda_create_try _ _ _ _ _ _ db0) as [[resp|e] db2]; exact H.
  - destruct e as [|[]]; exact Hp.
Qed.

End Intocadas.

Section Intocadas2.

Context {B : Builtins}.

(** X23.  However they end, [venda_create] and [venda_delete] write no
    row of the tables of clients, of products and of payable accounts:
    a sale reads the products it sells and stores nothing on them. *)
Theorem vendas_leave_products (r : request) (pk : Z) (db : DB) :
  (let db' := snd (venda_create r db) in
   clients db' = clients db
   /\ products db' = products db
   /\ contas_pagar db' = contas_pagar db)
  /\ (let db' := snd (venda_delete r pk db) in
      clients db' = clients db
      /\ products db' = products db
      /\ contas_pagar db' = contas_pagar db).
Proof.
  split.
  - exact (venda_create_intocadas db r).
  - cbv zeta. unfold venda_delete, Sale_objects_get.
    destruct (find _ (sales db)) as [venda|]; [|repeat split].
    destruct (String.eqb (method r) "POST"); repeat split.
Qed.

End Intocadas2.

(** ** The stock of a product *)

Lemma Forall_save_row {A : Type} (P : A -> Prop) (key : A -> Z) row l :
  Forall P l -> P row -> Forall P (save_row key row l).
Proof.
  intros Hl Hr. unfold save_row. destruct (existsb _ l).
  - rewrite Forall_forall in *. intros x Hx. apply in_map_iff in Hx.
    destruct Hx as (y & <- & Hy). destruct (key y =? key row); auto.
  - apply Forall_app. split; [exact Hl | constructor; [exact Hr | constructor]].
Qed.

Lemma find_produto pk u t produto :
  find (fun p => (p_id p =? pk) && (p_usuario p =? u)) t = Some produto ->
  In produto t /\ p_id produto = pk /\ p_usuario produto = u.
Proof.
  intros H. apply find_some in H. destruct H as [Hin H].
  apply andb_true_iff in H. rewrite !Z.eqb_eq in H. tauto.
Qed.

Section AjusteDeEstoqueProvas.

Context {B : Builtins}.

Variable cabe : Z -> bool.

(** An adjustment that is accepted. *)
Lemma produto_ajustar_estoque_result r pk t produto q :
  find (fun p => (p_id p =? pk) && (p_usuario p =? user r)) t = Some produto ->
  method r = "POST"%string ->
  py_int (py_strip (POST_get r "quantidade" "0")) = Some q ->
  0 < q ->
  let adiciona := String.eqb (POST_get r "operacao" "adicionar") "adicionar" in
  let novo := if adiciona then p_estoque produto + q
              else p_estoque produto - q in
  (adiciona = false -> q <= p_estoque produto) ->
  cabe novo = true ->
  produto_ajustar_estoque cabe r pk t
  = (ParaDetalhe pk
       ((if adiciona then Adicionado q else Removido q)
          (if is_empty (py_strip (POST_get r "motivo" "")) then None
           else Some (py_strip (POST_get r "motivo" "")))),
     save_row p_id (com_estoque produto novo) t).
Proof.
  intros Hf Hm Hq Hpos adiciona novo Hrem Hcabe.
  unfold produto_ajustar_estoque. rewrite Hf, Hm, Hq.
  rewrite String.eqb_refl.
  destruct (Z.leb_spec q 0) as [Hle|_]; [lia|].
  subst novo. fold adiciona. destruct adiciona.
  - unfold salva_estoque. cbn [p_estoque com_estoque]. rewrite Hcabe.
    reflexivity.
  - destruct (Z.ltb_spec (p_estoque produto) q) as [Hlt|_];
      [specialize (Hrem eq_refl); lia|].
    unfold salva_estoque. cbn [p_estoque com_estoque]. rewrite Hcabe.
    reflexivity.
Qed.

(** X24.  No adjustment takes the stock of a product below zero: when no
    stock of the table is negative before the view, none is after it,
    whatever the request and whatever the database can hold. *)
Theorem produto_ajustar_estoque_never_negative
        (r : request) (pk : Z) (t : list Produto) :
  Forall (fun p => 0 <= p_estoque p) t ->
  Forall (fun p => 0 <= p_estoque p)
         (snd (produto_ajustar_estoque cabe r pk t)).
Proof.
  intros Ht. unfold produto_ajustar_estoque.
  destruct (find _ t) as [produto|] eqn:Hf; [|exact Ht].
  apply find_produto in Hf. destruct Hf as (Hin & _ & _).
  assert (0 <= p_estoque produto) as He.
  { rewrite Forall_forall in Ht. apply Ht. exact Hin. }
  destruct (String.eqb (method r) "POST"); [|exact Ht].
  destruct (py_int _) as [q|]; [|exact Ht].
  destruct (Z.leb_spec q 0) as [_|Hq]; [exact Ht|].
  destruct (String.eqb _ "adicionar").
  - unfold salva_estoque. destruct (cabe _); [|exact Ht].
    apply Forall_save_row; [exact Ht | cbn; lia].
  - destruct (Z.ltb_spec (p_estoque produto) q) as [_|Hge]; [exact Ht|].
    unfold salva_estoque. destruct (cabe _); [|exact Ht].
    apply Forall_save_row; [exact Ht | cbn; lia].
Qed.

(** X25.  With unique primary keys, an accepted adjustment changes the
    stock of the product of the request by the quantity, up for the
    operation 'adicionar' and down for every other operation, and touches
    no other product; the user is sent to the page of the product. *)
Theorem produto_ajustar_estoque_effect
        (r : request) (pk : Z) (t : list Produto) (produto : Produto) (q : Z) :
  NoDup (map p_id t) ->
  find (fun p => (p_id p =? pk) && (p_usuario p =? user r)) t = Some produto ->
  method r = "POST"%string ->
  py_int (py_strip (POST_get r "quantidade" "0")) = Some q ->
  0 < q ->
  let adiciona := String.eqb (POST_get r "operacao" "adicionar") "adicionar" in
  let novo := if adiciona then p_estoque produto + q
              else p_estoque produto - q in
  (adiciona = false -> q <= p_estoque produto) ->
  cabe novo = true ->
  exists msg,
    produto_ajustar_estoque cabe r pk t
    = (ParaDetalhe pk msg,
       map (fun p => if p_id p =? pk
                     then mkProduto (p_id p) (p_usuario p) novo else p) t).
Proof.
  intros Hnd Hf Hm Hq Hpos adiciona novo Hrem Hcabe.
  eexists.
  rewrite (produto_ajustar_estoque_result r pk t produto q Hf Hm Hq Hpos
             Hrem Hcabe).
  f_equal. apply find_produto in Hf. destruct Hf as (Hin & Hpk & _).
  subst novo adiciona. cbv zeta.
  rewrite (save_row_unique p_id produto (com_estoque produto _) t Hin
             eq_refl), Hpk.
  apply map_ext_in. intros p Hp. destruct (p_id p =? pk) eqn:E; [|reflexivity].
  apply Z.eqb_eq in E.
  rewrite (nodup_key_eq p_id t p produto Hnd Hp Hin) by congruence.
  reflexivity.
Qed.

(** X26.  The table of products changes only when the product of the
    request belongs to the user, the request is a POST, the quantity is
    a number greater than zero, a removal does not ask for more than
    the stock, and the database can hold the new stock. *)
Theorem produto_ajustar_estoque_changes_only_if
        (r : request) (pk : Z) (t : list Produto) :
  snd (produto_ajustar_estoque cabe r pk t) <> t ->
  exists produto q,
    find (fun p => (p_id p =? pk) && (p_usuario p =? user r)) t = Some produto
    /\ method r = "POST"%string
    /\ py_int (py_strip (POST_get r "quantidade" "0")) = Some q
    /\ 0 < q
    /\ (POST_get r "operacao" "adicionar" <> "adicionar"%string ->
        q <= p_estoque produto)
    /\ cabe (if String.eqb (POST_get r "operacao" "adicionar") "adicionar"
             then p_estoque produto + q else p_estoque produto - q) = true.
Proof.
  unfold produto_ajustar_estoque.
  destruct (find _ t) as [produto|]; [|intros H; contradiction H; reflexivity].
  destruct (String.eqb (method r) "POST") eqn:Hm;
    [|intros H; contradiction H; reflexivity].
  destruct (py_int _) as [q|]; [|intros H; contradiction H; reflexivity].
  destruct (Z.leb_spec q 0) as [_|Hq]; [intros H; contradiction H; reflexivity|].
  apply String.eqb_eq in Hm.
  destruct (String.eqb _ "adicionar") eqn:Eo.
  - unfold salva_estoque. cbn [p_estoque com_estoque].
    destruct (cabe _) eqn:Ec; [|intros H; contradiction H; reflexivity].
    intros _. exists produto, q. apply String.eqb_eq in Eo.
    repeat split; try assumption; try reflexivity. intros H. contradiction.
  - destruct (Z.ltb_spec (p_estoque produto) q) as [_|Hge];
      [intros H; contradiction H; reflexivity|].
    unfold salva_estoque. cbn [p_estoque com_estoque].
    destruct (cabe _) eqn:Ec; [|intros H; contradiction H; reflexivity].
    intros _. exists produto, q.
    repeat split; try assumption; try reflexivity. intros _. lia.
Qed.


End AjusteDeEstoqueProvas.

Lemma NoDup_tabela_estoque : NoDup (map p_id tabela_estoque).
Proof.
  cbn. repeat constructor; cbn; intros H;
    repeat (destruct H as [H|H]; [discriminate|]); exact H.
Qed.

Lemma produto_ajustar_estoque_never_negative_witness :
  Forall (fun p => 0 <= p_estoque p)
         (snd (produto_ajustar_estoque (B:=plain) cabe32
                 (req_estoque "remover" "3") 1 tabela_estoque)).
Proof.
  apply (produto_ajustar_estoque_never_negative (B:=plain) cabe32
           (req_estoque "remover" "3") 1 tabela_estoque).
  repeat constructor; cbn; lia.
Defined.

Lemma produto_ajustar_estoque_effect_witness :
  exists msg,
    produto_ajustar_estoque (B:=plain) cabe32 (req_estoque "retirar" "3") 1
                            tabela_estoque
    = (ParaDetalhe 1 msg, [mkProduto 1 7 7; mkProduto 2 7 0; mkProduto 3 8 5]).
Proof.
  apply (produto_ajustar_estoque_effect (B:=plain) cabe32
           (req_estoque "retirar" "3") 1 tabela_estoque (mkProduto 1 7 10) 3).
  - exact NoDup_tabela_estoque.
  - reflexivity.
  - reflexivity.
  - reflexivity.
  - lia.
  - intros _. cbn. lia.
  - reflexivity.
Defined.

Lemma produto_ajustar_estoque_changes_only_if_witness :
  exists produto q,
    find (fun p => (p_id p =? 1) && (p_usuario p =? 7)) tabela_estoque
    = Some produto
    /\ method (req_estoque "adicionar" "3") = "POST"%string
    /\ py_int (Builtins:=plain)
              (py_strip (Builtins:=plain)
                        (POST_get (req_estoque "adicionar" "3")
                                  "quantidade" "0")) = Some q
    /\ 0 < q
    /\ (POST_get (req_estoque "adicionar" "3") "operacao" "adicionar"
        <> "adicionar"%string -> q <= p_estoque produto)
    /\ cabe32 (if String.eqb (POST_get (req_estoque "adicionar" "3")
                                       "operacao" "adicionar") "adicionar"
               then p_estoque produto + q else p_estoque produto - q) = true.
Proof.
  apply (produto_ajustar_estoque_changes_only_if (B:=plain) cabe32
           (req_estoque "adicionar" "3") 1 tabela_estoque).
  vm_compute. discriminate.
Defined.


(** ** The command that creates the brands *)

Lemma filter_nome_absent nome l :
  ~ In nome (map marca_nome l) ->
  filter (fun m => String.eqb (marca_nome m) nome) l = [].
Proof.
  intros H. apply filter_none. intros m Hm. apply String.eqb_neq.
  intros E. apply H. rewrite <- E. apply in_map. exact Hm.
Qed.

Lemma filter_nome_present nome l :
  NoDup (map marca_nome l) -> In nome (map marca_nome l) ->
  exists m, filter (fun m => String.eqb (marca_nome m) nome) l = [m].
Proof.
  induction l as [|a l IH]; intros Hnd Hin; [destruct Hin|].
  cbn [map] in Hnd. inversion Hnd as [|? ? Hn Hl]; subst.
  cbn [filter]. destruct (String.eqb (marca_nome a) nome) eqn:E.
  - apply String.eqb_eq in E. exists a. f_equal.
    apply filter_nome_absent. rewrite <- E. exact Hn.
  - apply String.eqb_neq in E. destruct Hin as [Hin|Hin]; [contradiction|].
    apply IH; assumption.
Qed.

(** The loop creates the names that are missing, after the rows that
    are there, and nothing else. *)
Lemma cria_marcas_spec nomes : forall t,
  NoDup (map marca_nome (marcas t)) ->
  exists linhas novas,
    cria_marcas nomes t
    = (Some linhas,
       mkTabelaMarcas (marcas t ++ novas)
                      (seq_marca t + Z.of_nat (List.length novas)))
    /\ NoDup (map marca_nome (marcas t ++ novas))
    /\ (forall n, In n nomes -> In n (map marca_nome (marcas t ++ novas)))
    /\ (forall m, In m novas ->
          In (marca_nome m) nomes /\ ~ In (marca_nome m) (map marca_nome (marcas t))).
Proof.
  induction nomes as [|n nomes IH]; intros t Hnd.
  - exists [], []. cbn [cria_marcas List.length]. rewrite app_nil_r, Z.add_0_r.
    split; [destruct t; reflexivity|]. split; [exact Hnd|].
    split; intros ? [].
  - cbn [cria_marcas]. unfold Marca_get_or_create.
    destruct (in_dec string_dec n (map marca_nome (marcas t))) as [Hin|Hout].
    + destruct (filter_nome_present n _ Hnd Hin) as [m ->].
      destruct (IH t Hnd) as (linhas & novas & -> & H1 & H2 & H3).
      exists (MarcaJaExiste n :: linhas), novas.
      split; [reflexivity|]. split; [exact H1|]. split.
      * intros x [<-|Hx]; [|apply H2; exact Hx].
        rewrite map_app. apply in_or_app. left. exact Hin.
      * intros x Hx. destruct (H3 x Hx) as [Ha Hb]. split; [right|]; assumption.
    + rewrite (filter_nome_absent n _ Hout).
      set (m0 := mkMarca (seq_marca t) n).
      destruct (IH (mkTabelaMarcas (marcas t ++ [m0]) (seq_marca t + 1)))
        as (linhas & novas & -> & H1 & H2 & H3).
      { cbn [marcas]. rewrite map_app. cbn [map marca_nome m0].
        apply NoDup_app.
        - exact Hnd.
        - constructor; [intros [] | constructor].
        - intros x Hx [<-|[]]. contradiction. }
      cbn [marcas seq_marca] in *.
      exists (MarcaCriada n :: linhas), (m0 :: novas).
      rewrite <- app_assoc in *. cbn [app] in *.
      split; [|split; [exact H1|split]].
      * cbn [List.length]. do 2 f_equal. lia.
      * intros x [<-|Hx]; [|apply H2; exact Hx].
        rewrite map_app. apply in_or_app. right. left. reflexivity.
      * intros x [<-|Hx].
        -- split; [left; reflexivity | exact Hout].
        -- destruct (H3 x Hx) as [Ha Hb]. split; [right; exact Ha|].
           intros Hc. apply Hb. rewrite map_app. apply in_or_app. left.
           exact Hc.
Qed.

(** When every name is there, the loop creates nothing. *)
Lemma cria_marcas_present nomes t :
  NoDup (map marca_nome (marcas t)) ->
  (forall n, In n nomes -> In n (map marca_nome (marcas t))) ->
  cria_marcas nomes t = (Some (map MarcaJaExiste nomes), t).
Proof.
  intros Hnd. induction nomes as [|n nomes IH]; intros Hall; [reflexivity|].
  cbn [cria_marcas map]. unfold Marca_get_or_create.
  destruct (filter_nome_present n _ Hnd (Hall n (or_introl eq_refl))) as [m ->].
  rewrite IH; [reflexivity|]. intros x Hx. apply Hall. right. exact Hx.
Qed.

(** X28.  On a table where no name is repeated, the command ends
    normally; it keeps every row, adds after them one row for each of
    the four default names that was missing and no other row, so that
    all four names are in the table and still no name is repeated. *)
Theorem handle_creates_missing (t : TabelaMarcas) :
  NoDup (map marca_nome (marcas t)) ->
  exists linhas novas,
    handle t
    = (Some linhas,
       mkTabelaMarcas (marcas t ++ novas)
                      (seq_marca t + Z.of_nat (List.length novas)))
    /\ NoDup (map marca_nome (marcas t ++ novas))
    /\ (forall n, In n marcas_padrao ->
          In n (map marca_nome (marcas t ++ novas)))
    /\ (forall m, In m novas ->
          In (marca_nome m) marcas_padrao
          /\ ~ In (marca_nome m) (map marca_nome (marcas t))).
Proof.
  intros Hnd. unfold handle.
  destruct (cria_marcas_spec marcas_padrao t Hnd)
    as (linhas & novas & -> & H1 & H2 & H3).
  exists (linhas ++ [MarcasPadraoCriadas]), novas.
  split; [reflexivity|]. split; [exact H1|]. split; assumption.
Qed.

(** X29.  On a table where no name is repeated, a second run of the
    command creates nothing: it reports that each of the four names
    exists and leaves the table as the first run left it. *)
Theorem handle_twice (t : TabelaMarcas) :
  NoDup (map marca_nome (marcas t)) ->
  handle (snd (handle t))
  = (Some (map MarcaJaExiste marcas_padrao ++ [MarcasPadraoCriadas]),
     snd (handle t)).
Proof.
  intros Hnd. unfold handle at 2 3.
  destruct (cria_marcas_spec marcas_padrao t Hnd)
    as (linhas & novas & -> & H1 & H2 & _).
  cbn [snd]. unfold handle.
  rewrite cria_marcas_present; [reflexivity | exact H1 | exact H2].
Qed.

Lemma NoDup_tabela_marcas : NoDup (map marca_nome (marcas tabela_marcas)).
Proof.
  cbn. repeat constructor; cbn; intros H;
    repeat (destruct H as [H|H]; [discriminate|]); exact H.
Qed.

Lemma handle_creates_missing_witness :
  exists linhas novas,
    handle tabela_marcas
    = (Some linhas,
       mkTabelaMarcas (marcas tabela_marcas ++ novas)
                      (seq_marca tabela_marcas + Z.of_nat (List.length novas)))
    /\ NoDup (map marca_nome (marcas tabela_marcas ++ novas))
    /\ (forall n, In n marcas_padrao ->
          In n (map marca_nome (marcas tabela_marcas ++ novas)))
    /\ (forall m, In m novas ->
          In (marca_nome m) marcas_padrao
          /\ ~ In (marca_nome m) (map marca_nome (marcas tabela_marcas))).
Proof.
  apply (handle_creates_missing tabela_marcas). exact NoDup_tabela_marcas.
Defined.

Lemma handle_twice_witness :
  handle (snd (handle tabela_marcas))
  = (Some (map MarcaJaExiste marcas_padrao ++ [MarcasPadraoCriadas]),
     snd (handle tabela_marcas)).
Proof.
  apply (handle_twice tabela_marcas). exact NoDup_tabela_marcas.
Defined.

(** The run on that table: 'Avon' exists, the other three are created
    with the keys 3, 4 and 5. *)
Example handle_tabela_marcas :
  handle tabela_marcas
  = (Some [MarcaCriada "Natura"; MarcaCriada "Boticário"; MarcaCriada "Racco";
           MarcaJaExiste "Avon"; MarcasPadraoCriadas],
     mkTabelaMarcas [mkMarca 1 "Avon"; mkMarca 2 "Eudora"; mkMarca 3 "Natura";
                     mkMarca 4 "Boticário"; mkMarca 5 "Racco"] 6).
Proof. reflexivity. Qed.
